(** * The validated repository of the project-management application

    A shallow embedding of [design_pattern/repository/repository.py],
    [design_pattern/factory/factory.py] and [logic/entities.py], together
    with the parts of Python ([re], [datetime.strptime], truthiness) and of
    SQLite (the three tables of [_initialize_database] with their
    constraints) that the repository's behaviour depends on.

    Conventions of the embedding:
    - a Python [str] is a [string]; an [Optional[str]] argument or a
      nullable [TEXT] column is an [option string]; an [Optional[int]] or a
      nullable [INTEGER] column is an [option Z];
    - the [string] of a [str] holds the bytes of its UTF-8 encoding; the
      class [\d] of [re] and the digits of [int()] are the decimal digits
      of Unicode, read off the code points that the bytes encode;
    - an id that a caller passes is any integer, and [sqlite3] raises
      [OverflowError] when it has to bind one outside the 64-bit range of
      the integers of SQLite; the ids that the tables assign are not
      bounded: the counter of a table never runs out;
    - a repository method is a function from the database to a result
      (a returned value or a raised exception) and the database afterwards. *)

From Stdlib Require Import ZArith NArith Ascii String List Bool Lia Sorted.
From stdpp Require Import base option list gmap fin_maps strings.

Local Open Scope Z_scope.

(* ===================================================================== *)
(** * Python                                                              *)
(* ===================================================================== *)

Module Py.

(** Truth value testing: [None], the empty string and [0] are false. *)
Class Truthy (A : Type) := truthy : A → bool.

#[export] Instance str_truthy : Truthy string :=
  λ s, match s with EmptyString => false | String _ _ => true end.

#[export] Instance int_truthy : Truthy Z :=
  λ n, negb (n =? 0).

#[export] Instance optional_truthy {A} `{Truthy A} : Truthy (option A) :=
  λ o, match o with Some a => truthy a | None => false end.

(** [x or y] *)
Definition or {A} `{Truthy A} (x y : A) : A :=
  if truthy x then x else y.

(** [v in S] for a set of strings [S] and an [Optional[str]] [v]. *)
Definition contains (S : gset string) (v : option string) : bool :=
  match v with
  | Some s => bool_decide (s ∈ S)
  | None => false
  end.

End Py.
Import (hints) Py.

(** The messages of the exceptions the repository raises, by their format
    string and the values interpolated into it. *)
Inductive message : Type :=
| Invalid_email_format (email : string)
| Invalid_date_format (date_str : string)
| Invalid_date (date_str : string)
| Invalid_status (status : option string)
| Invalid_priority (priority : option string)
| Invalid_sort_field (sort_by : string)
| Invalid_status_filter (status : option string)
| Invalid_priority_filter (priority : option string)
| No_row_found_with (table column : string) (value : option Z)
| With_id_not_found (kind : string) (id : option Z).

(** [sqlite3.IntegrityError]: the constraint that failed. *)
Inductive IntegrityError : Type :=
| NOT_NULL_constraint_failed (column : string)
| UNIQUE_constraint_failed (column : string)
| FOREIGN_KEY_constraint_failed.

(** The exceptions of the repository. [ValueError] is what the
    specification calls a validation error, [LookupError] its not-found
    error, and the [sqlite3.Error] a method raises from an
    [IntegrityError] its conflict error. [OverflowError] is what [sqlite3]
    raises for a Python [int] too large to convert to an integer of
    SQLite. *)
Inductive exn : Type :=
| ValueError (m : message)
| LookupError (m : message)
| TypeError
| OverflowError
| sqlite3_Error (context : string) (e : IntegrityError).

Inductive result (A : Type) : Type :=
| Return (a : A)
| Raise (e : exn).
Arguments Return {A} a.
Arguments Raise {A} e.

(* ===================================================================== *)
(** * [str]: text                                                         *)
(* ===================================================================== *)

(** A Python [str] is a sequence of Unicode code points. The model holds
    a [str] as the [string] of the bytes of its UTF-8 encoding: equality,
    emptiness and the order of [ORDER BY] are those of the bytes, and a
    pattern whose classes hold ASCII characters only matches the bytes as
    it matches the characters, since every byte of the encoding of another
    character is 128 or more. The code points are read off the bytes
    where the code looks at characters beyond ASCII: the [\d] of a
    pattern and the digits that [int()] converts. (A [str] with a lone
    surrogate has no encoding, and [sqlite3] cannot bind it: it is
    outside the model.) *)
Module Unicode.

Definition continuation (b : N) : bool := ((128 <=? b) && (b <? 192))%N.

(** The code point that two, three or four bytes encode, when they are
    the shortest encoding of a code point that is no surrogate. *)
Definition two_bytes (b1 b2 : N) : option N :=
  if ((194 <=? b1) && (b1 <? 224))%N && continuation b2
  then Some ((b1 - 192) * 64 + (b2 - 128))%N
  else None.

Definition three_bytes (b1 b2 b3 : N) : option N :=
  let cp := ((b1 - 224) * 4096 + (b2 - 128) * 64 + (b3 - 128))%N in
  if ((224 <=? b1) && (b1 <? 240))%N && continuation b2 && continuation b3
     && (2048 <=? cp)%N && negb ((55296 <=? cp) && (cp <? 57344))%N
  then Some cp
  else None.

Definition four_bytes (b1 b2 b3 b4 : N) : option N :=
  let cp := ((b1 - 240) * 262144 + (b2 - 128) * 4096 + (b3 - 128) * 64
             + (b4 - 128))%N in
  if ((240 <=? b1) && (b1 <? 245))%N && continuation b2 && continuation b3
     && continuation b4 && ((65536 <=? cp) && (cp <? 1114112))%N
  then Some cp
  else None.

(** A byte that starts no encoding is no character of a [str]: it is read
    as a number past the last code point, so that every [string] has its
    list of code points. *)
Definition escape (b : N) : N := (1114112 + b)%N.

(** The code points of a text. *)
Fixpoint decode (l : list ascii) : list N :=
  match l with
  | [] => []
  | a1 :: l1 =>
      let b1 := N_of_ascii a1 in
      if (b1 <? 128)%N then b1 :: decode l1
      else
        match l1 with
        | [] => [escape b1]
        | a2 :: l2 =>
            match two_bytes b1 (N_of_ascii a2) with
            | Some cp => cp :: decode l2
            | None =>
                match l2 with
                | [] => escape b1 :: decode l1
                | a3 :: l3 =>
                    match three_bytes b1 (N_of_ascii a2) (N_of_ascii a3) with
                    | Some cp => cp :: decode l3
                    | None =>
                        match l3 with
                        | [] => escape b1 :: decode l1
                        | a4 :: l4 =>
                            match four_bytes b1 (N_of_ascii a2)
                                    (N_of_ascii a3) (N_of_ascii a4) with
                            | Some cp => cp :: decode l4
                            | None => escape b1 :: decode l1
                            end
                        end
                    end
                end
            end
        end
  end.

Definition code_points (s : string) : list N :=
  decode (list_ascii_of_string s).

(** The decimal digits (category Nd) of Unicode 14.0, the version of
    CPython 3.11: the digits of a script are ten consecutive code points,
    from its zero to its nine, and these are the zeros. *)
Definition zeros : list N :=
  [48; 1632; 1776; 1984; 2406; 2534; 2662; 2790; 2918; 3046; 3174; 3302;
   3430; 3558; 3664; 3792; 3872; 4160; 4240; 6112; 6160; 6470; 6608; 6784;
   6800; 6992; 7088; 7232; 7248; 42528; 43216; 43264; 43472; 43504; 43600;
   44016; 65296; 66720; 68912; 69734; 69872; 69942; 70096; 70384; 70736;
   70864; 71248; 71360; 71472; 71904; 72016; 72784; 73040; 73120; 92768;
   92864; 93008; 120782; 120792; 120802; 120812; 120822; 123200; 123632;
   125264; 130032]%N.

Fixpoint digit_of (zeros : list N) (c : N) : option Z :=
  match zeros with
  | [] => None
  | z :: zeros' =>
      if ((z <=? c) && (c <? z + 10))%N then Some (Z.of_N (c - z))
      else digit_of zeros' c
  end.

(** The value of a decimal digit: what [int()] makes of it. *)
Definition decimal (c : N) : option Z := digit_of zeros c.

(** [\d] in a pattern on [str] *)
Definition is_decimal (c : N) : bool :=
  match decimal c with Some _ => true | None => false end.

Definition decimal_value (c : N) : Z :=
  match decimal c with Some v => v | None => 0 end.

(** A class of ASCII characters, as in [[0-9]]. *)
Definition in_range (lo hi : ascii) (c : N) : bool :=
  ((N_of_ascii lo <=? c) && (c <=? N_of_ascii hi))%N.

Definition exactly (a : ascii) (c : N) : bool := (c =? N_of_ascii a)%N.

End Unicode.

(* ===================================================================== *)
(** * [re]: regular expressions                                           *)
(* ===================================================================== *)

Module Re.

Section regex.

(** The characters: bytes or code points. *)
Context {C : Type}.

Inductive regex : Type :=
| Void
| Eps
| Class (p : C → bool)
| Seq (r1 r2 : regex)
| Alt (r1 r2 : regex)
| Star (r : regex).

(** The words of a regular expression. *)
Inductive lang : regex → list C → Prop :=
| lang_eps : lang Eps []
| lang_class p c : p c = true → lang (Class p) [c]
| lang_seq r1 r2 l1 l2 : lang r1 l1 → lang r2 l2 → lang (Seq r1 r2) (l1 ++ l2)
| lang_alt_l r1 r2 l : lang r1 l → lang (Alt r1 r2) l
| lang_alt_r r1 r2 l : lang r2 l → lang (Alt r1 r2) l
| lang_star_nil r : lang (Star r) []
| lang_star_cons r c l1 l2 :
    lang r (c :: l1) → lang (Star r) l2 → lang (Star r) (c :: l1 ++ l2).

Fixpoint nullable (r : regex) : bool :=
  match r with
  | Void => false
  | Eps => true
  | Class _ => false
  | Seq r1 r2 => nullable r1 && nullable r2
  | Alt r1 r2 => nullable r1 || nullable r2
  | Star _ => true
  end.

(** Brzozowski derivative. *)
Fixpoint deriv (c : C) (r : regex) : regex :=
  match r with
  | Void => Void
  | Eps => Void
  | Class p => if p c then Eps else Void
  | Seq r1 r2 =>
      if nullable r1
      then Alt (Seq (deriv c r1) r2) (deriv c r2)
      else Seq (deriv c r1) r2
  | Alt r1 r2 => Alt (deriv c r1) (deriv c r2)
  | Star r1 => Seq (deriv c r1) (Star r1)
  end.

(** Does the whole of [l] match [r]? *)
Fixpoint matches (r : regex) (l : list C) : bool :=
  match l with
  | [] => nullable r
  | c :: l' => matches (deriv c r) l'
  end.

(** [r+] *)
Definition plus (r : regex) : regex := Seq r (Star r).

(** [r{n}] *)
Fixpoint times (n : nat) (r : regex) : regex :=
  match n with
  | O => Eps
  | S n' => Seq r (times n' r)
  end.

(** [r{n,}] *)
Definition at_least (n : nat) (r : regex) : regex := Seq (times n r) (Star r).

(** The text without its last character, when that is a newline. *)
Fixpoint before_final_newline (newline : C → bool) (l : list C)
  : option (list C) :=
  match l with
  | [] => None
  | [c] => if newline c then Some [] else None
  | c :: l' => cons c <$> before_final_newline newline l'
  end.

End regex.

Arguments regex C : clear implicits.
Arguments lang {C} r l.

(** Pattern syntax, for bytes. *)
Definition chr (c : ascii) : regex ascii := Class (Ascii.eqb c).

Definition in_range (lo hi c : ascii) : bool :=
  (N_of_ascii lo <=? N_of_ascii c)%N && (N_of_ascii c <=? N_of_ascii hi)%N.

Definition one_of (cs : string) (c : ascii) : bool :=
  existsb (Ascii.eqb c) (list_ascii_of_string cs).

(** Pattern syntax, for code points: a character, and [\d], any decimal
    digit of Unicode. *)
Definition char (c : ascii) : regex N := Class (Unicode.exactly c).

Definition digit : regex N := Class Unicode.is_decimal.

(** [re.match(r'^' + r + r'$', s)] as a truth value: [^] is the start of
    the string, and [$] is its end or the position just before a newline
    that ends it. For a pattern whose classes hold ASCII characters
    only. *)
Definition match_ (r : regex ascii) (s : string) : bool :=
  let l := list_ascii_of_string s in
  matches r l ||
  match before_final_newline (λ c, Ascii.eqb c "010") l with
  | Some l' => matches r l'
  | None => false
  end.

(** The same on the code points of the string, for a pattern with [\d]. *)
Definition match_unicode (r : regex N) (s : string) : bool :=
  let l := Unicode.code_points s in
  matches r l ||
  match before_final_newline (λ c, (c =? 10)%N) l with
  | Some l' => matches r l'
  | None => false
  end.

End Re.

(* ===================================================================== *)
(** * [datetime.strptime(date_str, "%Y-%m-%d")]                           *)
(* ===================================================================== *)

(** The function is Python's, not the repository's: it is modelled after
    [_strptime] and the [date] constructor of the standard library. *)
Module Datetime.

(** A backtracking parser: the ways to match a prefix of the code points
    of the input, in the order the regular-expression engine tries
    them. *)
Definition parser (A : Type) : Type := list N → list (A * list N).

Definition pure {A} (a : A) : parser A := λ l, [(a, l)].

Definition then_ {A B} (p : parser A) (k : A → parser B) : parser B :=
  λ l, flat_map (λ '(a, l'), k a l') (p l).

Definition or_else {A} (p q : parser A) : parser A :=
  λ l, p l ++ q l.

(** One character of a class; its value is the character. *)
Definition char (p : N → bool) : parser N :=
  λ l, match l with
       | c :: l' => if p c then [(c, l')] else []
       | [] => []
       end.

(** [int()] of a digit. *)
Definition digit_value (c : N) : Z := Unicode.decimal_value c.

(** The class of one character. *)
Definition exactly (c : ascii) : N → bool := Unicode.exactly c.

Definition in_range (lo hi : ascii) : N → bool := Unicode.in_range lo hi.

(** [(?P<Y>\d\d\d\d)] *)
Definition group_Y : parser Z :=
  then_ (char Unicode.is_decimal) (λ a,
  then_ (char Unicode.is_decimal) (λ b,
  then_ (char Unicode.is_decimal) (λ c,
  then_ (char Unicode.is_decimal) (λ d,
  pure (1000 * digit_value a + 100 * digit_value b
        + 10 * digit_value c + digit_value d))))).

(** Two characters of the given classes, read as a decimal number. *)
Definition two (p q : N → bool) : parser Z :=
  then_ (char p) (λ a, then_ (char q) (λ b,
  pure (10 * digit_value a + digit_value b))).

Definition one (p : N → bool) : parser Z :=
  then_ (char p) (λ a, pure (digit_value a)).

(** [(?P<m>1[0-2]|0[1-9]|[1-9])] *)
Definition group_m : parser Z :=
  or_else (two (exactly "1") (in_range "0" "2"))
 (or_else (two (exactly "0") (in_range "1" "9"))
          (one (in_range "1" "9"))).

(** [(?P<d>3[0-1]|[1-2]\d|0[1-9]|[1-9]| [1-9])] *)
Definition group_d : parser Z :=
  or_else (two (exactly "3") (in_range "0" "1"))
 (or_else (two (in_range "1" "2") Unicode.is_decimal)
 (or_else (two (exactly "0") (in_range "1" "9"))
 (or_else (one (in_range "1" "9"))
          (then_ (char (exactly " ")) (λ _, one (in_range "1" "9")))))).

Definition dash : parser unit :=
  then_ (char (exactly "-")) (λ _, pure tt).

(** The regular expression [_strptime] compiles the format to. *)
Definition format_regex : parser (Z * Z * Z) :=
  then_ group_Y (λ y,
  then_ dash (λ _,
  then_ group_m (λ m,
  then_ dash (λ _,
  then_ group_d (λ d,
  pure (y, m, d)))))).

Definition _is_leap (year : Z) : bool :=
  (year mod 4 =? 0) && (negb (year mod 100 =? 0) || (year mod 400 =? 0)).

Definition _DAYS_IN_MONTH : list Z :=
  [31; 28; 31; 30; 31; 30; 31; 31; 30; 31; 30; 31].

Definition _days_in_month (year month : Z) : Z :=
  if (month =? 2) && _is_leap year then 29
  else nth (Z.to_nat (month - 1)) _DAYS_IN_MONTH 0.

Definition MINYEAR : Z := 1.
Definition MAXYEAR : Z := 9999.

(** The checks of the [date] constructor. *)
Definition _check_date_fields (year month day : Z) : bool :=
  (MINYEAR <=? year) && (year <=? MAXYEAR)
  && (1 <=? month) && (month <=? 12)
  && (1 <=? day) && (day <=? _days_in_month year month).

(** [strptime]: the date, or [None] where Python raises [ValueError]
    (the string does not match the format, unconverted data remains, or
    the fields are not a date). *)
Definition strptime (date_str : string) : option (Z * Z * Z) :=
  match format_regex (Unicode.code_points date_str) with
  | [] => None
  | ((y, m, d), rest) :: _ =>
      match rest with
      | [] => if _check_date_fields y m d then Some (y, m, d) else None
      | _ :: _ => None
      end
  end.

End Datetime.

(* ===================================================================== *)
(** * Calendar dates, in the words of the specification                   *)
(* ===================================================================== *)

Module Calendar.

Definition leap_year (y : Z) : bool :=
  if y mod 400 =? 0 then true
  else if y mod 100 =? 0 then false
  else y mod 4 =? 0.

Definition days_of_month (y m : Z) : Z :=
  if (m =? 4) || (m =? 6) || (m =? 9) || (m =? 11) then 30
  else if m =? 2 then (if leap_year y then 29 else 28)
  else 31.

(** A date of the calendar; its years count from 1. *)
Definition real_date (y m d : Z) : bool :=
  (1 <=? y) && (1 <=? m) && (m <=? 12)
  && (1 <=? d) && (d <=? days_of_month y m).

(** The number a sequence of decimal digits writes. *)
Definition decimal (digits : list N) : Z :=
  fold_left (λ n c, 10 * n + Unicode.decimal_value c) digits 0.

(** A text of the form [YYYY-MM-DD], in decimal digits of any script,
    whose year, month and day are a date of the calendar. *)
Definition denotes_real_date (s : string) : bool :=
  match Unicode.code_points s with
  | [y1; y2; y3; y4; h1; m1; m2; h2; d1; d2] =>
      forallb Unicode.is_decimal [y1; y2; y3; y4; m1; m2; d1; d2]
      && Unicode.exactly "-" h1 && Unicode.exactly "-" h2
      && real_date (decimal [y1; y2; y3; y4]) (decimal [m1; m2])
                   (decimal [d1; d2])
  | _ => false
  end.

(** The month and the day of the text are written in the digits 0 to 9;
    the second digit of a day from 10 to 29 may be of any script. *)
Definition plain_month_and_day (s : string) : bool :=
  match Unicode.code_points s with
  | [_; _; _; _; _; m1; m2; _; d1; d2] =>
      Unicode.in_range "0" "9" m1 && Unicode.in_range "0" "9" m2
      && Unicode.in_range "0" "9" d1
      && (Unicode.in_range "0" "9" d2 || Unicode.in_range "1" "2" d1)
  | _ => false
  end.

(** A date as [strptime] reads one. *)
Definition plain_real_date (s : string) : bool :=
  denotes_real_date s && plain_month_and_day s.

End Calendar.

(* ===================================================================== *)
(** * [logic/entities.py]                                                 *)
(* ===================================================================== *)

Module Person.
Record t : Type := mk {
  id : Z;
  name : option string;
  email : option string;
  role : option string
}.
End Person.

Module Task.
Record t : Type := mk {
  id : Z;
  title : option string;
  description : option string;
  status : option string;
  priority : option string;
  start_date : option string;
  due_date : option string;
  person_id : option Z;
  milestone_id : option Z
}.
End Task.

Module Milestone.
Record t : Type := mk {
  id : Z;
  name : option string
}.
End Milestone.

(* ===================================================================== *)
(** * SQLite: the schema of [_initialize_database]                        *)
(* ===================================================================== *)

Module Sqlite.

(** The columns of a row after its [id], in the order of
    [CREATE TABLE]; every column can hold [NULL] and the constraints are
    checked when a row is written. *)
Definition Person_columns : Type :=
  option string * option string * option string.
Definition Milestone_columns : Type :=
  option string.
Definition Task_columns : Type :=
  option string * option string * option string * option string
  * option string * option string * option Z * option Z.

(** A row as [SELECT *] returns it: the [id], then the columns. *)
Definition Person_row : Type := Z * Person_columns.
Definition Milestone_row : Type := Z * Milestone_columns.
Definition Task_row : Type := Z * Task_columns.

(** Each table maps the [INTEGER PRIMARY KEY] to the other columns, and
    has its [AUTOINCREMENT] counter (its entry of [sqlite_sequence]). *)
Record Database : Type := mkDatabase {
  Person : gmap Z Person_columns;
  Person_seq : Z;
  Milestone : gmap Z Milestone_columns;
  Milestone_seq : Z;
  Task : gmap Z Task_columns;
  Task_seq : Z
}.

Definition empty : Database :=
  {| Person := ∅; Person_seq := 0;
     Milestone := ∅; Milestone_seq := 0;
     Task := ∅; Task_seq := 0 |}.

(** A database with one table, and its counter, replaced. *)
Definition with_Person (table : gmap Z Person_columns) (seq : Z)
    (db : Database) : Database :=
  {| Person := table; Person_seq := seq;
     Milestone := Milestone db; Milestone_seq := Milestone_seq db;
     Task := Task db; Task_seq := Task_seq db |}.

Definition with_Milestone (table : gmap Z Milestone_columns) (seq : Z)
    (db : Database) : Database :=
  {| Person := Person db; Person_seq := Person_seq db;
     Milestone := table; Milestone_seq := seq;
     Task := Task db; Task_seq := Task_seq db |}.

Definition with_Task (table : gmap Z Task_columns) (seq : Z)
    (db : Database) : Database :=
  {| Person := Person db; Person_seq := Person_seq db;
     Milestone := Milestone db; Milestone_seq := Milestone_seq db;
     Task := table; Task_seq := seq |}.

Definition email_of (c : Person_columns) : option string := c.1.2.
Definition person_id_of (c : Task_columns) : option Z := c.1.2.
Definition milestone_id_of (c : Task_columns) : option Z := c.2.
Definition status_of (c : Task_columns) : option string := c.1.1.1.1.1.2.
Definition priority_of (c : Task_columns) : option string := c.1.1.1.1.2.

Definition set_milestone_id (v : option Z) (c : Task_columns) : Task_columns :=
  (c.1, v).

(** [AUTOINCREMENT]: one more than the largest id the table holds or has
    ever held. *)
Definition max_rowid {A} (table : gmap Z A) : Z :=
  foldr Z.max 0 (map_to_list table).*1.

Definition next_rowid {A} (seq : Z) (table : gmap Z A) : Z :=
  Z.max seq (max_rowid table) + 1.

(** The index of the [UNIQUE] column [Person.email]. *)
Definition emails (table : gmap Z Person_columns) : list string :=
  omap (λ r, email_of r.2) (map_to_list table).

Definition UNIQUE_email (db : Database) : Prop :=
  NoDup (emails (Person db)).

(** [FOREIGN KEY (...) REFERENCES parent(id)]: a [NULL] reference is
    accepted, another one must be the id of a row of the parent. *)
Definition references {A} (parent : gmap Z A) (v : option Z) : bool :=
  match v with
  | None => true
  | Some i => bool_decide (is_Some (parent !! i))
  end.

(** [INSERT INTO Person (name, email, role) VALUES (?, ?, ?)]: the new
    database and [lastrowid], or the constraint that failed. *)
Definition INSERT_INTO_Person (c : Person_columns) (db : Database)
  : IntegrityError + (Z * Database) :=
  let '(name, email, role) := c in
  match name, email with
  | None, _ => inl (NOT_NULL_constraint_failed "Person.name")
  | Some _, None => inl (NOT_NULL_constraint_failed "Person.email")
  | Some _, Some e =>
      if bool_decide (e ∈ emails (Person db))
      then inl (UNIQUE_constraint_failed "Person.email")
      else
        let rowid := next_rowid (Person_seq db) (Person db) in
        inr (rowid, with_Person (<[rowid := c]> (Person db)) rowid db)
  end.

(** [UPDATE Person SET name = ?, email = ?, role = ? WHERE id = ?] *)
Definition UPDATE_Person (c : Person_columns) (id : Z) (db : Database)
  : IntegrityError + (unit * Database) :=
  let '(name, email, role) := c in
  match Person db !! id with
  | None => inr (tt, db)
  | Some _ =>
      match name, email with
      | None, _ => inl (NOT_NULL_constraint_failed "Person.name")
      | Some _, None => inl (NOT_NULL_constraint_failed "Person.email")
      | Some _, Some e =>
          if bool_decide (e ∈ emails (delete id (Person db)))
          then inl (UNIQUE_constraint_failed "Person.email")
          else
            inr (tt, with_Person (<[id := c]> (Person db)) (Person_seq db) db)
      end
  end.

(** [DELETE FROM Person WHERE id = ?], with
    [FOREIGN KEY (person_id) REFERENCES Person(id) ON DELETE CASCADE]. *)
Definition DELETE_FROM_Person (id : Z) (db : Database) : Database :=
  match Person db !! id with
  | None => db
  | Some _ =>
      with_Task (filter (λ r, person_id_of r.2 ≠ Some id) (Task db))
                (Task_seq db)
                (with_Person (delete id (Person db)) (Person_seq db) db)
  end.

(** [INSERT INTO Milestone (name) VALUES (?)] *)
Definition INSERT_INTO_Milestone (c : Milestone_columns) (db : Database)
  : IntegrityError + (Z * Database) :=
  match c with
  | None => inl (NOT_NULL_constraint_failed "Milestone.name")
  | Some _ =>
      let rowid := next_rowid (Milestone_seq db) (Milestone db) in
      inr (rowid, with_Milestone (<[rowid := c]> (Milestone db)) rowid db)
  end.

(** [UPDATE Milestone SET name = ? WHERE id = ?] *)
Definition UPDATE_Milestone (c : Milestone_columns) (id : Z) (db : Database)
  : IntegrityError + (unit * Database) :=
  match Milestone db !! id with
  | None => inr (tt, db)
  | Some _ =>
      match c with
      | None => inl (NOT_NULL_constraint_failed "Milestone.name")
      | Some _ =>
          inr (tt, with_Milestone (<[id := c]> (Milestone db))
                                  (Milestone_seq db) db)
      end
  end.

(** [DELETE FROM Milestone WHERE id = ?], with
    [FOREIGN KEY (milestone_id) REFERENCES Milestone(id) ON DELETE SET NULL]. *)
Definition DELETE_FROM_Milestone (id : Z) (db : Database) : Database :=
  match Milestone db !! id with
  | None => db
  | Some _ =>
      with_Task ((λ c, if bool_decide (milestone_id_of c = Some id)
                       then set_milestone_id None c else c) <$> Task db)
                (Task_seq db)
                (with_Milestone (delete id (Milestone db))
                                (Milestone_seq db) db)
  end.

(** The constraints of a row of [Task]. *)
Definition Task_constraints (c : Task_columns) (db : Database)
  : option IntegrityError :=
  let '(title, _, _, _, _, _, person_id, milestone_id) := c in
  match title with
  | None => Some (NOT_NULL_constraint_failed "Task.title")
  | Some _ =>
      if references (Person db) person_id
         && references (Milestone db) milestone_id
      then None
      else Some FOREIGN_KEY_constraint_failed
  end.

(** [INSERT INTO Task (title, ..., milestone_id) VALUES (?, ..., ?)] *)
Definition INSERT_INTO_Task (c : Task_columns) (db : Database)
  : IntegrityError + (Z * Database) :=
  match Task_constraints c db with
  | Some e => inl e
  | None =>
      let rowid := next_rowid (Task_seq db) (Task db) in
      inr (rowid, with_Task (<[rowid := c]> (Task db)) rowid db)
  end.

(** [UPDATE Task SET title = ?, ..., milestone_id = ? WHERE id = ?] *)
Definition UPDATE_Task (c : Task_columns) (id : Z) (db : Database)
  : IntegrityError + (unit * Database) :=
  match Task db !! id with
  | None => inr (tt, db)
  | Some _ =>
      match Task_constraints c db with
      | Some e => inl e
      | None =>
          inr (tt, with_Task (<[id := c]> (Task db)) (Task_seq db) db)
      end
  end.

(** [DELETE FROM Task WHERE id = ?] *)
Definition DELETE_FROM_Task (id : Z) (db : Database) : Database :=
  with_Task (delete id (Task db)) (Task_seq db) db.

(** Values as [ORDER BY] compares them: [NULL] first, then integers,
    then text in the order of its characters. *)
Inductive value : Type :=
| NULL
| INTEGER (n : Z)
| TEXT (s : string).

Definition of_text (v : option string) : value :=
  match v with Some s => TEXT s | None => NULL end.

Definition of_integer (v : option Z) : value :=
  match v with Some n => INTEGER n | None => NULL end.

Definition value_leb (a b : value) : bool :=
  match a, b with
  | NULL, _ => true
  | INTEGER _, NULL => false
  | INTEGER m, INTEGER n => m <=? n
  | INTEGER _, TEXT _ => true
  | TEXT s, TEXT t => String.leb s t
  | TEXT _, _ => false
  end.

Fixpoint insert_by {A} (key : A → value) (x : A) (l : list A) : list A :=
  match l with
  | [] => [x]
  | y :: l' =>
      if value_leb (key x) (key y) then x :: l else y :: insert_by key x l'
  end.

(** A stable sort: rows with equal keys keep their order. *)
Definition sort_by {A} (key : A → value) (l : list A) : list A :=
  foldr (insert_by key) [] l.

(** The rows of a table in the order of their ids. *)
Definition rows {A} (table : gmap Z A) : list (Z * A) :=
  sort_by (λ r, INTEGER r.1) (map_to_list table).

(** The column of [Task] of a given name. *)
Definition Task_column (column : string) (r : Task_row) : value :=
  let '(id, (title, description, status, priority, start_date, due_date,
             person_id, milestone_id)) := r in
  if String.eqb column "id" then INTEGER id
  else if String.eqb column "title" then of_text title
  else if String.eqb column "description" then of_text description
  else if String.eqb column "status" then of_text status
  else if String.eqb column "priority" then of_text priority
  else if String.eqb column "start_date" then of_text start_date
  else if String.eqb column "due_date" then of_text due_date
  else if String.eqb column "person_id" then of_integer person_id
  else if String.eqb column "milestone_id" then of_integer milestone_id
  else NULL.

(** [column = ?]: never true of a [NULL]. *)
Definition sql_eq {A} `{EqDecision A} (column parameter : option A) : bool :=
  match column, parameter with
  | Some x, Some y => bool_decide (x = y)
  | _, _ => false
  end.

(** The conditions of a [WHERE] clause on [Task], each with the
    parameter bound to its [?]. *)
Inductive condition : Type :=
| milestone_id_eq (parameter : option Z)
| status_eq (parameter : option string)
| priority_eq (parameter : option string).

Definition holds (r : Task_row) (c : condition) : bool :=
  match c with
  | milestone_id_eq v => sql_eq (milestone_id_of r.2) v
  | status_eq v => sql_eq (status_of r.2) v
  | priority_eq v => sql_eq (priority_of r.2) v
  end.

(** [SELECT * FROM Task WHERE c1 AND ... AND cn ORDER BY column] followed
    by [fetchall()]. *)
Definition SELECT_FROM_Task (where_ : list condition) (order_by : string)
    (db : Database) : list Task_row :=
  sort_by (Task_column order_by)
          (List.filter (λ r, forallb (holds r) where_) (rows (Task db))).

(** [SELECT * FROM t WHERE id = ?] followed by [fetchone()]. *)
Definition SELECT_WHERE_id {A} (table : gmap Z A) (id : option Z)
  : option (Z * A) :=
  i ← id; c ← table !! i; Some (i, c).

(** The tables, as [_validate_foreign_key] names them. *)
Inductive table : Type := Person_table | Milestone_table | Task_table.

Definition table_name (t : table) : string :=
  match t with
  | Person_table => "Person"
  | Milestone_table => "Milestone"
  | Task_table => "Task"
  end.

(** [SELECT 1 FROM t WHERE id = ?] followed by [fetchone()], as a truth
    value. *)
Definition SELECT_1_WHERE_id (t : table) (id : option Z) (db : Database)
  : bool :=
  match t with
  | Person_table => bool_decide (is_Some (SELECT_WHERE_id (Person db) id))
  | Milestone_table => bool_decide (is_Some (SELECT_WHERE_id (Milestone db) id))
  | Task_table => bool_decide (is_Some (SELECT_WHERE_id (Task db) id))
  end.

(** The integers of SQLite are 64-bit. *)
Definition int64 (n : Z) : bool := (- 2 ^ 63 <=? n) && (n <? 2 ^ 63).

(** Can the value be bound to the [?] of a statement on the table? [None]
    is bound as [NULL] and a Python [int] as a 64-bit integer. The ids of
    the tables of the model are not bounded (their counters never run
    out, where SQLite would report a full table), so the id of a row that
    the table holds counts as bound; on a database whose ids are 64-bit,
    the integers that can be bound are the 64-bit ones. *)
Definition binds (t : table) (value : option Z) (db : Database) : bool :=
  match value with
  | None => true
  | Some n => int64 n || SELECT_1_WHERE_id t value db
  end.

(** The column of [Person], and of [Milestone], of a given name. *)
Definition Person_column (column : string) (r : Person_row) : value :=
  let '(id, (name, email, role)) := r in
  if String.eqb column "id" then INTEGER id
  else if String.eqb column "name" then of_text name
  else if String.eqb column "email" then of_text email
  else if String.eqb column "role" then of_text role
  else NULL.

Definition Milestone_column (column : string) (r : Milestone_row) : value :=
  let '(id, name) := r in
  if String.eqb column "id" then INTEGER id
  else if String.eqb column "name" then of_text name
  else NULL.

(** [SELECT * FROM Person ORDER BY column] and
    [SELECT * FROM Milestone ORDER BY column], each followed by
    [fetchall()]. The same on [Task] is [SELECT_FROM_Task] with no
    condition. *)
Definition SELECT_FROM_Person (order_by : string) (db : Database)
  : list Person_row :=
  sort_by (Person_column order_by) (rows (Person db)).

Definition SELECT_FROM_Milestone (order_by : string) (db : Database)
  : list Milestone_row :=
  sort_by (Milestone_column order_by) (rows (Milestone db)).

End Sqlite.

(* ===================================================================== *)
(** * [design_pattern/factory/factory.py]                                 *)
(* ===================================================================== *)

(** [BaseEntityFactory]: the abstract method [create_entity], from a row
    to an entity. *)
Class BaseEntityFactory (F Row Entity : Type) :=
  create_entity : F → Row → Entity.

Inductive PersonFactory : Type := new_PersonFactory.
Inductive TaskFactory : Type := new_TaskFactory.
Inductive MilestoneFactory : Type := new_MilestoneFactory.

#[export] Instance PersonFactory_create_entity
  : BaseEntityFactory PersonFactory Sqlite.Person_row Person.t :=
  λ _ row,
    let '(row0, (row1, row2, row3)) := row in
    {| Person.id := row0; Person.name := row1; Person.email := row2;
       Person.role := row3 |}.

#[export] Instance TaskFactory_create_entity
  : BaseEntityFactory TaskFactory Sqlite.Task_row Task.t :=
  λ _ row,
    let '(row0, (row1, row2, row3, row4, row5, row6, row7, row8)) := row in
    {| Task.id := row0; Task.title := row1; Task.description := row2;
       Task.status := row3; Task.priority := row4; Task.start_date := row5;
       Task.due_date := row6; Task.person_id := row7;
       Task.milestone_id := row8 |}.

#[export] Instance MilestoneFactory_create_entity
  : BaseEntityFactory MilestoneFactory Sqlite.Milestone_row Milestone.t :=
  λ _ row,
    let '(row0, row1) := row in
    {| Milestone.id := row0; Milestone.name := row1 |}.

Definition load_entity {F Row Entity} `{BaseEntityFactory F Row Entity}
    (factory : F) (row : Row) : Entity :=
  create_entity factory row.

(* ===================================================================== *)
(** * [design_pattern/repository/repository.py]                           *)
(* ===================================================================== *)

(** A method of the repository: every call opens a connection to the same
    database file, so the database is threaded through the calls. *)
Definition Repo (A : Type) : Type :=
  Sqlite.Database → result A * Sqlite.Database.

#[export] Instance Repo_ret : MRet Repo := λ A a db, (Return a, db).

#[export] Instance Repo_bind : MBind Repo :=
  λ A B k m db,
    match m db with
    | (Return a, db') => k a db'
    | (Raise e, db') => (Raise e, db')
    end.

Definition raise {A} (e : exn) : Repo A := λ db, (Raise e, db).

(** A call that does not touch the database. *)
Definition check {A} (r : result A) : Repo A := λ db, (r, db).

(** [if cond: raise e] *)
Definition raise_if (cond : bool) (e : exn) : Repo unit :=
  if cond then raise e else mret tt.

(** [cursor.execute] of a [SELECT] and the fetch of its result. *)
Definition fetch {A} (q : Sqlite.Database → A) : Repo A :=
  λ db, (Return (q db), db).

(** The parameter of [cursor.execute(sql, (value,))]: [sqlite3] raises
    [OverflowError] for an [int] that it cannot bind, before the statement
    runs, and no [except sqlite3.Error] catches it. *)
Definition bind (t : Sqlite.table) (value : option Z) : Repo unit :=
  bound ← fetch (Sqlite.binds t value);
  raise_if (negb bound) OverflowError.

(** [cursor.execute] of a statement that writes, and [conn.commit()],
    inside [try: ... except sqlite3.IntegrityError as e: raise
    sqlite3.Error(f"{context}: {e}")]. A statement that fails writes
    nothing. *)
Definition execute {A} (context : string)
    (statement : Sqlite.Database → IntegrityError + (A * Sqlite.Database))
  : Repo A :=
  λ db,
    match statement db with
    | inl e => (Raise (sqlite3_Error context e), db)
    | inr (a, db') => (Return a, db')
    end.

(** A statement that cannot fail. *)
Definition execute_ (statement : Sqlite.Database → Sqlite.Database)
  : Repo unit :=
  λ db, (Return tt, statement db).

Definition VALID_STATUSES : gset string :=
  {[ "ToDo"; "InProgress"; "Done" ]}.

Definition VALID_PRIORITIES : gset string :=
  {[ "High"; "Medium"; "Low" ]}.

(** [r'^\d{4}-\d{2}-\d{2}$'] *)
Definition DATE_FORMAT : Re.regex N :=
  Re.Seq (Re.times 4 Re.digit)
 (Re.Seq (Re.char "-")
 (Re.Seq (Re.times 2 Re.digit)
 (Re.Seq (Re.char "-")
         (Re.times 2 Re.digit)))).

(** [[a-zA-Z]] *)
Definition is_letter (c : ascii) : bool :=
  Re.in_range "a" "z" c || Re.in_range "A" "Z" c.

(** [[a-zA-Z0-9._%+-]] *)
Definition is_local_char (c : ascii) : bool :=
  is_letter c || Re.in_range "0" "9" c || Re.one_of "._%+-" c.

(** [[a-zA-Z0-9.-]] *)
Definition is_domain_char (c : ascii) : bool :=
  is_letter c || Re.in_range "0" "9" c || Re.one_of ".-" c.

(** [r'^[a-zA-Z0-9._%+-]+@[a-zA-Z0-9.-]+\.[a-zA-Z]{2,}$'] *)
Definition EMAIL_FORMAT : Re.regex ascii :=
  Re.Seq (Re.plus (Re.Class is_local_char))
 (Re.Seq (Re.chr "@")
 (Re.Seq (Re.plus (Re.Class is_domain_char))
 (Re.Seq (Re.chr ".")
         (Re.at_least 2 (Re.Class is_letter))))).

(** [re.match] raises [TypeError] on [None]. *)
Definition _validate_email (email : option string) : result unit :=
  match email with
  | None => Raise TypeError
  | Some e =>
      if negb (Re.match_ EMAIL_FORMAT e)
      then Raise (ValueError (Invalid_email_format e))
      else Return tt
  end.

Definition _validate_date (date_str : option string) : result unit :=
  match date_str with
  | None => Raise TypeError
  | Some s =>
      if negb (Re.match_unicode DATE_FORMAT s)
      then Raise (ValueError (Invalid_date_format s))
      else
        match Datetime.strptime s with
        | Some _ => Return tt
        | None => Raise (ValueError (Invalid_date s))
        end
  end.

Definition _validate_status (status : option string) : result unit :=
  if negb (Py.contains VALID_STATUSES status)
  then Raise (ValueError (Invalid_status status))
  else Return tt.

Definition _validate_priority (priority : option string) : result unit :=
  if negb (Py.contains VALID_PRIORITIES priority)
  then Raise (ValueError (Invalid_priority priority))
  else Return tt.

(** The repository always passes ["id"] for [column]. *)
Definition _validate_foreign_key (table : Sqlite.table) (value : option Z)
  : Repo bool :=
  bind table value;;
  found ← fetch (Sqlite.SELECT_1_WHERE_id table value);
  if negb found
  then raise (LookupError
                (No_row_found_with (Sqlite.table_name table) "id" value))
  else mret true.

(** ** Person *)

Definition add_person (name email role : option string) : Repo Person.t :=
  check (_validate_email email);;
  lastrowid ← execute "Person insertion error"
                (Sqlite.INSERT_INTO_Person (name, email, role));
  mret (load_entity new_PersonFactory (lastrowid, (name, email, role))).

Definition get_person (person_id : Z) : Repo Person.t :=
  bind Sqlite.Person_table (Some person_id);;
  row ← fetch (λ db, Sqlite.SELECT_WHERE_id (Sqlite.Person db) (Some person_id));
  match row with
  | None => raise (LookupError (With_id_not_found "Person" (Some person_id)))
  | Some row => mret (load_entity new_PersonFactory row)
  end.

Definition update_person (person_id : Z) (name email role : option string)
  : Repo Person.t :=
  person ← get_person person_id;
  let name := Py.or name (Person.name person) in
  let email := Py.or email (Person.email person) in
  let role := Py.or role (Person.role person) in
  check (_validate_email email);;
  execute "Person update error"
    (Sqlite.UPDATE_Person (name, email, role) person_id);;
  mret {| Person.id := person_id; Person.name := name;
          Person.email := email; Person.role := role |}.

Definition delete_person (person_id : Z) : Repo unit :=
  _validate_foreign_key Sqlite.Person_table (Some person_id);;
  execute_ (Sqlite.DELETE_FROM_Person person_id).

(** ** Task *)

Definition add_task
    (title description status priority start_date due_date : option string)
    (person_id milestone_id : option Z) : Repo Task.t :=
  check (_validate_status status);;
  check (_validate_priority priority);;
  check (_validate_date start_date);;
  check (_validate_date due_date);;
  _validate_foreign_key Sqlite.Person_table person_id;;
  (if Py.truthy milestone_id
   then _validate_foreign_key Sqlite.Milestone_table milestone_id
   else mret true);;
  lastrowid ← execute "Task insertion error"
                (Sqlite.INSERT_INTO_Task
                   (title, description, status, priority, start_date,
                    due_date, person_id, milestone_id));
  mret (load_entity new_TaskFactory
          (lastrowid, (title, description, status, priority, start_date,
                       due_date, person_id, milestone_id))).

Definition get_task (task_id : Z) : Repo Task.t :=
  bind Sqlite.Task_table (Some task_id);;
  row ← fetch (λ db, Sqlite.SELECT_WHERE_id (Sqlite.Task db) (Some task_id));
  match row with
  | None => raise (LookupError (With_id_not_found "Task" (Some task_id)))
  | Some row => mret (load_entity new_TaskFactory row)
  end.

Definition update_task (task_id : Z)
    (title description status priority start_date due_date : option string)
    (person_id milestone_id : option Z) : Repo Task.t :=
  task ← get_task task_id;
  let title := Py.or title (Task.title task) in
  let description := Py.or description (Task.description task) in
  let status := Py.or status (Task.status task) in
  let priority := Py.or priority (Task.priority task) in
  let start_date := Py.or start_date (Task.start_date task) in
  let due_date := Py.or due_date (Task.due_date task) in
  let person_id := Py.or person_id (Task.person_id task) in
  let milestone_id :=
    match milestone_id with
    | Some _ => milestone_id
    | None => Task.milestone_id task
    end in
  check (_validate_status status);;
  check (_validate_priority priority);;
  check (_validate_date start_date);;
  check (_validate_date due_date);;
  _validate_foreign_key Sqlite.Person_table person_id;;
  (if Py.truthy milestone_id
   then _validate_foreign_key Sqlite.Milestone_table milestone_id
   else mret true);;
  execute "Task update error"
    (Sqlite.UPDATE_Task
       (title, description, status, priority, start_date, due_date,
        person_id, milestone_id) task_id);;
  mret {| Task.id := task_id; Task.title := title;
          Task.description := description; Task.status := status;
          Task.priority := priority; Task.start_date := start_date;
          Task.due_date := due_date; Task.person_id := person_id;
          Task.milestone_id := milestone_id |}.

Definition delete_task (task_id : Z) : Repo unit :=
  _validate_foreign_key Sqlite.Task_table (Some task_id);;
  execute_ (Sqlite.DELETE_FROM_Task task_id).

Definition get_tasks_by_milestone (milestone_id : Z)
    (status priority : option string) (sort_by : string)
  : Repo (list Task.t) :=
  let valid_sort_fields : gset string :=
    {[ "id"; "title"; "status"; "priority"; "start_date"; "due_date" ]} in
  raise_if (negb (bool_decide (sort_by ∈ valid_sort_fields)))
    (ValueError (Invalid_sort_field sort_by));;
  raise_if (Py.truthy status && negb (Py.contains VALID_STATUSES status))
    (ValueError (Invalid_status_filter status));;
  raise_if (Py.truthy priority && negb (Py.contains VALID_PRIORITIES priority))
    (ValueError (Invalid_priority_filter priority));;
  _validate_foreign_key Sqlite.Milestone_table (Some milestone_id);;
  let params := [Sqlite.milestone_id_eq (Some milestone_id)] in
  let params :=
    if Py.truthy status then params ++ [Sqlite.status_eq status]
    else params in
  let params :=
    if Py.truthy priority then params ++ [Sqlite.priority_eq priority]
    else params in
  rows ← fetch (Sqlite.SELECT_FROM_Task params sort_by);
  mret (load_entity new_TaskFactory <$> rows).

(** ** Milestone *)

Definition add_milestone (name : option string) : Repo Milestone.t :=
  lastrowid ← execute "Milestone insertion error"
                (Sqlite.INSERT_INTO_Milestone name);
  mret (load_entity new_MilestoneFactory (lastrowid, name)).

Definition get_milestone (milestone_id : Z) : Repo Milestone.t :=
  bind Sqlite.Milestone_table (Some milestone_id);;
  row ← fetch (λ db, Sqlite.SELECT_WHERE_id (Sqlite.Milestone db)
                       (Some milestone_id));
  match row with
  | None =>
      raise (LookupError (With_id_not_found "Milestone" (Some milestone_id)))
  | Some row => mret (load_entity new_MilestoneFactory row)
  end.

Definition update_milestone (milestone_id : Z) (name : option string)
  : Repo Milestone.t :=
  milestone ← get_milestone milestone_id;
  let name := Py.or name (Milestone.name milestone) in
  execute "Milestone update error"
    (Sqlite.UPDATE_Milestone name milestone_id);;
  mret {| Milestone.id := milestone_id; Milestone.name := name |}.

Definition delete_milestone (milestone_id : Z) : Repo unit :=
  _validate_foreign_key Sqlite.Milestone_table (Some milestone_id);;
  execute_ (Sqlite.DELETE_FROM_Milestone milestone_id).

(** ** What storage holds *)

(** The entity stored under an id, if any: what the [get_] methods read. *)
Definition stored_person (db : Sqlite.Database) (id : Z) : option Person.t :=
  load_entity new_PersonFactory
    <$> Sqlite.SELECT_WHERE_id (Sqlite.Person db) (Some id).

Definition stored_task (db : Sqlite.Database) (id : Z) : option Task.t :=
  load_entity new_TaskFactory
    <$> Sqlite.SELECT_WHERE_id (Sqlite.Task db) (Some id).

Definition stored_milestone (db : Sqlite.Database) (id : Z)
  : option Milestone.t :=
  load_entity new_MilestoneFactory
    <$> Sqlite.SELECT_WHERE_id (Sqlite.Milestone db) (Some id).

(** The exception of a [get] for an id under which nothing is stored: the
    [LookupError] of the method for an id that is bound, the
    [OverflowError] of the binding for another. *)
Definition not_found (kind : string) (id : Z) : exn :=
  if Sqlite.int64 id then LookupError (With_id_not_found kind (Some id))
  else OverflowError.

(** The rule of the updates for one field: the stored value is as before
    when the value supplied is falsy, and differs only when it is truthy. *)
Definition kept_unless_truthy {A} (supplied_is_truthy : bool)
    (before after : A) : Prop :=
  (supplied_is_truthy = false → after = before)
  ∧ (after ≠ before → supplied_is_truthy = true).

(** The number of rows of [Person] with a given email. *)
Definition persons_with_email (db : Sqlite.Database) (e : string) : nat :=
  length (filter (λ r, Sqlite.email_of r.2 = Some e)
                 (map_to_list (Sqlite.Person db))).

(** A database to run the methods on: one person, one milestone and one
    task of that person for that milestone. *)
Definition example_db : Sqlite.Database :=
  ((ada ← add_person (Some "Ada") (Some "ada@example.com") (Some "Engineer");
    beta ← add_milestone (Some "Beta Release");
    add_task (Some "Write spec") (Some "") (Some "ToDo") (Some "High")
      (Some "2025-01-01") (Some "2025-01-10")
      (Some (Person.id ada)) (Some (Milestone.id beta)))
     Sqlite.empty).2.

(** ** The listings *)

Definition get_all_persons (sort_by : string) : Repo (list Person.t) :=
  let valid_sort_fields : gset string :=
    {[ "id"; "name"; "email"; "role" ]} in
  raise_if (negb (bool_decide (sort_by ∈ valid_sort_fields)))
    (ValueError (Invalid_sort_field sort_by));;
  rows ← fetch (Sqlite.SELECT_FROM_Person sort_by);
  mret (load_entity new_PersonFactory <$> rows).

Definition get_all_tasks (sort_by : string) : Repo (list Task.t) :=
  let valid_sort_fields : gset string :=
    {[ "title"; "priority"; "person_id"; "status" ]} in
  raise_if (negb (bool_decide (sort_by ∈ valid_sort_fields)))
    (ValueError (Invalid_sort_field sort_by));;
  rows ← fetch (Sqlite.SELECT_FROM_Task [] sort_by);
  mret (load_entity new_TaskFactory <$> rows).

Definition get_all_milestones (sort_by : string) : Repo (list Milestone.t) :=
  let valid_sort_fields : gset string := {[ "name" ]} in
  raise_if (negb (bool_decide (sort_by ∈ valid_sort_fields)))
    (ValueError (Invalid_sort_field sort_by));;
  rows ← fetch (Sqlite.SELECT_FROM_Milestone sort_by);
  mret (load_entity new_MilestoneFactory <$> rows).

(** ** Calls of the repository, one after the other *)

(** A call of a public method, with its arguments. *)
Inductive call : Type :=
| Add_person (name email role : option string)
| Get_person (person_id : Z)
| Update_person (person_id : Z) (name email role : option string)
| Delete_person (person_id : Z)
| Get_all_persons (sort_by : string)
| Get_all_tasks (sort_by : string)
| Add_task
    (title description status priority start_date due_date : option string)
    (person_id milestone_id : option Z)
| Get_task (task_id : Z)
| Update_task (task_id : Z)
    (title description status priority start_date due_date : option string)
    (person_id milestone_id : option Z)
| Delete_task (task_id : Z)
| Get_tasks_by_milestone (milestone_id : Z) (status priority : option string)
    (sort_by : string)
| Add_milestone (name : option string)
| Get_milestone (milestone_id : Z)
| Update_milestone (milestone_id : Z) (name : option string)
| Delete_milestone (milestone_id : Z)
| Get_all_milestones (sort_by : string).

(** What a call leaves: the exception it raised, if any, and the
    database. *)
Definition outcome {A} (r : result A * Sqlite.Database)
  : option exn * Sqlite.Database :=
  (match r.1 with Return _ => None | Raise e => Some e end, r.2).

Definition run (c : call) (db : Sqlite.Database)
  : option exn * Sqlite.Database :=
  match c with
  | Add_person name email role => outcome (add_person name email role db)
  | Get_person person_id => outcome (get_person person_id db)
  | Update_person person_id name email role =>
      outcome (update_person person_id name email role db)
  | Delete_person person_id => outcome (delete_person person_id db)
  | Get_all_persons sort_by => outcome (get_all_persons sort_by db)
  | Get_all_tasks sort_by => outcome (get_all_tasks sort_by db)
  | Add_task title description status priority start_date due_date
             person_id milestone_id =>
      outcome (add_task title description status priority start_date
                        due_date person_id milestone_id db)
  | Get_task task_id => outcome (get_task task_id db)
  | Update_task task_id title description status priority start_date
                due_date person_id milestone_id =>
      outcome (update_task task_id title description status priority
                           start_date due_date person_id milestone_id db)
  | Delete_task task_id => outcome (delete_task task_id db)
  | Get_tasks_by_milestone milestone_id status priority sort_by =>
      outcome (get_tasks_by_milestone milestone_id status priority sort_by db)
  | Add_milestone name => outcome (add_milestone name db)
  | Get_milestone milestone_id => outcome (get_milestone milestone_id db)
  | Update_milestone milestone_id name =>
      outcome (update_milestone milestone_id name db)
  | Delete_milestone milestone_id => outcome (delete_milestone milestone_id db)
  | Get_all_milestones sort_by => outcome (get_all_milestones sort_by db)
  end.

(** The database after a sequence of calls; a call that raises does not
    stop the calls after it. *)
Definition run_all (calls : list call) (db : Sqlite.Database)
  : Sqlite.Database :=
  foldl (λ db c, (run c db).2) db calls.

(** ** What the rows of a database satisfy *)

Definition valid_Person (c : Sqlite.Person_columns) : Prop :=
  is_Some c.1.1 ∧ _validate_email (Sqlite.email_of c) = Return tt.

Definition valid_Milestone (c : Sqlite.Milestone_columns) : Prop :=
  is_Some c.

Definition valid_Task (db : Sqlite.Database) (c : Sqlite.Task_columns)
  : Prop :=
  let '(title, _, status, priority, start_date, due_date, person_id,
        milestone_id) := c in
  is_Some title
  ∧ _validate_status status = Return tt
  ∧ _validate_priority priority = Return tt
  ∧ _validate_date start_date = Return tt
  ∧ _validate_date due_date = Return tt
  ∧ (∃ p, person_id = Some p ∧ is_Some (Sqlite.Person db !! p))
  ∧ (∀ m, milestone_id = Some m → is_Some (Sqlite.Milestone db !! m)).

(** The ids of a table were assigned by its counter: they are positive
    and at most the counter. *)
Definition ids_assigned {A} (table : gmap Z A) (seq : Z) : Prop :=
  0 ≤ seq ∧ ∀ i, is_Some (table !! i) → 1 ≤ i ≤ seq.

Record consistent (db : Sqlite.Database) : Prop := mk_consistent {
  consistent_UNIQUE : Sqlite.UNIQUE_email db;
  consistent_Person : map_Forall (λ _, valid_Person) (Sqlite.Person db);
  consistent_Milestone :
    map_Forall (λ _, valid_Milestone) (Sqlite.Milestone db);
  consistent_Task : map_Forall (λ _, valid_Task db) (Sqlite.Task db);
  consistent_Person_ids :
    ids_assigned (Sqlite.Person db) (Sqlite.Person_seq db);
  consistent_Milestone_ids :
    ids_assigned (Sqlite.Milestone db) (Sqlite.Milestone_seq db);
  consistent_Task_ids : ids_assigned (Sqlite.Task db) (Sqlite.Task_seq db)
}.

(** The writes of the repository: each statement that changes the
    database, with what the method has checked before it executes it. *)
Inductive write (db : Sqlite.Database) : Sqlite.Database → Prop :=
| write_INSERT_Person c e :
    valid_Person c → Sqlite.email_of c = Some e →
    e ∉ Sqlite.emails (Sqlite.Person db) →
    write db
      (Sqlite.with_Person
         (<[Sqlite.next_rowid (Sqlite.Person_seq db) (Sqlite.Person db) := c]>
            (Sqlite.Person db))
         (Sqlite.next_rowid (Sqlite.Person_seq db) (Sqlite.Person db)) db)
| write_UPDATE_Person id c e :
    is_Some (Sqlite.Person db !! id) →
    valid_Person c → Sqlite.email_of c = Some e →
    e ∉ Sqlite.emails (delete id (Sqlite.Person db)) →
    write db
      (Sqlite.with_Person (<[id := c]> (Sqlite.Person db))
                          (Sqlite.Person_seq db) db)
| write_DELETE_Person id :
    is_Some (Sqlite.Person db !! id) →
    write db
      (Sqlite.with_Task
         (filter (λ r, Sqlite.person_id_of r.2 ≠ Some id) (Sqlite.Task db))
         (Sqlite.Task_seq db)
         (Sqlite.with_Person (delete id (Sqlite.Person db))
                             (Sqlite.Person_seq db) db))
| write_INSERT_Milestone c :
    valid_Milestone c →
    write db
      (Sqlite.with_Milestone
         (<[Sqlite.next_rowid (Sqlite.Milestone_seq db) (Sqlite.Milestone db)
            := c]> (Sqlite.Milestone db))
         (Sqlite.next_rowid (Sqlite.Milestone_seq db) (Sqlite.Milestone db))
         db)
| write_UPDATE_Milestone id c :
    is_Some (Sqlite.Milestone db !! id) →
    valid_Milestone c →
    write db
      (Sqlite.with_Milestone (<[id := c]> (Sqlite.Milestone db))
                             (Sqlite.Milestone_seq db) db)
| write_DELETE_Milestone id :
    is_Some (Sqlite.Milestone db !! id) →
    write db
      (Sqlite.with_Task
         ((λ c, if bool_decide (Sqlite.milestone_id_of c = Some id)
                then Sqlite.set_milestone_id None c else c)
            <$> Sqlite.Task db)
         (Sqlite.Task_seq db)
         (Sqlite.with_Milestone (delete id (Sqlite.Milestone db))
                                (Sqlite.Milestone_seq db) db))
| write_INSERT_Task c :
    valid_Task db c →
    write db
      (Sqlite.with_Task
         (<[Sqlite.next_rowid (Sqlite.Task_seq db) (Sqlite.Task db) := c]>
            (Sqlite.Task db))
         (Sqlite.next_rowid (Sqlite.Task_seq db) (Sqlite.Task db)) db)
| write_UPDATE_Task id c :
    is_Some (Sqlite.Task db !! id) →
    valid_Task db c →
    write db
      (Sqlite.with_Task (<[id := c]> (Sqlite.Task db)) (Sqlite.Task_seq db) db)
| write_DELETE_Task id :
    is_Some (Sqlite.Task db !! id) →
    write db
      (Sqlite.with_Task (delete id (Sqlite.Task db)) (Sqlite.Task_seq db) db).

(** What a call does to the database: it raises and leaves it as it
    was, or it returns and has left it as it was or made one write. *)
Definition guarded {A} (db : Sqlite.Database)
    (r : result A * Sqlite.Database) : Prop :=
  (∃ x, r = (Raise x, db))
  ∨ (∃ a, r.1 = Return a ∧ (r.2 = db ∨ write db r.2)).

(* ===================================================================== *)
(** * Properties                                                          *)
(* ===================================================================== *)

Ltac repo_unfold :=
  unfold mbind, mret, Repo_bind, Repo_ret, raise, raise_if, check, fetch,
    execute, execute_ in *.

Ltac repo := repo_unfold; simpl in *.

(** ** Membership in the enumerations *)

Lemma contains_VALID_STATUSES (status : option string) :
  Py.contains VALID_STATUSES status = true ↔
  status = Some "ToDo" ∨ status = Some "InProgress" ∨ status = Some "Done".
Proof.
  unfold Py.contains, VALID_STATUSES. destruct status as [s|].
  - rewrite bool_decide_eq_true, !elem_of_union, !elem_of_singleton.
    split.
    + intros [[-> | ->] | ->]; auto.
    + intros [H | [H | H]]; injection H as ->; auto.
  - split; [discriminate | intros [H | [H | H]]; discriminate].
Qed.

(** ** C1: an invalid status *)

(** C1. For every status outside {ToDo, InProgress, Done} (the value [None]
    included), [add_task] raises the [ValueError] of [_validate_status] and
    returns the database it was given: no statement is executed, and the
    [Task] table gains no row. *)
Theorem add_task_invalid_status
    (db : Sqlite.Database)
    (title description status priority start_date due_date : option string)
    (person_id milestone_id : option Z) :
  status ≠ Some "ToDo" → status ≠ Some "InProgress" → status ≠ Some "Done" →
  add_task title description status priority start_date due_date
           person_id milestone_id db
  = (Raise (ValueError (Invalid_status status)), db).
Proof.
  intros H1 H2 H3.
  assert (Py.contains VALID_STATUSES status = false) as Hc.
  { apply not_true_is_false. rewrite contains_VALID_STATUSES. tauto. }
  unfold add_task, _validate_status. rewrite Hc. reflexivity.
Qed.

Lemma add_task_invalid_status_witness :
  add_task (Some "Write spec") None (Some "Blocked") (Some "High")
           (Some "2025-01-01") (Some "2025-01-10") (Some 1) None example_db
  = (Raise (ValueError (Invalid_status (Some "Blocked"))), example_db)
  ∧ Sqlite.Task (add_task (Some "Write spec") None (Some "Blocked")
                   (Some "High") (Some "2025-01-01") (Some "2025-01-10")
                   (Some 1) None example_db).2
    = Sqlite.Task example_db.
Proof.
  assert (add_task (Some "Write spec") None (Some "Blocked") (Some "High")
            (Some "2025-01-01") (Some "2025-01-10") (Some 1) None example_db
          = (Raise (ValueError (Invalid_status (Some "Blocked"))), example_db))
    as H.
  { apply add_task_invalid_status; discriminate. }
  split; [exact H | rewrite H; reflexivity].
Defined.

(** ** Looking up by id *)

Lemma SELECT_WHERE_id_None {A} (table : gmap Z A) (id : Z) :
  table !! id = None → Sqlite.SELECT_WHERE_id table (Some id) = None.
Proof. intros H. unfold Sqlite.SELECT_WHERE_id. simpl. by rewrite H. Qed.

Lemma SELECT_WHERE_id_Some {A} (table : gmap Z A) (id : Z) (c : A) :
  table !! id = Some c → Sqlite.SELECT_WHERE_id table (Some id) = Some (id, c).
Proof. intros H. unfold Sqlite.SELECT_WHERE_id. simpl. by rewrite H. Qed.

(** ** Binding an id *)

Lemma int64_spec (n : Z) : Sqlite.int64 n = true ↔ - 2 ^ 63 ≤ n < 2 ^ 63.
Proof.
  unfold Sqlite.int64. rewrite andb_true_iff, Z.leb_le, Z.ltb_lt. done.
Qed.

Lemma SELECT_1_WHERE_id_present (t : Sqlite.table) (id : Z)
    (db : Sqlite.Database) :
  match t with
  | Sqlite.Person_table => is_Some (Sqlite.Person db !! id)
  | Sqlite.Milestone_table => is_Some (Sqlite.Milestone db !! id)
  | Sqlite.Task_table => is_Some (Sqlite.Task db !! id)
  end →
  Sqlite.SELECT_1_WHERE_id t (Some id) db = true.
Proof.
  destruct t; intros [c Hc]; unfold Sqlite.SELECT_1_WHERE_id;
    rewrite (SELECT_WHERE_id_Some _ _ _ Hc); by apply bool_decide_eq_true_2.
Qed.

Lemma SELECT_1_WHERE_id_absent (t : Sqlite.table) (id : Z)
    (db : Sqlite.Database) :
  match t with
  | Sqlite.Person_table => Sqlite.Person db !! id = None
  | Sqlite.Milestone_table => Sqlite.Milestone db !! id = None
  | Sqlite.Task_table => Sqlite.Task db !! id = None
  end →
  Sqlite.SELECT_1_WHERE_id t (Some id) db = false.
Proof.
  destruct t; intros H; unfold Sqlite.SELECT_1_WHERE_id;
    rewrite (SELECT_WHERE_id_None _ _ H); apply bool_decide_eq_false_2;
    by intros [? ?].
Qed.

(** An id that the table holds is bound. *)
Lemma bind_found (t : Sqlite.table) (v : option Z) (db : Sqlite.Database) :
  Sqlite.SELECT_1_WHERE_id t v db = true → bind t v db = (Return tt, db).
Proof.
  intros H. unfold bind, Sqlite.binds. repo_unfold.
  destruct v as [n|]; [| done]. by rewrite H, orb_true_r.
Qed.

Lemma bind_stored (t : Sqlite.table) (id : Z) (db : Sqlite.Database) :
  match t with
  | Sqlite.Person_table => is_Some (Sqlite.Person db !! id)
  | Sqlite.Milestone_table => is_Some (Sqlite.Milestone db !! id)
  | Sqlite.Task_table => is_Some (Sqlite.Task db !! id)
  end →
  bind t (Some id) db = (Return tt, db).
Proof. intros H. by apply bind_found, SELECT_1_WHERE_id_present. Qed.

(** An id that the table does not hold is bound when it is 64-bit. *)
Lemma bind_not_found (t : Sqlite.table) (id : Z) (db : Sqlite.Database) :
  Sqlite.SELECT_1_WHERE_id t (Some id) db = false →
  bind t (Some id) db
  = if Sqlite.int64 id then (Return tt, db) else (Raise OverflowError, db).
Proof.
  intros H. unfold bind, Sqlite.binds. repo_unfold.
  rewrite H, orb_false_r. by destruct (Sqlite.int64 id).
Qed.

Lemma bind_None (t : Sqlite.table) (db : Sqlite.Database) :
  bind t None db = (Return tt, db).
Proof. done. Qed.

(** On a database whose ids are 64-bit, as the ids of SQLite are, the
    integers that are bound are the 64-bit ones. *)
Lemma binds_64_bit_ids (t : Sqlite.table) (n : Z) (db : Sqlite.Database) :
  (∀ i, Sqlite.SELECT_1_WHERE_id t (Some i) db = true
        → Sqlite.int64 i = true) →
  Sqlite.binds t (Some n) db = Sqlite.int64 n.
Proof.
  intros H. unfold Sqlite.binds.
  destruct (Sqlite.int64 n) eqn:Hn; [done |]. simpl.
  destruct (Sqlite.SELECT_1_WHERE_id t (Some n) db) eqn:Hs; [| done].
  apply H in Hs. congruence.
Qed.

(** In any case the database is as before. *)
Lemma bind_cases (t : Sqlite.table) (v : option Z) (db : Sqlite.Database) :
  bind t v db = (Return tt, db) ∨ bind t v db = (Raise OverflowError, db).
Proof.
  unfold bind. repo_unfold. destruct (Sqlite.binds t v db); auto.
Qed.

(** ** C4: looking up an id that is not stored *)

Lemma get_person_absent (db : Sqlite.Database) (id : Z) :
  Sqlite.Person db !! id = None →
  get_person id db = (Raise (not_found "Person" id), db).
Proof.
  intros H. unfold get_person, not_found.
  unfold mbind at 1, Repo_bind.
  rewrite (bind_not_found Sqlite.Person_table)
    by by apply (SELECT_1_WHERE_id_absent Sqlite.Person_table).
  destruct (Sqlite.int64 id); [| done]. repo_unfold.
  by rewrite (SELECT_WHERE_id_None _ _ H).
Qed.

Lemma get_task_absent (db : Sqlite.Database) (id : Z) :
  Sqlite.Task db !! id = None →
  get_task id db = (Raise (not_found "Task" id), db).
Proof.
  intros H. unfold get_task, not_found.
  unfold mbind at 1, Repo_bind.
  rewrite (bind_not_found Sqlite.Task_table)
    by by apply (SELECT_1_WHERE_id_absent Sqlite.Task_table).
  destruct (Sqlite.int64 id); [| done]. repo_unfold.
  by rewrite (SELECT_WHERE_id_None _ _ H).
Qed.

Lemma get_milestone_absent (db : Sqlite.Database) (id : Z) :
  Sqlite.Milestone db !! id = None →
  get_milestone id db = (Raise (not_found "Milestone" id), db).
Proof.
  intros H. unfold get_milestone, not_found.
  unfold mbind at 1, Repo_bind.
  rewrite (bind_not_found Sqlite.Milestone_table)
    by by apply (SELECT_1_WHERE_id_absent Sqlite.Milestone_table).
  destruct (Sqlite.int64 id); [| done]. repo_unfold.
  by rewrite (SELECT_WHERE_id_None _ _ H).
Qed.

Lemma get_person_present (db : Sqlite.Database) (id : Z)
    (c : Sqlite.Person_columns) :
  Sqlite.Person db !! id = Some c →
  get_person id db = (Return (load_entity new_PersonFactory (id, c)), db).
Proof.
  intros H. unfold get_person. unfold mbind at 1, Repo_bind.
  rewrite (bind_stored Sqlite.Person_table) by by eexists.
  repo_unfold. by rewrite (SELECT_WHERE_id_Some _ _ _ H).
Qed.

Lemma get_task_present (db : Sqlite.Database) (id : Z)
    (c : Sqlite.Task_columns) :
  Sqlite.Task db !! id = Some c →
  get_task id db = (Return (load_entity new_TaskFactory (id, c)), db).
Proof.
  intros H. unfold get_task. unfold mbind at 1, Repo_bind.
  rewrite (bind_stored Sqlite.Task_table) by by eexists.
  repo_unfold. by rewrite (SELECT_WHERE_id_Some _ _ _ H).
Qed.

Lemma get_milestone_present (db : Sqlite.Database) (id : Z)
    (c : Sqlite.Milestone_columns) :
  Sqlite.Milestone db !! id = Some c →
  get_milestone id db = (Return (load_entity new_MilestoneFactory (id, c)), db).
Proof.
  intros H. unfold get_milestone. unfold mbind at 1, Repo_bind.
  rewrite (bind_stored Sqlite.Milestone_table) by by eexists.
  repo_unfold. by rewrite (SELECT_WHERE_id_Some _ _ _ H).
Qed.

(** C4, the claim as stated fails: no person, task or milestone has the
    id 2^63, and the three [get] methods raise [OverflowError] for it, not
    [LookupError]. *)
Lemma get_of_absent_id_beyond_64_bits :
  (Sqlite.Person example_db !! (2 ^ 63) = None
   ∧ get_person (2 ^ 63) example_db = (Raise OverflowError, example_db))
  ∧ (Sqlite.Task example_db !! (2 ^ 63) = None
     ∧ get_task (2 ^ 63) example_db = (Raise OverflowError, example_db))
  ∧ (Sqlite.Milestone example_db !! (2 ^ 63) = None
     ∧ get_milestone (2 ^ 63) example_db = (Raise OverflowError, example_db)).
Proof. repeat split; vm_compute; reflexivity. Qed.

(** C4, amended. For an id under which the table holds no row,
    [get_person], [get_task] and [get_milestone] raise: [LookupError] (the
    spec's NotFound) when the id is in the 64-bit range of the integers of
    SQLite, and [OverflowError] when it is not. They do not return, so in
    particular they return no empty value, and the database is as
    before. *)
Theorem get_of_absent_id_raises (db : Sqlite.Database) (id : Z) :
  (Sqlite.Person db !! id = None →
   (- 2 ^ 63 ≤ id < 2 ^ 63 →
    get_person id db
    = (Raise (LookupError (With_id_not_found "Person" (Some id))), db))
   ∧ (¬ - 2 ^ 63 ≤ id < 2 ^ 63 →
      get_person id db = (Raise OverflowError, db)))
  ∧ (Sqlite.Task db !! id = None →
     (- 2 ^ 63 ≤ id < 2 ^ 63 →
      get_task id db
      = (Raise (LookupError (With_id_not_found "Task" (Some id))), db))
     ∧ (¬ - 2 ^ 63 ≤ id < 2 ^ 63 →
        get_task id db = (Raise OverflowError, db)))
  ∧ (Sqlite.Milestone db !! id = None →
     (- 2 ^ 63 ≤ id < 2 ^ 63 →
      get_milestone id db
      = (Raise (LookupError (With_id_not_found "Milestone" (Some id))), db))
     ∧ (¬ - 2 ^ 63 ≤ id < 2 ^ 63 →
        get_milestone id db = (Raise OverflowError, db))).
Proof.
  split; [| split]; intros H.
  - rewrite (get_person_absent _ _ H). unfold not_found.
    destruct (Sqlite.int64 id) eqn:Hr.
    + apply int64_spec in Hr. split; [done | by intros []].
    + split; [| done]. intros Hr'%int64_spec. congruence.
  - rewrite (get_task_absent _ _ H). unfold not_found.
    destruct (Sqlite.int64 id) eqn:Hr.
    + apply int64_spec in Hr. split; [done | by intros []].
    + split; [| done]. intros Hr'%int64_spec. congruence.
  - rewrite (get_milestone_absent _ _ H). unfold not_found.
    destruct (Sqlite.int64 id) eqn:Hr.
    + apply int64_spec in Hr. split; [done | by intros []].
    + split; [| done]. intros Hr'%int64_spec. congruence.
Qed.

Lemma get_of_absent_id_raises_witness :
  get_person 7 example_db
  = (Raise (LookupError (With_id_not_found "Person" (Some 7))), example_db)
  ∧ get_task (- 2 ^ 63 - 1) example_db = (Raise OverflowError, example_db)
  ∧ get_milestone 7 example_db
    = (Raise (LookupError (With_id_not_found "Milestone" (Some 7))), example_db).
Proof.
  split; [| split].
  - apply (proj1 (get_of_absent_id_raises example_db 7)); [reflexivity | lia].
  - apply (proj1 (proj2 (get_of_absent_id_raises example_db (- 2 ^ 63 - 1))));
      [reflexivity | lia].
  - apply (proj2 (proj2 (get_of_absent_id_raises example_db 7)));
      [reflexivity | lia].
Defined.

(** ** C10: an empty filter of [get_tasks_by_milestone] *)

(** C10. A status or priority filter that is falsy ([None] or the empty
    string) is not checked against its enumeration and adds no condition to
    the query: the call returns what the call without that filter returns,
    for every milestone id, sort field and database. *)
Theorem get_tasks_by_milestone_falsy_filter
    (db : Sqlite.Database) (milestone_id : Z)
    (status priority : option string) (sort_by : string) :
  (Py.truthy status = false →
   get_tasks_by_milestone milestone_id status priority sort_by db
   = get_tasks_by_milestone milestone_id None priority sort_by db)
  ∧ (Py.truthy priority = false →
     get_tasks_by_milestone milestone_id status priority sort_by db
     = get_tasks_by_milestone milestone_id status None sort_by db).
Proof.
  split; intros H; unfold get_tasks_by_milestone; rewrite H; reflexivity.
Qed.

Lemma get_tasks_by_milestone_falsy_filter_witness :
  get_tasks_by_milestone 1 (Some "") (Some "") "due_date" example_db
  = get_tasks_by_milestone 1 None (Some "") "due_date" example_db
  ∧ get_tasks_by_milestone 1 (Some "") (Some "") "due_date" example_db
    = get_tasks_by_milestone 1 (Some "") None "due_date" example_db.
Proof.
  destruct (get_tasks_by_milestone_falsy_filter
              example_db 1 (Some "") (Some "") "due_date") as (HS & HP).
  split; [apply HS; reflexivity | apply HP; reflexivity].
Defined.

(** ** Steps of a method *)

Lemma _validate_foreign_key_cases (t : Sqlite.table) (v : option Z)
    (db : Sqlite.Database) :
  (Sqlite.SELECT_1_WHERE_id t v db = true
   ∧ _validate_foreign_key t v db = (Return true, db))
  ∨ (Sqlite.SELECT_1_WHERE_id t v db = false
     ∧ _validate_foreign_key t v db
       = (Raise (if Sqlite.binds t v db
                 then LookupError
                        (No_row_found_with (Sqlite.table_name t) "id" v)
                 else OverflowError), db)).
Proof.
  unfold _validate_foreign_key.
  destruct (Sqlite.SELECT_1_WHERE_id t v db) eqn:H; [left | right];
    (split; [done |]).
  - unfold mbind at 1, Repo_bind. rewrite (bind_found _ _ _ H).
    repo_unfold. by rewrite H.
  - unfold bind. repo_unfold.
    destruct (Sqlite.binds t v db); simpl; [by rewrite H | done].
Qed.

(** Case analysis on the next validator of a method. *)
Ltac step_check :=
  match goal with
  | |- context [match ?r with Return _ => _ | Raise _ => _ end] =>
      match r with
      | _validate_status _ => destruct r eqn:?
      | _validate_priority _ => destruct r eqn:?
      | _validate_date _ => destruct r eqn:?
      | _validate_email _ => destruct r eqn:?
      end
  end.

Ltac step_fk :=
  match goal with
  | |- context [_validate_foreign_key ?t ?v ?db] =>
      let H := fresh "Hfk" in
      destruct (_validate_foreign_key_cases t v db) as [[? H] | [? H]];
      rewrite H
  end.

Lemma or_falsy {A} `{Py.Truthy A} (x y : A) :
  Py.truthy x = false → Py.or x y = y.
Proof. unfold Py.or. by intros ->. Qed.

Lemma kept_unless_truthy_intro {A} (b : bool) (before after : A) :
  (b = false → after = before) → kept_unless_truthy b before after.
Proof.
  intros H. split; [exact H |].
  destruct b; [done |]. intros Hne. destruct Hne. by apply H.
Qed.

Lemma stored_person_Some (db : Sqlite.Database) (id : Z)
    (c : Sqlite.Person_columns) :
  Sqlite.Person db !! id = Some c →
  stored_person db id = Some (load_entity new_PersonFactory (id, c)).
Proof. intros H. unfold stored_person. by rewrite (SELECT_WHERE_id_Some _ _ _ H). Qed.

Lemma stored_task_Some (db : Sqlite.Database) (id : Z)
    (c : Sqlite.Task_columns) :
  Sqlite.Task db !! id = Some c →
  stored_task db id = Some (load_entity new_TaskFactory (id, c)).
Proof. intros H. unfold stored_task. by rewrite (SELECT_WHERE_id_Some _ _ _ H). Qed.

Lemma stored_task_inv (db : Sqlite.Database) (id : Z) (t : Task.t) :
  stored_task db id = Some t →
  ∃ c, Sqlite.Task db !! id = Some c ∧ t = load_entity new_TaskFactory (id, c).
Proof.
  unfold stored_task, Sqlite.SELECT_WHERE_id. simpl.
  destruct (Sqlite.Task db !! id) as [c|]; simpl; [| discriminate].
  intros [= <-]. eauto.
Qed.

(** ** The effect of an update *)

(** [update_person] on a stored person either writes the merged columns
    under the same id and returns them, or raises and writes nothing. *)
Lemma update_person_effect (db : Sqlite.Database) (id : Z)
    (name email role n e r : option string) :
  Sqlite.Person db !! id = Some ((n, e, r) : Sqlite.Person_columns) →
  let merged : Sqlite.Person_columns :=
    (Py.or name n, Py.or email e, Py.or role r) in
  update_person id name email role db
  = (Return (load_entity new_PersonFactory (id, merged)),
     Sqlite.with_Person (<[id := merged]> (Sqlite.Person db))
                        (Sqlite.Person_seq db) db)
  ∨ ∃ x, update_person id name email role db = (Raise x, db).
Proof.
  intros Hc merged.
  unfold update_person, get_person. repo_unfold.
  rewrite ?(bind_stored Sqlite.Person_table) by by eexists.
  rewrite (SELECT_WHERE_id_Some _ _ _ Hc).
  cbn [load_entity create_entity PersonFactory_create_entity
       Person.name Person.email Person.role].
  step_check; [| right; eauto].
  unfold Sqlite.UPDATE_Person. cbv beta iota. rewrite Hc.
  destruct (Py.or name n); [| right; eauto].
  destruct (Py.or email e) as [e'|]; [| right; eauto].
  destruct (bool_decide _); [right; eauto | left; reflexivity].
Qed.

Lemma update_person_absent (db : Sqlite.Database) (id : Z)
    (name email role : option string) :
  Sqlite.Person db !! id = None →
  update_person id name email role db
  = (Raise (not_found "Person" id), db).
Proof.
  intros H. unfold update_person. repo_unfold.
  by rewrite (get_person_absent _ _ H).
Qed.

(** The same for [update_task]; the merged [milestone_id] is the supplied
    one unless that is [None]. *)
Lemma update_task_effect (db : Sqlite.Database) (id : Z)
    (title description status priority start_date due_date : option string)
    (person_id milestone_id : option Z)
    (t0 d0 s0 p0 sd0 dd0 : option string) (pid0 mid0 : option Z) :
  Sqlite.Task db !! id
  = Some ((t0, d0, s0, p0, sd0, dd0, pid0, mid0) : Sqlite.Task_columns) →
  let merged : Sqlite.Task_columns :=
    (Py.or title t0, Py.or description d0, Py.or status s0,
     Py.or priority p0, Py.or start_date sd0, Py.or due_date dd0,
     Py.or person_id pid0,
     match milestone_id with Some _ => milestone_id | None => mid0 end) in
  update_task id title description status priority start_date due_date
              person_id milestone_id db
  = (Return (load_entity new_TaskFactory (id, merged)),
     Sqlite.with_Task (<[id := merged]> (Sqlite.Task db))
                      (Sqlite.Task_seq db) db)
  ∨ ∃ x, update_task id title description status priority start_date
                     due_date person_id milestone_id db = (Raise x, db).
Proof.
  intros Hc merged.
  unfold update_task, get_task. repo_unfold.
  rewrite ?(bind_stored Sqlite.Task_table) by by eexists.
  rewrite (SELECT_WHERE_id_Some _ _ _ Hc).
  cbn [load_entity create_entity TaskFactory_create_entity
       Task.title Task.description Task.status Task.priority
       Task.start_date Task.due_date Task.person_id Task.milestone_id].
  repeat (step_check; [| right; eauto]).
  step_fk; [| right; eauto].
  destruct (Py.truthy _); [step_fk; [| right; eauto] |].
  all: unfold Sqlite.UPDATE_Task; rewrite Hc.
  all: destruct (Sqlite.Task_constraints _ _); [right; eauto | left; reflexivity].
Qed.

Lemma update_task_absent (db : Sqlite.Database) (id : Z)
    (title description status priority start_date due_date : option string)
    (person_id milestone_id : option Z) :
  Sqlite.Task db !! id = None →
  update_task id title description status priority start_date due_date
              person_id milestone_id db
  = (Raise (not_found "Task" id), db).
Proof.
  intros H. unfold update_task. repo_unfold.
  by rewrite (get_task_absent _ _ H).
Qed.

Lemma update_person_stored (db : Sqlite.Database) (id : Z)
    (name email role : option string) :
  let db' := (update_person id name email role db).2 in
  stored_person db' id = stored_person db id
  ∨ ∃ n e r,
      stored_person db id
      = Some {| Person.id := id; Person.name := n; Person.email := e;
                Person.role := r |}
      ∧ stored_person db' id
        = Some {| Person.id := id; Person.name := Py.or name n;
                  Person.email := Py.or email e;
                  Person.role := Py.or role r |}.
Proof.
  intros db'. subst db'.
  destruct (Sqlite.Person db !! id) as [[[n e] r]|] eqn:Hc.
  - destruct (update_person_effect db id name email role n e r Hc)
      as [-> | [x ->]]; [right | by left].
    exists n, e, r. split; [by rewrite (stored_person_Some _ _ _ Hc) |].
    apply (stored_person_Some _ id
             ((Py.or name n, Py.or email e, Py.or role r)
              : Sqlite.Person_columns)).
    simpl. apply lookup_insert_eq.
  - left. by rewrite update_person_absent.
Qed.

Lemma update_task_stored (db : Sqlite.Database) (id : Z)
    (title description status priority start_date due_date : option string)
    (person_id milestone_id : option Z) :
  let db' := (update_task id title description status priority start_date
                due_date person_id milestone_id db).2 in
  stored_task db' id = stored_task db id
  ∨ ∃ t0 d0 s0 p0 sd0 dd0 pid0 mid0,
      stored_task db id
      = Some {| Task.id := id; Task.title := t0; Task.description := d0;
                Task.status := s0; Task.priority := p0;
                Task.start_date := sd0; Task.due_date := dd0;
                Task.person_id := pid0; Task.milestone_id := mid0 |}
      ∧ stored_task db' id
        = Some {| Task.id := id; Task.title := Py.or title t0;
                  Task.description := Py.or description d0;
                  Task.status := Py.or status s0;
                  Task.priority := Py.or priority p0;
                  Task.start_date := Py.or start_date sd0;
                  Task.due_date := Py.or due_date dd0;
                  Task.person_id := Py.or person_id pid0;
                  Task.milestone_id :=
                    match milestone_id with
                    | Some _ => milestone_id
                    | None => mid0
                    end |}.
Proof.
  intros db'. subst db'.
  destruct (Sqlite.Task db !! id)
    as [[[[[[[[t0 d0] s0] p0] sd0] dd0] pid0] mid0]|] eqn:Hc.
  - destruct (update_task_effect db id title description status priority
                start_date due_date person_id milestone_id
                t0 d0 s0 p0 sd0 dd0 pid0 mid0 Hc)
      as [-> | [x ->]]; [right | by left].
    exists t0, d0, s0, p0, sd0, dd0, pid0, mid0.
    split; [by rewrite (stored_task_Some _ _ _ Hc) |].
    apply (stored_task_Some _ id
             ((Py.or title t0, Py.or description d0, Py.or status s0,
               Py.or priority p0, Py.or start_date sd0, Py.or due_date dd0,
               Py.or person_id pid0,
               match milestone_id with Some _ => milestone_id | None => mid0 end)
              : Sqlite.Task_columns)).
    simpl. apply lookup_insert_eq.
  - left. by rewrite update_task_absent.
Qed.

(** ** C7: fields supplied as falsy values *)

(** C7. For every call of [update_person] and of [update_task], whether it
    returns or raises, and for each field other than the task's milestone
    reference: when the value supplied for the field is falsy ([None], the
    empty string, or [0] for [person_id]), the value stored under the id
    afterwards is the value stored before; and when the stored value
    differs afterwards, the value supplied was truthy. *)
Theorem update_keeps_fields_supplied_falsy
    (db : Sqlite.Database)
    (person_id : Z) (name email role : option string)
    (task_id : Z)
    (title description status priority start_date due_date : option string)
    (task_person_id milestone_id : option Z) :
  let after_person := (update_person person_id name email role db).2 in
  let after_task :=
    (update_task task_id title description status priority start_date
       due_date task_person_id milestone_id db).2 in
  (kept_unless_truthy (Py.truthy name)
     (Person.name <$> stored_person db person_id)
     (Person.name <$> stored_person after_person person_id)
   ∧ kept_unless_truthy (Py.truthy email)
       (Person.email <$> stored_person db person_id)
       (Person.email <$> stored_person after_person person_id)
   ∧ kept_unless_truthy (Py.truthy role)
       (Person.role <$> stored_person db person_id)
       (Person.role <$> stored_person after_person person_id))
  ∧ (kept_unless_truthy (Py.truthy title)
       (Task.title <$> stored_task db task_id)
       (Task.title <$> stored_task after_task task_id)
     ∧ kept_unless_truthy (Py.truthy description)
         (Task.description <$> stored_task db task_id)
         (Task.description <$> stored_task after_task task_id)
     ∧ kept_unless_truthy (Py.truthy status)
         (Task.status <$> stored_task db task_id)
         (Task.status <$> stored_task after_task task_id)
     ∧ kept_unless_truthy (Py.truthy priority)
         (Task.priority <$> stored_task db task_id)
         (Task.priority <$> stored_task after_task task_id)
     ∧ kept_unless_truthy (Py.truthy start_date)
         (Task.start_date <$> stored_task db task_id)
         (Task.start_date <$> stored_task after_task task_id)
     ∧ kept_unless_truthy (Py.truthy due_date)
         (Task.due_date <$> stored_task db task_id)
         (Task.due_date <$> stored_task after_task task_id)
     ∧ kept_unless_truthy (Py.truthy task_person_id)
         (Task.person_id <$> stored_task db task_id)
         (Task.person_id <$> stored_task after_task task_id)).
Proof.
  intros after_person after_task. split.
  - destruct (update_person_stored db person_id name email role)
      as [H | (n & e & r & H0 & H1)].
    + fold after_person in H. rewrite H.
      repeat split; by apply kept_unless_truthy_intro.
    + fold after_person in H1. rewrite H0, H1. simpl.
      repeat split; apply kept_unless_truthy_intro; intros Hf;
        by rewrite (or_falsy _ _ Hf).
  - destruct (update_task_stored db task_id title description status
                priority start_date due_date task_person_id milestone_id)
      as [H | (t0 & d0 & s0 & p0 & sd0 & dd0 & pid0 & mid0 & H0 & H1)].
    + fold after_task in H. rewrite H.
      repeat split; by apply kept_unless_truthy_intro.
    + fold after_task in H1. rewrite H0, H1. simpl.
      repeat split; apply kept_unless_truthy_intro; intros Hf;
        by rewrite (or_falsy _ _ Hf).
Qed.

Lemma update_keeps_fields_supplied_falsy_witness :
  Person.name
    <$> stored_person
          (update_person 1 (Some "") (Some "ada@lovelace.org") None
             example_db).2 1
  = Person.name <$> stored_person example_db 1
  ∧ Task.person_id
      <$> stored_task
            (update_task 1 None (Some "Second draft") (Some "Done") None
               None None (Some 0) None example_db).2 1
    = Task.person_id <$> stored_task example_db 1.
Proof.
  destruct (update_keeps_fields_supplied_falsy example_db
              1 (Some "") (Some "ada@lovelace.org") None
              1 None (Some "Second draft") (Some "Done") None None None
              (Some 0) None)
    as ((Hname & _) & (_ & _ & _ & _ & _ & _ & Hpid)).
  split; [apply Hname; reflexivity | apply Hpid; reflexivity].
Defined.

(** ** C5: the milestone reference on update *)

(** C5, the claim as stated fails: on the example database the task 1 has
    milestone 1, and [update_task] with [None] for every field, the
    milestone reference included, returns and stores the task with
    milestone 1 still set. *)
Lemma update_task_milestone_None_not_cleared :
  let r := update_task 1 None None None None None None None None example_db in
  r.1 = Return {| Task.id := 1; Task.title := Some "Write spec";
                  Task.description := Some ""; Task.status := Some "ToDo";
                  Task.priority := Some "High";
                  Task.start_date := Some "2025-01-01";
                  Task.due_date := Some "2025-01-10";
                  Task.person_id := Some 1; Task.milestone_id := Some 1 |}
  ∧ Task.milestone_id <$> stored_task example_db 1 = Some (Some 1)
  ∧ Task.milestone_id <$> stored_task r.2 1 = Some (Some 1)
  ∧ Task.milestone_id <$> stored_task r.2 1 ≠ Some None.
Proof. vm_compute. repeat split; discriminate. Qed.

(** C5, amended. For every stored task with a milestone reference [m],
    [update_task] with [None] supplied for [milestone_id] keeps the
    reference: the task stored afterwards has milestone [m], and so has the
    task returned when the call returns. The milestone field is merged by
    the test [is not None], not by truthiness. *)
Theorem update_task_milestone_None_keeps
    (db : Sqlite.Database) (task_id : Z)
    (title description status priority start_date due_date : option string)
    (person_id : option Z) (t : Task.t) (m : Z) :
  stored_task db task_id = Some t →
  Task.milestone_id t = Some m →
  let r := update_task task_id title description status priority start_date
             due_date person_id None db in
  Task.milestone_id <$> stored_task r.2 task_id = Some (Some m)
  ∧ (∀ t', r.1 = Return t' → Task.milestone_id t' = Some m).
Proof.
  intros Ht Hm r. subst r.
  destruct (stored_task_inv _ _ _ Ht) as (c & Hc & ->).
  destruct c as [[[[[[[t0 d0] s0] p0] sd0] dd0] pid0] mid0].
  simpl in Hm. subst mid0.
  destruct (update_task_effect db task_id title description status priority
              start_date due_date person_id None
              t0 d0 s0 p0 sd0 dd0 pid0 (Some m) Hc)
    as [-> | [x ->]]; simpl.
  - split; [| by intros t' [= <-]].
    unfold stored_task.
    erewrite SELECT_WHERE_id_Some; [| apply lookup_insert_eq]. reflexivity.
  - split; [by rewrite Ht | discriminate].
Qed.

Lemma update_task_milestone_None_keeps_witness :
  Task.milestone_id
    <$> stored_task
          (update_task 1 (Some "Write the spec") None (Some "InProgress")
             None None None None None example_db).2 1
  = Some (Some 1)
  ∧ (∀ t',
       (update_task 1 (Some "Write the spec") None (Some "InProgress")
          None None None None None example_db).1 = Return t' →
       Task.milestone_id t' = Some 1).
Proof.
  apply (update_task_milestone_None_keeps example_db 1
           (Some "Write the spec") None (Some "InProgress") None None None
           None
           {| Task.id := 1; Task.title := Some "Write spec";
              Task.description := Some ""; Task.status := Some "ToDo";
              Task.priority := Some "High";
              Task.start_date := Some "2025-01-01";
              Task.due_date := Some "2025-01-10";
              Task.person_id := Some 1; Task.milestone_id := Some 1 |} 1);
    reflexivity.
Defined.

(** Whatever is supplied for [milestone_id], [update_task] leaves a task
    that had a milestone with a milestone: the reference cannot be cleared
    through it. *)
Lemma update_task_never_clears_milestone
    (db : Sqlite.Database) (task_id : Z)
    (title description status priority start_date due_date : option string)
    (person_id milestone_id : option Z) (t : Task.t) (m : Z) :
  stored_task db task_id = Some t →
  Task.milestone_id t = Some m →
  Task.milestone_id
    <$> stored_task
          (update_task task_id title description status priority start_date
             due_date person_id milestone_id db).2 task_id
  ≠ Some None.
Proof.
  intros Ht Hm.
  destruct (stored_task_inv _ _ _ Ht) as (c & Hc & ->).
  destruct c as [[[[[[[t0 d0] s0] p0] sd0] dd0] pid0] mid0].
  simpl in Hm. subst mid0.
  destruct (update_task_effect db task_id title description status priority
              start_date due_date person_id milestone_id
              t0 d0 s0 p0 sd0 dd0 pid0 (Some m) Hc)
    as [-> | [x ->]]; simpl.
  - unfold stored_task.
    erewrite SELECT_WHERE_id_Some; [| apply lookup_insert_eq]. simpl.
    by destruct milestone_id.
  - by rewrite Ht.
Qed.

(** ** The effect of an addition *)

Lemma add_person_effect (db : Sqlite.Database) (name email role : option string) :
  add_person name email role db
  = match _validate_email email with
    | Raise x => (Raise x, db)
    | Return _ =>
        match Sqlite.INSERT_INTO_Person (name, email, role) db with
        | inl x => (Raise (sqlite3_Error "Person insertion error" x), db)
        | inr (id, db') =>
            (Return {| Person.id := id; Person.name := name;
                       Person.email := email; Person.role := role |}, db')
        end
    end.
Proof.
  unfold add_person. repo_unfold.
  destruct (_validate_email email); [| reflexivity].
  by destruct (Sqlite.INSERT_INTO_Person _ db) as [x | [id db']].
Qed.

Lemma add_milestone_effect (db : Sqlite.Database) (name : option string) :
  add_milestone name db
  = match Sqlite.INSERT_INTO_Milestone name db with
    | inl x => (Raise (sqlite3_Error "Milestone insertion error" x), db)
    | inr (id, db') =>
        (Return {| Milestone.id := id; Milestone.name := name |}, db')
    end.
Proof.
  unfold add_milestone. repo_unfold.
  by destruct (Sqlite.INSERT_INTO_Milestone _ db) as [x | [id db']].
Qed.


(** In every case [add_task] raises and writes nothing, or is the
    [INSERT]. *)
Lemma add_task_effect (db : Sqlite.Database)
    (title description status priority start_date due_date : option string)
    (person_id milestone_id : option Z) :
  (∃ x, add_task title description status priority start_date due_date
                 person_id milestone_id db = (Raise x, db))
  ∨ add_task title description status priority start_date due_date
             person_id milestone_id db
    = match Sqlite.INSERT_INTO_Task
              (title, description, status, priority, start_date, due_date,
               person_id, milestone_id) db with
      | inl x => (Raise (sqlite3_Error "Task insertion error" x), db)
      | inr (id, db') =>
          (Return {| Task.id := id; Task.title := title;
                     Task.description := description; Task.status := status;
                     Task.priority := priority; Task.start_date := start_date;
                     Task.due_date := due_date; Task.person_id := person_id;
                     Task.milestone_id := milestone_id |}, db')
      end.
Proof.
  unfold add_task. repo_unfold.
  repeat (step_check; [| left; eauto]).
  step_fk; [| left; eauto].
  destruct (Py.truthy milestone_id); [step_fk; [| left; eauto] |].
  all: right; by destruct (Sqlite.INSERT_INTO_Task _ db) as [x | [id db']].
Qed.

(** ** C6: empty and null names and titles *)




(** ** C3: what a deletion does to the tasks *)

Lemma stored_task_lookup (db : Sqlite.Database) (id : Z) :
  stored_task db id
  = (λ c, load_entity new_TaskFactory (id, c)) <$> Sqlite.Task db !! id.
Proof.
  unfold stored_task, Sqlite.SELECT_WHERE_id. simpl.
  by destruct (Sqlite.Task db !! id).
Qed.

Lemma delete_person_effect (db : Sqlite.Database) (id : Z) :
  is_Some (Sqlite.Person db !! id) →
  delete_person id db
  = (Return tt,
     Sqlite.with_Task
       (filter (λ r, Sqlite.person_id_of r.2 ≠ Some id) (Sqlite.Task db))
       (Sqlite.Task_seq db)
       (Sqlite.with_Person (delete id (Sqlite.Person db))
                           (Sqlite.Person_seq db) db)).
Proof.
  intros [c Hc]. unfold delete_person. repo_unfold.
  step_fk.
  - unfold Sqlite.DELETE_FROM_Person. by rewrite Hc.
  - rewrite SELECT_1_WHERE_id_present in *; [done | by eexists].
Qed.

Lemma delete_milestone_effect (db : Sqlite.Database) (id : Z) :
  is_Some (Sqlite.Milestone db !! id) →
  delete_milestone id db
  = (Return tt,
     Sqlite.with_Task
       ((λ c, if bool_decide (Sqlite.milestone_id_of c = Some id)
              then Sqlite.set_milestone_id None c else c)
          <$> Sqlite.Task db)
       (Sqlite.Task_seq db)
       (Sqlite.with_Milestone (delete id (Sqlite.Milestone db))
                              (Sqlite.Milestone_seq db) db)).
Proof.
  intros [c Hc]. unfold delete_milestone. repo_unfold.
  step_fk.
  - unfold Sqlite.DELETE_FROM_Milestone. by rewrite Hc.
  - rewrite SELECT_1_WHERE_id_present in *; [done | by eexists].
Qed.

(** C3. When the person [id] is stored, [delete_person id] returns, the
    person is gone, every task that referenced the person is gone, and
    every other task is stored as before (the cascade of the schema). When
    the milestone [id] is stored, [delete_milestone id] returns, the
    milestone is gone, every task that referenced it is still stored, with
    its other fields as before and no milestone, and every other task is
    stored as before (the set-null rule of the schema). *)
Theorem delete_cleans_up_references (db : Sqlite.Database) (id : Z) :
  (is_Some (Sqlite.Person db !! id) →
   let r := delete_person id db in
   r.1 = Return tt
   ∧ stored_person r.2 id = None
   ∧ (∀ task_id t,
        stored_task db task_id = Some t →
        Task.person_id t = Some id →
        stored_task r.2 task_id = None)
   ∧ (∀ task_id t,
        stored_task db task_id = Some t →
        Task.person_id t ≠ Some id →
        stored_task r.2 task_id = Some t))
  ∧ (is_Some (Sqlite.Milestone db !! id) →
     let r := delete_milestone id db in
     r.1 = Return tt
     ∧ stored_milestone r.2 id = None
     ∧ (∀ task_id t,
          stored_task db task_id = Some t →
          Task.milestone_id t = Some id →
          stored_task r.2 task_id
          = Some {| Task.id := Task.id t; Task.title := Task.title t;
                    Task.description := Task.description t;
                    Task.status := Task.status t;
                    Task.priority := Task.priority t;
                    Task.start_date := Task.start_date t;
                    Task.due_date := Task.due_date t;
                    Task.person_id := Task.person_id t;
                    Task.milestone_id := None |})
     ∧ (∀ task_id t,
          stored_task db task_id = Some t →
          Task.milestone_id t ≠ Some id →
          stored_task r.2 task_id = Some t)).
Proof.
  split; intros Hid r; subst r.
  - rewrite (delete_person_effect _ _ Hid). simpl.
    split; [reflexivity |]. split.
    { unfold stored_person. rewrite SELECT_WHERE_id_None; [done |].
      simpl. apply lookup_delete_eq. }
    split; intros task_id t Ht Href;
      destruct (stored_task_inv _ _ _ Ht) as (c & Hc & ->);
      rewrite stored_task_lookup; simpl.
    + replace (filter _ (Sqlite.Task db) !! task_id) with (@None Sqlite.Task_columns);
        [done |].
      symmetry. apply map_lookup_filter_None. right.
      intros c' Hc' HP. rewrite Hc in Hc'. injection Hc' as <-.
      apply HP. simpl.
      by destruct c as [[[[[[[? ?] ?] ?] ?] ?] ?] ?].
    + replace (filter _ (Sqlite.Task db) !! task_id) with (Some c); [done |].
      symmetry. apply map_lookup_filter_Some. split; [done |]. simpl.
      by destruct c as [[[[[[[? ?] ?] ?] ?] ?] ?] ?].
  - rewrite (delete_milestone_effect _ _ Hid). simpl.
    split; [reflexivity |]. split.
    { unfold stored_milestone. rewrite SELECT_WHERE_id_None; [done |].
      simpl. apply lookup_delete_eq. }
    split; intros task_id t Ht Href;
      destruct (stored_task_inv _ _ _ Ht) as (c & Hc & ->);
      rewrite stored_task_lookup; simpl;
      rewrite lookup_fmap, Hc; simpl;
      destruct c as [[[[[[[t0 d0] s0] p0] sd0] dd0] pid0] mid0];
      simpl in Href; unfold Sqlite.milestone_id_of; simpl.
    + by rewrite bool_decide_eq_true_2.
    + by rewrite bool_decide_eq_false_2.
Qed.

Lemma delete_cleans_up_references_witness :
  (delete_person 1 example_db).1 = Return tt
  ∧ stored_task (delete_person 1 example_db).2 1 = None
  ∧ (delete_milestone 1 example_db).1 = Return tt
  ∧ stored_task (delete_milestone 1 example_db).2 1
    = Some {| Task.id := 1; Task.title := Some "Write spec";
              Task.description := Some ""; Task.status := Some "ToDo";
              Task.priority := Some "High";
              Task.start_date := Some "2025-01-01";
              Task.due_date := Some "2025-01-10";
              Task.person_id := Some 1; Task.milestone_id := None |}.
Proof.
  destruct (delete_cleans_up_references example_db 1) as (HP & HM).
  destruct HP as (HP1 & _ & HP2 & _); [by eexists |].
  destruct HM as (HM1 & _ & HM2 & _); [by eexists |].
  split; [exact HP1 |].
  split; [eapply HP2; reflexivity |].
  split; [exact HM1 |].
  apply (HM2 1 {| Task.id := 1; Task.title := Some "Write spec";
                  Task.description := Some ""; Task.status := Some "ToDo";
                  Task.priority := Some "High";
                  Task.start_date := Some "2025-01-01";
                  Task.due_date := Some "2025-01-10";
                  Task.person_id := Some 1; Task.milestone_id := Some 1 |});
    reflexivity.
Defined.

(** ** Row ids *)

Lemma foldr_max_ge (l : list Z) (i : Z) : i ∈ l → i ≤ foldr Z.max 0 l.
Proof.
  induction l as [|a l IH]; [by intros ?%elem_of_nil |].
  intros [-> | Hin]%elem_of_cons; simpl; [lia |].
  specialize (IH Hin). lia.
Qed.

Lemma max_rowid_ge {A} (table : gmap Z A) (i : Z) (c : A) :
  table !! i = Some c → i ≤ Sqlite.max_rowid table.
Proof.
  intros H. apply foldr_max_ge.
  apply list_elem_of_fmap. exists (i, c). split; [done |].
  by apply elem_of_map_to_list.
Qed.

(** The id [AUTOINCREMENT] assigns is not the id of a stored row. *)
Lemma next_rowid_fresh {A} (seq : Z) (table : gmap Z A) :
  table !! Sqlite.next_rowid seq table = None.
Proof.
  destruct (table !! _) as [c|] eqn:H; [| done].
  apply max_rowid_ge in H. unfold Sqlite.next_rowid in H. lia.
Qed.

(** It is larger than the counter, so larger than every id assigned
    before. *)
Lemma next_rowid_above_seq {A} (seq : Z) (table : gmap Z A) :
  seq < Sqlite.next_rowid seq table.
Proof. unfold Sqlite.next_rowid. lia. Qed.

(** ** The index of emails *)

Lemma filter_omap_nil {A B} `{EqDecision B} (f : A → option B)
    (l : list A) (e : B) :
  e ∉ omap f l → filter (λ r, f r = Some e) l = [].
Proof.
  induction l as [|a l IH]; [done |]. simpl. intros Hn.
  rewrite filter_cons. destruct (decide (f a = Some e)) as [Ha | Ha].
  - rewrite Ha in Hn. destruct Hn. apply elem_of_cons; auto.
  - apply IH. intros Hin. apply Hn.
    destruct (f a); [apply elem_of_cons; auto | done].
Qed.

Lemma NoDup_omap_one {A B} `{EqDecision B} (f : A → option B)
    (l : list A) (x : A) (e : B) :
  NoDup (omap f l) → x ∈ l → f x = Some e →
  length (filter (λ r, f r = Some e) l) = 1%nat.
Proof.
  induction l as [|a l IH]; [by intros _ ?%elem_of_nil |].
  simpl. intros Hnd Hin Hx. rewrite filter_cons.
  destruct (decide (f a = Some e)) as [Ha | Ha].
  - rewrite Ha in Hnd. apply NoDup_cons in Hnd as [Hne _].
    by rewrite (filter_omap_nil f l e Hne).
  - apply elem_of_cons in Hin as [-> | Hin]; [done |].
    apply IH; [| done..].
    destruct (f a); [by apply NoDup_cons in Hnd as [_ ?] | done].
Qed.

Lemma email_in_index (table : gmap Z Sqlite.Person_columns) (id : Z)
    (c : Sqlite.Person_columns) (e : string) :
  table !! id = Some c → Sqlite.email_of c = Some e →
  e ∈ Sqlite.emails table.
Proof.
  intros Hc He. unfold Sqlite.emails. apply list_elem_of_omap.
  exists (id, c). split; [by apply elem_of_map_to_list | done].
Qed.

Lemma emails_insert (table : gmap Z Sqlite.Person_columns) (id : Z)
    (c : Sqlite.Person_columns) :
  table !! id = None →
  Sqlite.emails (<[id := c]> table)
  ≡ₚ match Sqlite.email_of c with
     | Some e => e :: Sqlite.emails table
     | None => Sqlite.emails table
     end.
Proof.
  intros H. unfold Sqlite.emails. rewrite (map_to_list_insert _ _ _ H).
  simpl. by destruct (Sqlite.email_of c).
Qed.

Lemma UNIQUE_email_empty : Sqlite.UNIQUE_email Sqlite.empty.
Proof.
  unfold Sqlite.UNIQUE_email, Sqlite.emails. simpl.
  rewrite map_to_list_empty. apply NoDup_nil_2.
Qed.

(** [add_person] keeps the emails distinct. *)
Lemma add_person_UNIQUE_email (db : Sqlite.Database)
    (name email role : option string) :
  Sqlite.UNIQUE_email db →
  Sqlite.UNIQUE_email (add_person name email role db).2.
Proof.
  intros Hu. rewrite add_person_effect.
  destruct (_validate_email email); [| done].
  unfold Sqlite.INSERT_INTO_Person.
  destruct name as [n|]; [| done]. destruct email as [e|]; [| done].
  destruct (bool_decide (e ∈ _)) eqn:He; [done |].
  apply bool_decide_eq_false in He. simpl.
  unfold Sqlite.UNIQUE_email. simpl.
  rewrite emails_insert by apply next_rowid_fresh. simpl.
  by apply NoDup_cons.
Qed.

Lemma emails_delete (table : gmap Z Sqlite.Person_columns) (id : Z)
    (c : Sqlite.Person_columns) :
  table !! id = Some c →
  Sqlite.emails table
  ≡ₚ match Sqlite.email_of c with
     | Some e => e :: Sqlite.emails (delete id table)
     | None => Sqlite.emails (delete id table)
     end.
Proof.
  intros H. rewrite <-(insert_delete_id table id c H) at 1.
  apply emails_insert, lookup_delete_eq.
Qed.

Lemma NoDup_emails_delete (table : gmap Z Sqlite.Person_columns) (id : Z) :
  NoDup (Sqlite.emails table) → NoDup (Sqlite.emails (delete id table)).
Proof.
  intros Hu. destruct (table !! id) as [c|] eqn:Hc.
  - rewrite (emails_delete _ _ _ Hc) in Hu.
    destruct (Sqlite.email_of c); [by apply NoDup_cons in Hu as [_ ?] | done].
  - by rewrite delete_id.
Qed.

(** [update_person] and [delete_person] keep the emails distinct. *)
Lemma update_person_UNIQUE_email (db : Sqlite.Database) (id : Z)
    (name email role : option string) :
  Sqlite.UNIQUE_email db →
  Sqlite.UNIQUE_email (update_person id name email role db).2.
Proof.
  intros Hu. unfold update_person. repo_unfold.
  destruct (Sqlite.Person db !! id) as [[[n e] r]|] eqn:Hc;
    [| by rewrite (get_person_absent _ _ Hc)].
  rewrite (get_person_present _ _ _ Hc). simpl.
  step_check; [| done].
  unfold Sqlite.UPDATE_Person. rewrite Hc.
  destruct (Py.or name n); [| done].
  destruct (Py.or email e) as [e'|]; [| done].
  destruct (bool_decide (e' ∈ _)) eqn:He; [done |].
  apply bool_decide_eq_false in He. simpl.
  unfold Sqlite.UNIQUE_email. simpl.
  rewrite <-insert_delete_eq.
  rewrite emails_insert by apply lookup_delete_eq. simpl.
  apply NoDup_cons. split; [done | by apply NoDup_emails_delete].
Qed.

Lemma delete_person_UNIQUE_email (db : Sqlite.Database) (id : Z) :
  Sqlite.UNIQUE_email db →
  Sqlite.UNIQUE_email (delete_person id db).2.
Proof.
  intros Hu. unfold delete_person. repo_unfold.
  step_fk; [| done]. simpl. unfold Sqlite.DELETE_FROM_Person.
  destruct (Sqlite.Person db !! id); [| done].
  unfold Sqlite.UNIQUE_email. simpl. by apply NoDup_emails_delete.
Qed.

(** An [add_person] whose email is in the index raises and writes
    nothing. *)
Lemma add_person_email_taken (db : Sqlite.Database)
    (name role : option string) (e : string) :
  _validate_email (Some e) = Return tt →
  e ∈ Sqlite.emails (Sqlite.Person db) →
  add_person name (Some e) role db
  = (Raise (sqlite3_Error "Person insertion error"
              match name with
              | Some _ => UNIQUE_constraint_failed "Person.email"
              | None => NOT_NULL_constraint_failed "Person.name"
              end), db).
Proof.
  intros Hv He. rewrite add_person_effect, Hv.
  unfold Sqlite.INSERT_INTO_Person. destruct name; [| done].
  by rewrite bool_decide_eq_true_2.
Qed.

(** ** C9: a second person with the same email *)



(** Two additions in a row with the same email: when the first returns,
    the second raises and one row has the email. *)
Lemma add_person_twice_same_email (db db1 : Sqlite.Database)
    (name1 role1 name2 role2 : option string) (e : string) (p : Person.t) :
  Sqlite.UNIQUE_email db →
  add_person name1 (Some e) role1 db = (Return p, db1) →
  (∃ x, add_person name2 (Some e) role2 db1
        = (Raise (sqlite3_Error "Person insertion error" x), db1))
  ∧ persons_with_email db1 e = 1%nat.
Proof.
  intros Hu Hadd.
  assert (Sqlite.UNIQUE_email db1) as Hu1.
  { pose proof (add_person_UNIQUE_email db name1 (Some e) role1 Hu) as H.
    by rewrite Hadd in H. }
  rewrite add_person_effect in Hadd.
  destruct (_validate_email (Some e)) as [[]|] eqn:Hv; [| discriminate].
  destruct (Sqlite.INSERT_INTO_Person _ db) as [x | [id db']] eqn:Hins;
    [discriminate |].
  injection Hadd as <- ->.
  unfold Sqlite.INSERT_INTO_Person in Hins.
  destruct name1 as [n1|]; [| discriminate].
  destruct (bool_decide _); [discriminate |].
  injection Hins as <- <-.
  assert (Sqlite.Person
            (Sqlite.with_Person
               (<[Sqlite.next_rowid (Sqlite.Person_seq db) (Sqlite.Person db)
                  := (Some n1, Some e, role1)]> (Sqlite.Person db))
               (Sqlite.next_rowid (Sqlite.Person_seq db) (Sqlite.Person db))
               db)
          !! Sqlite.next_rowid (Sqlite.Person_seq db) (Sqlite.Person db)
          = Some ((Some n1, Some e, role1) : Sqlite.Person_columns)) as Hrow.
  { simpl. apply lookup_insert_eq. }
  split.
  - eexists. apply add_person_email_taken; [done |].
    by eapply email_in_index.
  - unfold persons_with_email.
    eapply (NoDup_omap_one (λ r, Sqlite.email_of r.2));
      [exact Hu1 | apply elem_of_map_to_list, Hrow | done].
Qed.

(** ** C2: add, then get *)






Lemma add_task_returns_then_get (db db' : Sqlite.Database)
    (title description status priority start_date due_date : option string)
    (person_id milestone_id : option Z) (t : Task.t) :
  add_task title description status priority start_date due_date
           person_id milestone_id db = (Return t, db') →
  t = {| Task.id := Task.id t; Task.title := title;
         Task.description := description; Task.status := status;
         Task.priority := priority; Task.start_date := start_date;
         Task.due_date := due_date; Task.person_id := person_id;
         Task.milestone_id := milestone_id |}
  ∧ Sqlite.Task db !! Task.id t = None
  ∧ get_task (Task.id t) db' = (Return t, db').
Proof.
  destruct (add_task_effect db title description status priority start_date
              due_date person_id milestone_id) as [[x ->] | ->];
    [discriminate |].
  unfold Sqlite.INSERT_INTO_Task.
  destruct (Sqlite.Task_constraints _ db); [discriminate |].
  intros [= <- <-]. simpl.
  split; [reflexivity |]. split; [apply next_rowid_fresh |].
  apply (get_task_present _ _
           ((title, description, status, priority, start_date, due_date,
             person_id, milestone_id) : Sqlite.Task_columns)).
  simpl. apply lookup_insert_eq.
Qed.



(** ** Regular expressions: the matcher decides the words *)

Lemma lang_void_inv {C} (l : list C) : Re.lang Re.Void l ↔ False.
Proof. split; [inversion 1 | done]. Qed.

Lemma lang_eps_inv {C} (l : list C) : Re.lang Re.Eps l ↔ l = [].
Proof. split; [by inversion 1 | intros ->; constructor]. Qed.

Lemma lang_class_inv {C} (p : C → bool) (l : list C) :
  Re.lang (Re.Class p) l ↔ ∃ c, l = [c] ∧ p c = true.
Proof.
  split; [inversion 1; subst; eauto |].
  intros (c & -> & H). by constructor.
Qed.

Lemma lang_seq_inv {C} (r1 r2 : Re.regex C) (l : list C) :
  Re.lang (Re.Seq r1 r2) l
  ↔ ∃ l1 l2, l = l1 ++ l2 ∧ Re.lang r1 l1 ∧ Re.lang r2 l2.
Proof.
  split; [inversion 1; subst; eauto |].
  intros (l1 & l2 & -> & H1 & H2). by constructor.
Qed.

Lemma lang_alt_inv {C} (r1 r2 : Re.regex C) (l : list C) :
  Re.lang (Re.Alt r1 r2) l ↔ Re.lang r1 l ∨ Re.lang r2 l.
Proof.
  split; [inversion 1; subst; eauto |].
  intros [H | H]; [by apply Re.lang_alt_l | by apply Re.lang_alt_r].
Qed.

Lemma lang_star_inv {C} (r : Re.regex C) (l : list C) :
  Re.lang (Re.Star r) l
  ↔ l = [] ∨ ∃ c l1 l2, l = c :: l1 ++ l2
                        ∧ Re.lang r (c :: l1) ∧ Re.lang (Re.Star r) l2.
Proof.
  split; [inversion 1; subst; eauto 10 |].
  intros [-> | (c & l1 & l2 & -> & H1 & H2)]; by constructor.
Qed.

Lemma nullable_lang {C} (r : Re.regex C) :
  Re.nullable r = true ↔ Re.lang r [].
Proof.
  induction r as [| | p | r1 IH1 r2 IH2 | r1 IH1 r2 IH2 | r IH]; simpl.
  - rewrite lang_void_inv. split; [discriminate | done].
  - by rewrite lang_eps_inv.
  - rewrite lang_class_inv. split; [discriminate | by intros (c & ? & _)].
  - rewrite andb_true_iff, IH1, IH2, lang_seq_inv. split.
    + intros [H1 H2]. by exists [], [].
    + intros (l1 & l2 & Heq & H1 & H2).
      symmetry in Heq. apply app_eq_nil in Heq as [-> ->]. done.
  - by rewrite orb_true_iff, IH1, IH2, lang_alt_inv.
  - rewrite lang_star_inv. split; [auto | done].
Qed.

Lemma deriv_lang {C} (c : C) (r : Re.regex C) (l : list C) :
  Re.lang (Re.deriv c r) l ↔ Re.lang r (c :: l).
Proof.
  revert l.
  induction r as [| | p | r1 IH1 r2 IH2 | r1 IH1 r2 IH2 | r IH]; intros l; simpl.
  - by rewrite !lang_void_inv.
  - rewrite lang_void_inv, lang_eps_inv. split; [done | discriminate].
  - rewrite lang_class_inv. destruct (p c) eqn:Hp.
    + rewrite lang_eps_inv. split; [intros ->; eauto |].
      by intros (c' & [= ? ?] & _).
    + rewrite lang_void_inv. split; [done |].
      intros (c' & [= ? ?] & ?). congruence.
  - assert (Re.lang (Re.Seq r1 r2) (c :: l)
            ↔ Re.lang (Re.Seq (Re.deriv c r1) r2) l
              ∨ (Re.lang r1 [] ∧ Re.lang (Re.deriv c r2) l)) as Hseq.
    { rewrite !lang_seq_inv. split.
      - intros (l1 & l2 & Heq & H1 & H2). destruct l1 as [|c' l1]; simpl in Heq.
        + subst l2. right. split; [done | by apply IH2].
        + injection Heq as <- ->. left. exists l1, l2. by rewrite IH1.
      - intros [(l1 & l2 & -> & H1 & H2) | [H1 H2]].
        + exists (c :: l1), l2. by rewrite <-IH1.
        + exists [], (c :: l). by rewrite <-IH2. }
    rewrite Hseq. destruct (Re.nullable r1) eqn:Hn.
    + rewrite lang_alt_inv. apply nullable_lang in Hn. tauto.
    + split; [auto |]. intros [H | [H _]]; [done |].
      apply nullable_lang in H. congruence.
  - by rewrite !lang_alt_inv, IH1, IH2.
  - rewrite lang_seq_inv, (lang_star_inv r (c :: l)). split.
    + intros (l1 & l2 & -> & H1 & H2). right. exists c, l1, l2. by rewrite <-IH.
    + intros [? | (c' & l1 & l2 & [= <- ->] & H1 & H2)]; [done |].
      exists l1, l2. by rewrite IH.
Qed.

Lemma matches_lang {C} (r : Re.regex C) (l : list C) :
  Re.matches r l = true ↔ Re.lang r l.
Proof.
  revert r. induction l as [|c l IH]; intros r; simpl.
  - apply nullable_lang.
  - rewrite IH. apply deriv_lang.
Qed.

Lemma before_final_newline_spec {C} (newline : C → bool) (nl : C)
    (l l' : list C) :
  (∀ c, newline c = true ↔ c = nl) →
  Re.before_final_newline newline l = Some l' ↔ l = l' ++ [nl].
Proof.
  intros Hnl. revert l'. induction l as [|c l IH]; intros l'.
  - split; [discriminate | by destruct l'].
  - destruct l as [|c2 l].
    + simpl. destruct (newline c) eqn:Hc.
      * apply Hnl in Hc as ->. split; [by intros [= <-] |].
        destruct l' as [|? [|]]; [done | discriminate..].
      * split; [discriminate |].
        destruct l' as [|? [|]]; [| discriminate..].
        intros [= ->]. assert (newline nl = true) by by apply Hnl.
        congruence.
    + change (Re.before_final_newline newline (c :: c2 :: l))
        with (cons c <$> Re.before_final_newline newline (c2 :: l)).
      split.
      * destruct (Re.before_final_newline newline (c2 :: l)) as [k|];
          [| discriminate].
        intros [= <-]. simpl. f_equal. by apply IH.
      * destruct l' as [|c' l']; [discriminate |]. intros [= <- H].
        apply IH in H. by rewrite H.
Qed.

Lemma before_final_newline_Some (l l' : list ascii) :
  Re.before_final_newline (λ c, Ascii.eqb c "010") l = Some l'
  ↔ l = l' ++ ["010"%char].
Proof. apply before_final_newline_spec. intros c. apply Ascii.eqb_eq. Qed.

Lemma before_final_newline_code_points (l l' : list N) :
  Re.before_final_newline (λ c, (c =? 10)%N) l = Some l' ↔ l = l' ++ [10%N].
Proof. apply before_final_newline_spec. intros c. apply N.eqb_eq. Qed.

Ltac destruct_words :=
  repeat match goal with
         | H : ∃ _, _ |- _ => destruct H as [? H]
         | H : _ ∧ _ |- _ => destruct H as [? ?]
         | H : Ascii.eqb _ _ = true |- _ => apply Ascii.eqb_eq in H
         | H : Unicode.exactly _ _ = true |- _ => apply N.eqb_eq in H
         end; subst.

(** The words of [DATE_FORMAT]. *)
Lemma DATE_FORMAT_lang (l : list N) :
  Re.lang DATE_FORMAT l
  ↔ ∃ y1 y2 y3 y4 m1 m2 d1 d2,
      l = [y1; y2; y3; y4; 45%N; m1; m2; 45%N; d1; d2]
      ∧ forallb Unicode.is_decimal [y1; y2; y3; y4; m1; m2; d1; d2] = true.
Proof.
  split.
  - unfold DATE_FORMAT, Re.digit, Re.char. simpl.
    repeat setoid_rewrite lang_seq_inv.
    repeat setoid_rewrite lang_class_inv.
    repeat setoid_rewrite lang_eps_inv.
    intros H. destruct_words. simpl.
    do 8 eexists. split; [reflexivity |]. simpl.
    repeat match goal with
           | H : Unicode.is_decimal _ = true |- _ => rewrite H; clear H
           end.
    reflexivity.
  - intros (y1 & y2 & y3 & y4 & m1 & m2 & d1 & d2 & -> & H).
    simpl in H. repeat (apply andb_prop in H as [? H]).
    apply matches_lang. unfold DATE_FORMAT, Re.digit, Re.char. simpl.
    repeat match goal with
           | H : Unicode.is_decimal _ = true |- _ => rewrite H; clear H; simpl
           end.
    reflexivity.
Qed.

(** The strings [re.match] accepts for [DATE_FORMAT]: ten characters
    [dddd-dd-dd], the digits of any script, possibly followed by one
    newline. *)
Lemma match_DATE_FORMAT (s : string) :
  Re.match_unicode DATE_FORMAT s = true
  ↔ ∃ y1 y2 y3 y4 m1 m2 d1 d2 tail,
      Unicode.code_points s
      = [y1; y2; y3; y4; 45%N; m1; m2; 45%N; d1; d2] ++ tail
      ∧ forallb Unicode.is_decimal [y1; y2; y3; y4; m1; m2; d1; d2] = true
      ∧ (tail = [] ∨ tail = [10%N]).
Proof.
  unfold Re.match_unicode.
  rewrite orb_true_iff, matches_lang, DATE_FORMAT_lang.
  split.
  - intros [(y1 & y2 & y3 & y4 & m1 & m2 & d1 & d2 & -> & H) | H].
    + exists y1, y2, y3, y4, m1, m2, d1, d2, []. auto.
    + destruct (Re.before_final_newline _ _) as [l'|] eqn:Hl;
        [| discriminate].
      apply before_final_newline_code_points in Hl.
      apply matches_lang, DATE_FORMAT_lang in H
        as (y1 & y2 & y3 & y4 & m1 & m2 & d1 & d2 & -> & H).
      exists y1, y2, y3, y4, m1, m2, d1, d2, [10%N]. auto.
  - intros (y1 & y2 & y3 & y4 & m1 & m2 & d1 & d2 & tail & -> & H & [-> | ->]).
    + left. exists y1, y2, y3, y4, m1, m2, d1, d2. auto.
    + right.
      assert (Re.before_final_newline (λ c, (c =? 10)%N)
                ([y1; y2; y3; y4; 45%N; m1; m2; 45%N; d1; d2] ++ [10%N])
              = Some [y1; y2; y3; y4; 45%N; m1; m2; 45%N; d1; d2]) as ->
        by by apply before_final_newline_code_points.
      apply matches_lang, DATE_FORMAT_lang.
      exists y1, y2, y3, y4, m1, m2, d1, d2. auto.
Qed.

(** ** Decimal digits *)

Lemma digit_of_bounds (zeros : list N) (c : N) (v : Z) :
  Unicode.digit_of zeros c = Some v → 0 ≤ v ≤ 9.
Proof.
  induction zeros as [|z zeros IH]; simpl; [discriminate |].
  destruct ((z <=? c)%N && (c <? z + 10)%N) eqn:H; [| exact IH].
  apply andb_true_iff in H as [H1%N.leb_le H2%N.ltb_lt].
  intros [= <-]. lia.
Qed.

Lemma decimal_value_bounds (c : N) :
  0 ≤ Unicode.decimal_value c ≤ 9.
Proof.
  unfold Unicode.decimal_value, Unicode.decimal.
  destruct (Unicode.digit_of Unicode.zeros c) as [v|] eqn:H; [| lia].
  by apply digit_of_bounds in H.
Qed.

(** The digits 0 to 9 are decimal digits, with their values. *)
Lemma decimal_ascii (c : N) :
  (48 ≤ c ≤ 57)%N → Unicode.decimal c = Some (Z.of_N c - 48).
Proof.
  intros H. unfold Unicode.decimal, Unicode.zeros.
  cbn [Unicode.digit_of].
  destruct (N.leb_spec 48 c); [| lia].
  destruct (N.ltb_spec c (48 + 10)); [| lia].
  simpl. f_equal. lia.
Qed.

Lemma decimal_value_ascii (c : N) :
  (48 ≤ c ≤ 57)%N → Unicode.decimal_value c = Z.of_N c - 48.
Proof. intros H. unfold Unicode.decimal_value. by rewrite decimal_ascii. Qed.

Lemma is_decimal_ascii (c : N) :
  (48 ≤ c ≤ 57)%N → Unicode.is_decimal c = true.
Proof. intros H. unfold Unicode.is_decimal. by rewrite decimal_ascii. Qed.

(** A hyphen, a space and a newline are no digits. *)
Lemma is_decimal_no_separator (c : N) :
  Unicode.is_decimal c = true → c ≠ 45%N ∧ c ≠ 32%N ∧ c ≠ 10%N.
Proof.
  intros H. repeat split; intros ->; vm_compute in H; discriminate.
Qed.

(** ** [strptime] on the strings of [DATE_FORMAT] *)

Ltac codes :=
  unfold Datetime.exactly, Datetime.in_range, Unicode.exactly,
    Unicode.in_range in *;
  change (N_of_ascii "0") with 48%N in *;
  change (N_of_ascii "1") with 49%N in *;
  change (N_of_ascii "2") with 50%N in *;
  change (N_of_ascii "3") with 51%N in *;
  change (N_of_ascii "9") with 57%N in *;
  change (N_of_ascii "-") with 45%N in *;
  change (N_of_ascii " ") with 32%N in *.

Ltac split_codes :=
  repeat match goal with
         | |- context [(?a <=? ?b)%N] => destruct (N.leb_spec a b); try lia
         | |- context [(?a =? ?b)%N] => destruct (N.eqb_spec a b); try lia
         | |- context [(?a <=? ?b)%Z] => destruct (Z.leb_spec a b); try lia
         end.

Ltac parse :=
  unfold Datetime.group_Y, Datetime.group_m, Datetime.group_d, Datetime.dash,
    Datetime.two, Datetime.one;
  unfold Datetime.or_else, Datetime.then_, Datetime.char, Datetime.pure;
  codes; cbv zeta;
  repeat (progress (split_codes; simpl));
  rewrite ?app_nil_r; try reflexivity.

Lemma group_Y_digits {A} (k : Z → Datetime.parser A) (y1 y2 y3 y4 : N)
    (r : list N) :
  Unicode.is_decimal y1 = true → Unicode.is_decimal y2 = true →
  Unicode.is_decimal y3 = true → Unicode.is_decimal y4 = true →
  Datetime.then_ Datetime.group_Y k (y1 :: y2 :: y3 :: y4 :: r)
  = k (1000 * Datetime.digit_value y1 + 100 * Datetime.digit_value y2
       + 10 * Datetime.digit_value y3 + Datetime.digit_value y4) r.
Proof.
  intros H1 H2 H3 H4.
  unfold Datetime.then_, Datetime.group_Y, Datetime.then_, Datetime.char,
    Datetime.pure.
  rewrite H1. simpl. rewrite H2. simpl. rewrite H3. simpl. rewrite H4. simpl.
  by rewrite app_nil_r.
Qed.

Lemma dash_then {A} (k : unit → Datetime.parser A) (r : list N) :
  Datetime.then_ Datetime.dash k (45%N :: r) = k tt r.
Proof.
  unfold Datetime.then_, Datetime.dash, Datetime.then_, Datetime.char,
    Datetime.pure. simpl. by rewrite app_nil_r.
Qed.

(** The month of [strptime] at two digits and a hyphen: [10] to [12] or
    [01] to [09], in the digits 0 to 9. *)
Lemma group_m_dash {A} (k : Z → Datetime.parser A) (m1 m2 : N)
    (r : list N) :
  Unicode.is_decimal m2 = true →
  Datetime.then_ Datetime.group_m
    (λ m, Datetime.then_ Datetime.dash (λ _, k m)) (m1 :: m2 :: 45%N :: r)
  = if Unicode.exactly "1" m1 && Unicode.in_range "0" "2" m2
       || Unicode.exactly "0" m1 && Unicode.in_range "1" "9" m2
    then k (10 * Datetime.digit_value m1 + Datetime.digit_value m2) r
    else [].
Proof.
  intros (H2 & _ & _)%is_decimal_no_separator.
  parse.
Qed.

(** The ways [group_d] matches at two digits: the two of them as a day,
    then the first of them alone as a day from 1 to 9. *)
Lemma group_d_digits (d1 d2 : N) (r : list N) :
  Unicode.is_decimal d1 = true → Unicode.is_decimal d2 = true →
  Datetime.group_d (d1 :: d2 :: r)
  = (if Unicode.exactly "3" d1 && Unicode.in_range "0" "1" d2
        || Unicode.in_range "1" "2" d1
        || Unicode.exactly "0" d1 && Unicode.in_range "1" "9" d2
     then [(10 * Datetime.digit_value d1 + Datetime.digit_value d2, r)]
     else [])
    ++ (if Unicode.in_range "1" "9" d1
        then [(Datetime.digit_value d1, d2 :: r)] else []).
Proof.
  intros (_ & H1 & _)%is_decimal_no_separator H2.
  unfold Datetime.group_d, Datetime.two, Datetime.one, Datetime.or_else,
    Datetime.then_, Datetime.char, Datetime.pure.
  codes. cbv zeta.
  repeat (progress (split_codes; simpl; rewrite ?H2));
    rewrite ?app_nil_r; reflexivity.
Qed.

(** In the digits 0 to 9 these are the months from 1 to 12. *)
Lemma month_in_plain_digits (m1 m2 : N) :
  Unicode.exactly "1" m1 && Unicode.in_range "0" "2" m2
  || Unicode.exactly "0" m1 && Unicode.in_range "1" "9" m2
  = Unicode.in_range "0" "9" m1 && Unicode.in_range "0" "9" m2
    && (1 <=? 10 * Unicode.decimal_value m1 + Unicode.decimal_value m2)
    && (10 * Unicode.decimal_value m1 + Unicode.decimal_value m2 <=? 12).
Proof.
  codes.
  destruct ((48 <=? m1)%N && (m1 <=? 57)%N) eqn:H1.
  - apply andb_true_iff in H1 as [H1a%N.leb_le H1b%N.leb_le].
    rewrite (decimal_value_ascii m1) by lia.
    destruct ((48 <=? m2)%N && (m2 <=? 57)%N) eqn:H2.
    + apply andb_true_iff in H2 as [H2a%N.leb_le H2b%N.leb_le].
      rewrite (decimal_value_ascii m2) by lia.
      split_codes; simpl; split_codes; simpl; try reflexivity; lia.
    + apply andb_false_iff in H2 as [H2%N.leb_gt | H2%N.leb_gt];
        split_codes; simpl; split_codes; reflexivity || lia.
  - apply andb_false_iff in H1 as [H1%N.leb_gt | H1%N.leb_gt];
      split_codes; simpl; split_codes; reflexivity || lia.
Qed.

(** And these are the days from 1 to 31, but that a day from 10 to 29 may
    have its second digit in any script. *)
Lemma day_in_plain_digits (d1 d2 : N) :
  Unicode.is_decimal d2 = true →
  Unicode.exactly "3" d1 && Unicode.in_range "0" "1" d2
  || Unicode.in_range "1" "2" d1
  || Unicode.exactly "0" d1 && Unicode.in_range "1" "9" d2
  = Unicode.in_range "0" "9" d1
    && (Unicode.in_range "0" "9" d2 || Unicode.in_range "1" "2" d1)
    && (1 <=? 10 * Unicode.decimal_value d1 + Unicode.decimal_value d2)
    && (10 * Unicode.decimal_value d1 + Unicode.decimal_value d2 <=? 31).
Proof.
  intros Hd2. pose proof (decimal_value_bounds d2) as B2.
  codes.
  destruct ((48 <=? d1)%N && (d1 <=? 57)%N) eqn:H1.
  - apply andb_true_iff in H1 as [H1a%N.leb_le H1b%N.leb_le].
    rewrite (decimal_value_ascii d1) by lia.
    destruct ((48 <=? d2)%N && (d2 <=? 57)%N) eqn:H2.
    + apply andb_true_iff in H2 as [H2a%N.leb_le H2b%N.leb_le].
      rewrite (decimal_value_ascii d2) in * by lia.
      split_codes; simpl; split_codes; simpl; try reflexivity; lia.
    + apply andb_false_iff in H2 as [H2%N.leb_gt | H2%N.leb_gt];
        split_codes; simpl; split_codes; simpl; reflexivity || lia.
  - apply andb_false_iff in H1 as [H1%N.leb_gt | H1%N.leb_gt];
      split_codes; simpl; split_codes; reflexivity || lia.
Qed.

Lemma _is_leap_leap_year (y : Z) : Datetime._is_leap y = Calendar.leap_year y.
Proof.
  unfold Datetime._is_leap, Calendar.leap_year.
  destruct (Z.eqb_spec (y mod 400) 0), (Z.eqb_spec (y mod 100) 0),
    (Z.eqb_spec (y mod 4) 0); simpl; try reflexivity;
    exfalso; Z.div_mod_to_equations; lia.
Qed.

Lemma _days_in_month_days_of_month (y m : Z) :
  1 ≤ m ≤ 12 → Datetime._days_in_month y m = Calendar.days_of_month y m.
Proof.
  intros Hm. unfold Datetime._days_in_month, Calendar.days_of_month.
  rewrite _is_leap_leap_year.
  assert (m = 1 ∨ m = 2 ∨ m = 3 ∨ m = 4 ∨ m = 5 ∨ m = 6 ∨ m = 7 ∨ m = 8
          ∨ m = 9 ∨ m = 10 ∨ m = 11 ∨ m = 12) as Hcases by lia.
  repeat (destruct Hcases as [-> | Hcases]); try subst m;
    simpl; by destruct (Calendar.leap_year y).
Qed.

Lemma _check_date_fields_real_date (y m d : Z) :
  y ≤ 9999 →
  Datetime._check_date_fields y m d = Calendar.real_date y m d.
Proof.
  intros Hy. unfold Datetime._check_date_fields, Calendar.real_date,
    Datetime.MINYEAR, Datetime.MAXYEAR.
  destruct (Z.leb_spec 1 y); simpl; [| reflexivity].
  destruct (Z.leb_spec y 9999); simpl; [| lia].
  destruct (Z.leb_spec 1 m); simpl; [| reflexivity].
  destruct (Z.leb_spec m 12); simpl; [| reflexivity].
  by rewrite _days_in_month_days_of_month.
Qed.

Lemma days_of_month_le_31 (y m : Z) : Calendar.days_of_month y m ≤ 31.
Proof.
  unfold Calendar.days_of_month.
  repeat match goal with |- context [if ?b then _ else _] => destruct b end; lia.
Qed.

Lemma real_date_bounds (y m d : Z) :
  Calendar.real_date y m d = true →
  (1 <=? m) && (m <=? 12) = true ∧ (1 <=? d) && (d <=? 31) = true.
Proof.
  pose proof (days_of_month_le_31 y m).
  unfold Calendar.real_date. rewrite !andb_true_iff, !Z.leb_le. lia.
Qed.

(** [strptime] on ten characters [dddd-dd-dd] and what follows them. *)
Lemma strptime_digits (y1 y2 y3 y4 m1 m2 d1 d2 : N) (tail : list N) :
  forallb Unicode.is_decimal [y1; y2; y3; y4; m1; m2; d1; d2] = true →
  let Y := Calendar.decimal [y1; y2; y3; y4] in
  let M := Calendar.decimal [m1; m2] in
  let D := Calendar.decimal [d1; d2] in
  match Datetime.format_regex
          ([y1; y2; y3; y4; 45%N; m1; m2; 45%N; d1; d2] ++ tail) with
  | [] => None
  | (ymd, rest) :: _ =>
      match rest with
      | [] => if Datetime._check_date_fields ymd.1.1 ymd.1.2 ymd.2
              then Some ymd else None
      | _ :: _ => None
      end
  end
  = if Unicode.in_range "0" "9" m1 && Unicode.in_range "0" "9" m2
       && Unicode.in_range "0" "9" d1
       && (Unicode.in_range "0" "9" d2 || Unicode.in_range "1" "2" d1)
       && Calendar.real_date Y M D
       && bool_decide (tail = [])
    then Some (Y, M, D) else None.
Proof.
  intros Hd Y M D. simpl in Hd.
  repeat (apply andb_prop in Hd as [? Hd]).
  assert (Y = 1000 * Unicode.decimal_value y1 + 100 * Unicode.decimal_value y2
              + 10 * Unicode.decimal_value y3 + Unicode.decimal_value y4)
    as HY by (subst Y; unfold Calendar.decimal; simpl; lia).
  assert (M = 10 * Unicode.decimal_value m1 + Unicode.decimal_value m2) as HM
    by (subst M; unfold Calendar.decimal; simpl; lia).
  assert (D = 10 * Unicode.decimal_value d1 + Unicode.decimal_value d2) as HD
    by (subst D; unfold Calendar.decimal; simpl; lia).
  pose proof (decimal_value_bounds y1). pose proof (decimal_value_bounds y2).
  pose proof (decimal_value_bounds y3). pose proof (decimal_value_bounds y4).
  assert (Y ≤ 9999) as HY9 by lia.
  clearbody Y M D.
  unfold Datetime.format_regex. cbn [app].
  rewrite group_Y_digits, dash_then, group_m_dash by done.
  unfold Datetime.digit_value. rewrite <-HY, <-HM.
  rewrite month_in_plain_digits, <-HM.
  pose proof (real_date_bounds Y M D) as Hreal.
  destruct (Unicode.in_range "0" "9" m1 && Unicode.in_range "0" "9" m2)
    eqn:Hplain_m; simpl; [| done].
  destruct ((1 <=? M) && (M <=? 12)) eqn:HMok; simpl.
  2:{ destruct (_ && Calendar.real_date Y M D) eqn:E; [| done].
      apply andb_true_iff in E as [_ E]. apply Hreal in E as [E _].
      congruence. }
  unfold Datetime.then_ at 1. rewrite group_d_digits by done.
  unfold Datetime.digit_value. rewrite <-HD.
  rewrite day_in_plain_digits, <-HD by done.
  destruct (Unicode.in_range "0" "9" d1
            && (Unicode.in_range "0" "9" d2 || Unicode.in_range "1" "2" d1))
    eqn:Hplain_d; simpl.
  - destruct ((1 <=? D) && (D <=? 31)) eqn:HDok; simpl.
    + unfold Datetime.pure. simpl.
      rewrite _check_date_fields_real_date by done.
      destruct tail as [|c tail]; simpl.
      * by destruct (Calendar.real_date Y M D).
      * by rewrite andb_false_r.
    + assert (Calendar.real_date Y M D = false) as ->.
      { destruct (Calendar.real_date Y M D) eqn:E; [| done].
        destruct (Hreal eq_refl) as [_ E']. discriminate. }
      simpl. by destruct (Unicode.in_range "1" "9" d1).
  - by destruct (Unicode.in_range "1" "9" d1).
Qed.

(** [strptime] accepts, of the strings [re.match] accepts, the dates of
    the calendar whose month and day are in the digits 0 to 9. *)
Lemma strptime_plain_real_date (s : string) :
  Re.match_unicode DATE_FORMAT s = true →
  is_Some (Datetime.strptime s) ↔ Calendar.plain_real_date s = true.
Proof.
  intros (y1 & y2 & y3 & y4 & m1 & m2 & d1 & d2 & tail & Hs & Hd & Htail)
           %match_DATE_FORMAT.
  assert (Datetime.strptime s
          = match Datetime.format_regex (Unicode.code_points s) with
            | [] => None
            | (ymd, rest) :: _ =>
                match rest with
                | [] => if Datetime._check_date_fields ymd.1.1 ymd.1.2 ymd.2
                        then Some ymd else None
                | _ :: _ => None
                end
            end) as ->.
  { unfold Datetime.strptime.
    by destruct (Datetime.format_regex _) as [|[[[y m] d] [|? ?]] ?]. }
  rewrite Hs, (strptime_digits _ _ _ _ _ _ _ _ _ Hd). cbv zeta.
  unfold Calendar.plain_real_date, Calendar.denotes_real_date,
    Calendar.plain_month_and_day.
  rewrite Hs. destruct Htail as [-> | ->]; cbn [app].
  - rewrite Hd. change (Unicode.exactly "-" 45) with true.
    rewrite bool_decide_eq_true_2 by done. cbn [andb].
    destruct (Unicode.in_range "0" "9" m1), (Unicode.in_range "0" "9" m2),
      (Unicode.in_range "0" "9" d1),
      (Unicode.in_range "0" "9" d2 || Unicode.in_range "1" "2" d1),
      (Calendar.real_date _ _ _); simpl;
      split; (done || by eexists || by intros [? ?]).
  - rewrite bool_decide_eq_false_2 by done. rewrite andb_false_r.
    split; [by intros [? ?] | discriminate].
Qed.

Lemma plain_real_date_match (s : string) :
  Calendar.plain_real_date s = true → Re.match_unicode DATE_FORMAT s = true.
Proof.
  unfold Calendar.plain_real_date, Calendar.denotes_real_date.
  intros [H _]%andb_true_iff. apply match_DATE_FORMAT.
  destruct (Unicode.code_points s)
    as [|y1 [|y2 [|y3 [|y4 [|h1 [|m1 [|m2 [|h2 [|d1 [|d2 [|? ?]]]]]]]]]]];
    try discriminate.
  apply andb_true_iff in H as [H _].
  apply andb_true_iff in H as [H H2%N.eqb_eq].
  apply andb_true_iff in H as [H H1%N.eqb_eq]. subst h1 h2.
  exists y1, y2, y3, y4, m1, m2, d1, d2, []. auto.
Qed.

(** What [_validate_date] lets through. *)
Lemma _validate_date_Return (date_str : option string) :
  _validate_date date_str = Return tt ↔
  ∃ s, date_str = Some s ∧ Calendar.plain_real_date s = true.
Proof.
  unfold _validate_date. destruct date_str as [s|].
  - split.
    + destruct (Re.match_unicode DATE_FORMAT s) eqn:Hm; simpl;
        [| discriminate].
      destruct (Datetime.strptime s) as [d|] eqn:Hp; [| discriminate].
      intros _. exists s. split; [done |].
      apply strptime_plain_real_date; [done | by rewrite Hp].
    + intros (s' & [= <-] & Hd).
      pose proof (plain_real_date_match s Hd) as Hm. rewrite Hm. simpl.
      apply (strptime_plain_real_date s Hm) in Hd as [d ->]. done.
  - split; [discriminate | by intros (s & ? & _)].
Qed.

(** ** C8: the three outcomes of the date validator *)

(** C8, the claim as stated fails. The text of 1 January 2024 in
    Arabic-Indic digits matches the pattern, whose [\d] is any decimal
    digit, and denotes a date of the calendar, yet the validator fails with
    the [ValueError] "Invalid date": [strptime] reads the month and the
    day in the digits 0 to 9 only. It does accept the year in those digits,
    and, after a 1 or a 2, the second digit of the day. So the claim fails
    whether the digits of other scripts are taken to write a date (the
    first text is a date that is rejected) or not (the two other texts
    are accepted). *)
Lemma _validate_date_of_other_digits :
  (Re.match_unicode DATE_FORMAT "٢٠٢٤-٠١-٠١" = true
   ∧ Calendar.denotes_real_date "٢٠٢٤-٠١-٠١" = true
   ∧ _validate_date (Some "٢٠٢٤-٠١-٠١")
     = Raise (ValueError (Invalid_date "٢٠٢٤-٠١-٠١")))
  ∧ _validate_date (Some "٢٠٢٤-01-01") = Return tt
  ∧ _validate_date (Some "2024-01-1٢") = Return tt.
Proof. repeat split; vm_compute; reflexivity. Qed.

(** C8, amended. [_validate_date] is total and has three outcomes, decided
    by the string alone: the [ValueError] "Invalid date format" when
    [re.match] rejects the string for [DATE_FORMAT]; the [ValueError]
    "Invalid date" when [re.match] accepts it and it is not a date of the
    calendar with its month and its day in the digits 0 to 9; and a silent
    return otherwise. (The year may be in the decimal digits of any
    script, and so may the second digit of a day from 10 to 29. A string
    [dddd-dd-dd] followed by a newline is accepted by [re.match], whose
    [$] matches before a final newline, and is no such date.) *)
Theorem _validate_date_outcomes (date_str : string) :
  (Re.match_unicode DATE_FORMAT date_str = false →
   _validate_date (Some date_str)
   = Raise (ValueError (Invalid_date_format date_str)))
  ∧ (Re.match_unicode DATE_FORMAT date_str = true →
     Calendar.plain_real_date date_str = false →
     _validate_date (Some date_str)
     = Raise (ValueError (Invalid_date date_str)))
  ∧ (Re.match_unicode DATE_FORMAT date_str = true →
     Calendar.plain_real_date date_str = true →
     _validate_date (Some date_str) = Return tt).
Proof.
  unfold _validate_date. repeat split.
  - by intros ->.
  - intros Hm Hd. rewrite Hm. simpl.
    destruct (Datetime.strptime date_str) as [d|] eqn:Hp; [| done].
    assert (Calendar.plain_real_date date_str = true) as Hd'
      by (apply strptime_plain_real_date; [done | by rewrite Hp]).
    congruence.
  - intros Hm Hd. rewrite Hm. simpl.
    apply (strptime_plain_real_date _ Hm) in Hd as [d ->]. done.
Qed.

Lemma _validate_date_outcomes_witness :
  _validate_date (Some "2024-2-30")
  = Raise (ValueError (Invalid_date_format "2024-2-30"))
  ∧ _validate_date (Some "2024-02-30")
    = Raise (ValueError (Invalid_date "2024-02-30"))
  ∧ _validate_date (Some "2024-02-29") = Return tt.
Proof.
  split; [| split].
  - apply (proj1 (_validate_date_outcomes "2024-2-30")). reflexivity.
  - apply (proj1 (proj2 (_validate_date_outcomes "2024-02-30")));
      reflexivity.
  - apply (proj2 (proj2 (_validate_date_outcomes "2024-02-29")));
      reflexivity.
Defined.

(** Dates that the validator rejects for their value: a month 13, a day 30
    in February, a day 29 in a February that has 28, the year 0, and a
    date followed by a newline. *)
Example _validate_date_invalid_values :
  map (λ s, _validate_date (Some s))
      ["2024-13-01"; "2024-02-30"; "2023-02-29"; "0000-01-01";
       String "2" (String "0" (String "2" (String "4" (String "-"
         (String "0" (String "1" (String "-" (String "0" (String "1"
           (String "010" EmptyString))))))))))]
  = map (λ s, Raise (ValueError (Invalid_date s)))
      ["2024-13-01"; "2024-02-30"; "2023-02-29"; "0000-01-01";
       String "2" (String "0" (String "2" (String "4" (String "-"
         (String "0" (String "1" (String "-" (String "0" (String "1"
           (String "010" EmptyString))))))))))].
Proof. vm_compute. reflexivity. Qed.

(** ** Every call is guarded *)

Lemma SELECT_1_WHERE_id_true (t : Sqlite.table) (v : option Z)
    (db : Sqlite.Database) :
  Sqlite.SELECT_1_WHERE_id t v db = true →
  ∃ i, v = Some i
       ∧ match t with
         | Sqlite.Person_table => is_Some (Sqlite.Person db !! i)
         | Sqlite.Milestone_table => is_Some (Sqlite.Milestone db !! i)
         | Sqlite.Task_table => is_Some (Sqlite.Task db !! i)
         end.
Proof.
  unfold Sqlite.SELECT_1_WHERE_id, Sqlite.SELECT_WHERE_id.
  destruct t; intros H%bool_decide_eq_true; destruct v as [i|];
    simpl in H; try (by destruct H); exists i; (split; [done |]).
  - destruct (Sqlite.Person db !! i); [done | by destruct H].
  - destruct (Sqlite.Milestone db !! i); [done | by destruct H].
  - destruct (Sqlite.Task db !! i); [done | by destruct H].
Qed.

Lemma Task_constraints_None (db : Sqlite.Database)
    (title description status priority start_date due_date : option string)
    (person_id milestone_id : option Z) :
  Sqlite.Task_constraints
    (title, description, status, priority, start_date, due_date, person_id,
     milestone_id) db = None →
  is_Some title
  ∧ Sqlite.references (Sqlite.Person db) person_id = true
  ∧ Sqlite.references (Sqlite.Milestone db) milestone_id = true.
Proof.
  unfold Sqlite.Task_constraints. destruct title; [| discriminate].
  destruct (Sqlite.references (Sqlite.Person db) person_id); [| discriminate].
  destruct (Sqlite.references (Sqlite.Milestone db) milestone_id);
    [| discriminate].
  eauto.
Qed.

Lemma references_Some {A} (parent : gmap Z A) (v : option Z) :
  Sqlite.references parent v = true ↔ ∀ i, v = Some i → is_Some (parent !! i).
Proof.
  unfold Sqlite.references. destruct v as [i|].
  - rewrite bool_decide_eq_true. split; [by intros ? ? [= <-] | eauto].
  - split; [discriminate | done].
Qed.

Ltac step_fk_as Hs :=
  match goal with
  | |- context [_validate_foreign_key ?t ?v ?db] =>
      let H := fresh "Hfk" in
      destruct (_validate_foreign_key_cases t v db) as [[Hs H] | [Hs H]];
      rewrite H
  end.

Lemma guarded_read {A} (db : Sqlite.Database) (r : result A) :
  guarded db (r, db).
Proof. destruct r; [right | left]; eauto. Qed.

Lemma add_person_guarded (db : Sqlite.Database)
    (name email role : option string) :
  guarded db (add_person name email role db).
Proof.
  rewrite add_person_effect.
  destruct (_validate_email email) as [[]|] eqn:Hv; [| apply guarded_read].
  unfold Sqlite.INSERT_INTO_Person.
  destruct name as [n|]; [| apply guarded_read].
  destruct email as [e|]; [| apply guarded_read].
  destruct (bool_decide _) eqn:He; [apply guarded_read |].
  apply bool_decide_eq_false in He.
  right. eexists. split; [reflexivity |]. right. simpl.
  by apply (write_INSERT_Person db (Some n, Some e, role) e).
Qed.

Lemma update_person_guarded (db : Sqlite.Database) (id : Z)
    (name email role : option string) :
  guarded db (update_person id name email role db).
Proof.
  unfold update_person. repo_unfold.
  destruct (Sqlite.Person db !! id)
    as [[[n e] r]|] eqn:Hc;
    [| rewrite (get_person_absent _ _ Hc); apply guarded_read].
  rewrite (get_person_present _ _ _ Hc). simpl.
  step_check; [| apply guarded_read].
  unfold Sqlite.UPDATE_Person. rewrite Hc.
  destruct (Py.or name n) as [n'|] eqn:Hn; [| apply guarded_read].
  destruct (Py.or email e) as [e'|] eqn:He; [| apply guarded_read].
  destruct (bool_decide (e' ∈ _)) eqn:Hin; [apply guarded_read |].
  apply bool_decide_eq_false in Hin.
  right. eexists. split; [reflexivity |]. right. simpl.
  apply (write_UPDATE_Person db id (Some n', Some e', Py.or role r) e');
    try done.
  split; [done |]. simpl. by destruct a.
Qed.

Lemma delete_person_guarded (db : Sqlite.Database) (id : Z) :
  guarded db (delete_person id db).
Proof.
  unfold delete_person. repo_unfold.
  step_fk_as Hs; [| apply guarded_read].
  apply SELECT_1_WHERE_id_true in Hs as (i & [= <-] & Hi).
  right. exists tt. split; [reflexivity |]. right. simpl.
  unfold Sqlite.DELETE_FROM_Person. destruct Hi as [c Hc]. rewrite Hc.
  by apply write_DELETE_Person.
Qed.

Lemma add_milestone_guarded (db : Sqlite.Database) (name : option string) :
  guarded db (add_milestone name db).
Proof.
  rewrite add_milestone_effect. unfold Sqlite.INSERT_INTO_Milestone.
  destruct name as [n|]; [| apply guarded_read].
  right. eexists. split; [reflexivity |]. right. simpl.
  apply (write_INSERT_Milestone db (Some n)). by eexists.
Qed.

Lemma update_milestone_guarded (db : Sqlite.Database) (id : Z)
    (name : option string) :
  guarded db (update_milestone id name db).
Proof.
  unfold update_milestone. repo_unfold.
  destruct (Sqlite.Milestone db !! id)
    as [n|] eqn:Hc;
    [| rewrite (get_milestone_absent _ _ Hc); apply guarded_read].
  rewrite (get_milestone_present _ _ _ Hc). simpl.
  unfold Sqlite.UPDATE_Milestone. rewrite Hc.
  destruct (Py.or name n) as [n'|] eqn:Hn; [| apply guarded_read].
  right. eexists. split; [reflexivity |]. right. simpl.
  apply (write_UPDATE_Milestone db id (Some n')); by eexists.
Qed.

Lemma delete_milestone_guarded (db : Sqlite.Database) (id : Z) :
  guarded db (delete_milestone id db).
Proof.
  unfold delete_milestone. repo_unfold.
  step_fk_as Hs; [| apply guarded_read].
  apply SELECT_1_WHERE_id_true in Hs as (i & [= <-] & Hi).
  right. exists tt. split; [reflexivity |]. right. simpl.
  unfold Sqlite.DELETE_FROM_Milestone. destruct Hi as [c Hc]. rewrite Hc.
  by apply write_DELETE_Milestone.
Qed.

Lemma delete_task_guarded (db : Sqlite.Database) (id : Z) :
  guarded db (delete_task id db).
Proof.
  unfold delete_task. repo_unfold.
  step_fk_as Hs; [| apply guarded_read].
  apply SELECT_1_WHERE_id_true in Hs as (i & [= <-] & Hi).
  right. exists tt. split; [reflexivity |]. right. simpl.
  by apply write_DELETE_Task.
Qed.

(** The checks a method of [Task] makes before its statement give the
    validity of the row it writes. *)
Lemma checked_valid_Task (db : Sqlite.Database)
    (title description status priority start_date due_date : option string)
    (person_id milestone_id : option Z) (u1 u2 u3 u4 : unit) :
  _validate_status status = Return u1 →
  _validate_priority priority = Return u2 →
  _validate_date start_date = Return u3 →
  _validate_date due_date = Return u4 →
  Sqlite.SELECT_1_WHERE_id Sqlite.Person_table person_id db = true →
  Sqlite.Task_constraints
    (title, description, status, priority, start_date, due_date, person_id,
     milestone_id) db = None →
  valid_Task db
    (title, description, status, priority, start_date, due_date, person_id,
     milestone_id).
Proof.
  intros Hs Hp Hsd Hdd Hperson (Ht & _ & Hm)%Task_constraints_None.
  destruct u1, u2, u3, u4.
  apply SELECT_1_WHERE_id_true in Hperson as (p & -> & Hp').
  repeat split; try done; [eauto | by apply references_Some].
Qed.

Lemma add_task_guarded (db : Sqlite.Database)
    (title description status priority start_date due_date : option string)
    (person_id milestone_id : option Z) :
  guarded db (add_task title description status priority start_date due_date
                       person_id milestone_id db).
Proof.
  unfold add_task. repo_unfold.
  repeat (step_check; [| apply guarded_read]).
  step_fk_as Hperson; [| apply guarded_read].
  assert (guarded db
    (let (r, db') :=
       match Sqlite.INSERT_INTO_Task
               (title, description, status, priority, start_date, due_date,
                person_id, milestone_id) db with
       | inl e => (Raise (sqlite3_Error "Task insertion error" e), db)
       | inr (a, db') => (Return a, db')
       end in
     match r with
     | Return a =>
         (Return (load_entity new_TaskFactory
                    (a, (title, description, status, priority, start_date,
                         due_date, person_id, milestone_id))), db')
     | Raise e => (Raise e, db')
     end)) as Hins.
  { unfold Sqlite.INSERT_INTO_Task.
    destruct (Sqlite.Task_constraints _ db) eqn:Hc; [apply guarded_read |].
    right. eexists. split; [reflexivity |]. right. simpl.
    apply write_INSERT_Task. by eapply checked_valid_Task. }
  destruct (Py.truthy milestone_id); [step_fk; [| apply guarded_read] |];
    exact Hins.
Qed.

Lemma update_task_guarded (db : Sqlite.Database) (id : Z)
    (title description status priority start_date due_date : option string)
    (person_id milestone_id : option Z) :
  guarded db (update_task id title description status priority start_date
                          due_date person_id milestone_id db).
Proof.
  unfold update_task. repo_unfold.
  destruct (Sqlite.Task db !! id)
    as [[[[[[[[t0 d0] s0] p0] sd0] dd0] pid0] mid0]|] eqn:Hc;
    [| rewrite (get_task_absent _ _ Hc); apply guarded_read].
  rewrite (get_task_present _ _ _ Hc). simpl.
  repeat (step_check; [| apply guarded_read]).
  step_fk_as Hperson; [| apply guarded_read].
  destruct (Py.truthy _); [step_fk; [| apply guarded_read] |].
  all: unfold Sqlite.UPDATE_Task; rewrite Hc.
  all: destruct (Sqlite.Task_constraints _ db) eqn:Hcon; [apply guarded_read |].
  all: right; eexists; (split; [reflexivity |]); right; simpl.
  all: apply write_UPDATE_Task; [done | by eapply checked_valid_Task].
Qed.


(** ** The writes keep the database consistent *)

Lemma valid_Task_mono (db db' : Sqlite.Database) (c : Sqlite.Task_columns) :
  (∀ p, is_Some (Sqlite.Person db !! p) → is_Some (Sqlite.Person db' !! p)) →
  (∀ m, Sqlite.milestone_id_of c = Some m →
        is_Some (Sqlite.Milestone db !! m) →
        is_Some (Sqlite.Milestone db' !! m)) →
  valid_Task db c → valid_Task db' c.
Proof.
  destruct c as [[[[[[[t d] s] p] sd] dd] pid] mid].
  unfold valid_Task, Sqlite.milestone_id_of. simpl.
  intros HP HM (? & ? & ? & ? & ? & (q & ? & ?) & Hm).
  repeat split; eauto.
Qed.

Lemma ids_assigned_insert_next {A} (table : gmap Z A) (seq : Z) (c : A) :
  ids_assigned table seq →
  ids_assigned (<[Sqlite.next_rowid seq table := c]> table)
               (Sqlite.next_rowid seq table).
Proof.
  intros [H0 Hids]. pose proof (next_rowid_above_seq seq table) as Hn.
  split; [lia |]. intros i [<- | [_ Hi]]%lookup_insert_is_Some; [lia |].
  apply Hids in Hi. lia.
Qed.

Lemma ids_assigned_insert_stored {A} (table : gmap Z A) (seq id : Z) (c : A) :
  is_Some (table !! id) →
  ids_assigned table seq → ids_assigned (<[id := c]> table) seq.
Proof.
  intros Hid [H0 Hids]. split; [done |].
  intros i [<- | [_ Hi]]%lookup_insert_is_Some; by apply Hids.
Qed.

Lemma ids_assigned_subset {A B} (table : gmap Z A) (table' : gmap Z B)
    (seq : Z) :
  (∀ i, is_Some (table' !! i) → is_Some (table !! i)) →
  ids_assigned table seq → ids_assigned table' seq.
Proof. intros Hsub [H0 Hids]. split; [done |]. eauto. Qed.

Lemma write_consistent (db db' : Sqlite.Database) :
  consistent db → write db db' → consistent db'.
Proof.
  intros [HU HP HM HT HPi HMi HTi] Hw.
  destruct Hw as [c e Hc He Hin | id c e Hid Hc He Hin | id Hid
                  | c Hc | id c Hid Hc | id Hid
                  | c Hc | id c Hid Hc | id Hid].
  - (* INSERT INTO Person *)
    split; simpl; try done.
    + unfold Sqlite.UNIQUE_email. simpl.
      rewrite emails_insert by apply next_rowid_fresh. rewrite He.
      by apply NoDup_cons.
    + by apply map_Forall_insert_2.
    + eapply map_Forall_impl; [exact HT |]. intros i t.
      apply valid_Task_mono; simpl; [| done].
      intros p Hp. apply lookup_insert_is_Some'. by right.
    + by apply ids_assigned_insert_next.
  - (* UPDATE Person *)
    split; simpl; try done.
    + unfold Sqlite.UNIQUE_email. simpl. rewrite <-insert_delete_eq.
      rewrite emails_insert by apply lookup_delete_eq. rewrite He.
      apply NoDup_cons. split; [done | by apply NoDup_emails_delete].
    + by apply map_Forall_insert_2.
    + eapply map_Forall_impl; [exact HT |]. intros i t.
      apply valid_Task_mono; simpl; [| done].
      intros p Hp. apply lookup_insert_is_Some'. by right.
    + by apply ids_assigned_insert_stored.
  - (* DELETE FROM Person *)
    split; simpl; try done.
    + unfold Sqlite.UNIQUE_email. simpl. by apply NoDup_emails_delete.
    + by apply map_Forall_delete.
    + intros i t [Ht Href]%map_lookup_filter_Some. simpl in Href.
      specialize (HT i t Ht). simpl in HT.
      destruct t as [[[[[[[t d] s] p] sd] dd] pid] mid].
      unfold valid_Task in *. simpl.
      destruct HT as (? & ? & ? & ? & ? & (q & -> & Hq) & ?).
      repeat split; try done. exists q. split; [done |].
      rewrite lookup_delete_ne; [done |].
      intros <-. by apply Href.
    + eapply ids_assigned_subset; [| exact HPi].
      intros i Hi. apply lookup_delete_is_Some in Hi. tauto.
    + eapply ids_assigned_subset; [| exact HTi].
      intros i [t [Ht _]%map_lookup_filter_Some]. eauto.
  - (* INSERT INTO Milestone *)
    split; simpl; try done.
    + by apply map_Forall_insert_2.
    + eapply map_Forall_impl; [exact HT |]. intros i t.
      apply valid_Task_mono; simpl; [done |].
      intros m _ Hm. apply lookup_insert_is_Some'. by right.
    + by apply ids_assigned_insert_next.
  - (* UPDATE Milestone *)
    split; simpl; try done.
    + by apply map_Forall_insert_2.
    + eapply map_Forall_impl; [exact HT |]. intros i t.
      apply valid_Task_mono; simpl; [done |].
      intros m _ Hm. apply lookup_insert_is_Some'. by right.
    + by apply ids_assigned_insert_stored.
  - (* DELETE FROM Milestone *)
    split; simpl; try done.
    + by apply map_Forall_delete.
    + intros i t' Ht'. rewrite lookup_fmap in Ht'.
      destruct (Sqlite.Task db !! i) as [t|] eqn:Ht; [| discriminate].
      injection Ht' as <-. specialize (HT i t Ht). simpl in HT.
      destruct t as [[[[[[[t d] s] p] sd] dd] pid] mid].
      unfold Sqlite.milestone_id_of, Sqlite.set_milestone_id. simpl.
      unfold valid_Task in *.
      destruct HT as (? & ? & ? & ? & ? & ? & Hm).
      destruct (bool_decide (mid = Some id)) eqn:Hb; simpl.
      * repeat split; try done.
      * apply bool_decide_eq_false in Hb.
        repeat split; try done. intros m ->.
        rewrite lookup_delete_ne; [by apply Hm |]. by intros <-.
    + eapply ids_assigned_subset; [| exact HMi].
      intros i Hi. apply lookup_delete_is_Some in Hi. tauto.
    + eapply ids_assigned_subset; [| exact HTi].
      intros i Hi. rewrite lookup_fmap in Hi. by apply fmap_is_Some in Hi.
  - (* INSERT INTO Task *)
    split; simpl; try done.
    + apply map_Forall_insert_2;
        [by eapply valid_Task_mono; [| | exact Hc] |].
      eapply map_Forall_impl; [exact HT |]. intros i t.
      by apply valid_Task_mono.
    + by apply ids_assigned_insert_next.
  - (* UPDATE Task *)
    split; simpl; try done.
    + apply map_Forall_insert_2;
        [by eapply valid_Task_mono; [| | exact Hc] |].
      eapply map_Forall_impl; [exact HT |]. intros i t.
      by apply valid_Task_mono.
    + by apply ids_assigned_insert_stored.
  - (* DELETE FROM Task *)
    split; simpl; try done.
    + apply map_Forall_delete.
      eapply map_Forall_impl; [exact HT |]. intros i t.
      by apply valid_Task_mono.
    + eapply ids_assigned_subset; [| exact HTi].
      intros i Hi. apply lookup_delete_is_Some in Hi. tauto.
Qed.

Lemma ids_assigned_empty {A} : ids_assigned (∅ : gmap Z A) 0.
Proof. split; [done |]. intros i [x H]. by rewrite lookup_empty in H. Qed.

Lemma consistent_empty : consistent Sqlite.empty.
Proof.
  split.
  - apply UNIQUE_email_empty.
  - apply map_Forall_empty.
  - apply map_Forall_empty.
  - apply map_Forall_empty.
  - apply ids_assigned_empty.
  - apply ids_assigned_empty.
  - apply ids_assigned_empty.
Qed.

(** ** Sequences of calls *)

Lemma get_tasks_by_milestone_guarded (db : Sqlite.Database) (id : Z)
    (status priority : option string) (sort_by : string) :
  guarded db (get_tasks_by_milestone id status priority sort_by db).
Proof.
  unfold get_tasks_by_milestone. repo_unfold.
  destruct (negb (bool_decide _)); simpl; [apply guarded_read |].
  destruct (Py.truthy status && _); simpl; [apply guarded_read |].
  destruct (Py.truthy priority && _); simpl; [apply guarded_read |].
  step_fk; apply guarded_read.
Qed.

Lemma get_all_persons_guarded (db : Sqlite.Database) (sort_by : string) :
  guarded db (get_all_persons sort_by db).
Proof.
  unfold get_all_persons. repo_unfold.
  destruct (negb (bool_decide _)); simpl; apply guarded_read.
Qed.

Lemma get_all_tasks_guarded (db : Sqlite.Database) (sort_by : string) :
  guarded db (get_all_tasks sort_by db).
Proof.
  unfold get_all_tasks. repo_unfold.
  destruct (negb (bool_decide _)); simpl; apply guarded_read.
Qed.

Lemma get_all_milestones_guarded (db : Sqlite.Database) (sort_by : string) :
  guarded db (get_all_milestones sort_by db).
Proof.
  unfold get_all_milestones. repo_unfold.
  destruct (negb (bool_decide _)); simpl; apply guarded_read.
Qed.

Lemma get_person_guarded (db : Sqlite.Database) (id : Z) :
  guarded db (get_person id db).
Proof.
  destruct (Sqlite.Person db !! id) as [c|] eqn:Hc.
  - rewrite (get_person_present _ _ _ Hc). apply guarded_read.
  - rewrite (get_person_absent _ _ Hc). apply guarded_read.
Qed.

Lemma get_task_guarded (db : Sqlite.Database) (id : Z) :
  guarded db (get_task id db).
Proof.
  destruct (Sqlite.Task db !! id) as [c|] eqn:Hc.
  - rewrite (get_task_present _ _ _ Hc). apply guarded_read.
  - rewrite (get_task_absent _ _ Hc). apply guarded_read.
Qed.

Lemma get_milestone_guarded (db : Sqlite.Database) (id : Z) :
  guarded db (get_milestone id db).
Proof.
  destruct (Sqlite.Milestone db !! id) as [c|] eqn:Hc.
  - rewrite (get_milestone_present _ _ _ Hc). apply guarded_read.
  - rewrite (get_milestone_absent _ _ Hc). apply guarded_read.
Qed.

Lemma outcome_guarded {A} (db : Sqlite.Database)
    (r : result A * Sqlite.Database) :
  guarded db r →
  (∃ x, outcome r = (Some x, db))
  ∨ ((outcome r).1 = None ∧ ((outcome r).2 = db ∨ write db (outcome r).2)).
Proof.
  intros [[x ->] | (a & Ha & Hw)]; [left; by exists x |].
  right. unfold outcome. by rewrite Ha.
Qed.

(** A call raises and leaves the database as it was, or returns and has
    left it as it was or made one write. *)
Lemma run_guarded (c : call) (db : Sqlite.Database) :
  (∃ x, run c db = (Some x, db))
  ∨ ((run c db).1 = None ∧ ((run c db).2 = db ∨ write db (run c db).2)).
Proof.
  destruct c; simpl; apply outcome_guarded.
  - apply add_person_guarded.
  - apply get_person_guarded.
  - apply update_person_guarded.
  - apply delete_person_guarded.
  - apply get_all_persons_guarded.
  - apply get_all_tasks_guarded.
  - apply add_task_guarded.
  - apply get_task_guarded.
  - apply update_task_guarded.
  - apply delete_task_guarded.
  - apply get_tasks_by_milestone_guarded.
  - apply add_milestone_guarded.
  - apply get_milestone_guarded.
  - apply update_milestone_guarded.
  - apply delete_milestone_guarded.
  - apply get_all_milestones_guarded.
Qed.

Lemma run_consistent (c : call) (db : Sqlite.Database) :
  consistent db → consistent (run c db).2.
Proof.
  intros H. destruct (run_guarded c db) as [[x ->] | [_ [-> | Hw]]];
    [done | done | by eapply write_consistent].
Qed.

Lemma run_all_consistent (calls : list call) (db : Sqlite.Database) :
  consistent db → consistent (run_all calls db).
Proof.
  revert db. induction calls as [|c calls IH]; intros db H; [done |].
  simpl. apply IH. by apply run_consistent.
Qed.

Lemma run_all_app (calls1 calls2 : list call) (db : Sqlite.Database) :
  run_all (calls1 ++ calls2) db = run_all calls2 (run_all calls1 db).
Proof. apply foldl_app. Qed.

(** ** X1: a call that raises writes nothing *)

(** X1. Whatever public method is called, with whatever arguments and on
    whatever database: when the call raises, the database afterwards is
    the database before. *)
Theorem failed_call_writes_nothing (c : call) (db : Sqlite.Database)
    (x : exn) :
  (run c db).1 = Some x → (run c db).2 = db.
Proof.
  intros H. destruct (run_guarded c db) as [[y Hy] | [Hn _]].
  - by rewrite Hy.
  - congruence.
Qed.

Lemma failed_call_writes_nothing_witness :
  (run (Update_task 1 None None (Some "Done") None (Some "2025-02-30") None
          None None) example_db).1
  = Some (ValueError (Invalid_date "2025-02-30"))
  ∧ (run (Update_task 1 None None (Some "Done") None (Some "2025-02-30") None
            None None) example_db).2
    = example_db.
Proof.
  split; [reflexivity |].
  apply (failed_call_writes_nothing _ _
           (ValueError (Invalid_date "2025-02-30"))).
  reflexivity.
Defined.

(** ** What holds after any sequence of calls *)

Lemma stored_person_is_Some (db : Sqlite.Database) (id : Z) :
  is_Some (stored_person db id) ↔ is_Some (Sqlite.Person db !! id).
Proof.
  unfold stored_person, Sqlite.SELECT_WHERE_id. simpl.
  destruct (Sqlite.Person db !! id); simpl; split; intros [? ?]; eauto;
    discriminate.
Qed.

Lemma stored_milestone_is_Some (db : Sqlite.Database) (id : Z) :
  is_Some (stored_milestone db id) ↔ is_Some (Sqlite.Milestone db !! id).
Proof.
  unfold stored_milestone, Sqlite.SELECT_WHERE_id. simpl.
  destruct (Sqlite.Milestone db !! id); simpl; split; intros [? ?]; eauto;
    discriminate.
Qed.

Lemma stored_person_inv (db : Sqlite.Database) (id : Z) (p : Person.t) :
  stored_person db id = Some p →
  ∃ c, Sqlite.Person db !! id = Some c
       ∧ p = load_entity new_PersonFactory (id, c).
Proof.
  unfold stored_person, Sqlite.SELECT_WHERE_id. simpl.
  destruct (Sqlite.Person db !! id) as [c|]; simpl; [| discriminate].
  intros [= <-]. eauto.
Qed.

Lemma stored_milestone_inv (db : Sqlite.Database) (id : Z) (m : Milestone.t) :
  stored_milestone db id = Some m →
  ∃ c, Sqlite.Milestone db !! id = Some c
       ∧ m = load_entity new_MilestoneFactory (id, c).
Proof.
  unfold stored_milestone, Sqlite.SELECT_WHERE_id. simpl.
  destruct (Sqlite.Milestone db !! id) as [c|]; simpl; [| discriminate].
  intros [= <-]. eauto.
Qed.

(** A stored task of a consistent database, field by field. *)
Lemma consistent_stored_task (db : Sqlite.Database) (id : Z) (t : Task.t) :
  consistent db → stored_task db id = Some t →
  is_Some (Task.title t)
  ∧ _validate_status (Task.status t) = Return tt
  ∧ _validate_priority (Task.priority t) = Return tt
  ∧ _validate_date (Task.start_date t) = Return tt
  ∧ _validate_date (Task.due_date t) = Return tt
  ∧ (∃ p, Task.person_id t = Some p ∧ is_Some (Sqlite.Person db !! p))
  ∧ (∀ m, Task.milestone_id t = Some m → is_Some (Sqlite.Milestone db !! m)).
Proof.
  intros Hc (c & Hl & ->)%stored_task_inv.
  pose proof (consistent_Task _ Hc id c Hl) as H. simpl in H.
  by destruct c as [[[[[[[? ?] ?] ?] ?] ?] ?] ?].
Qed.

(** X2. After any sequence of calls on the empty database, every stored
    task references a stored person, and a stored milestone or none: no
    sequence of additions, updates and deletions leaves a dangling
    reference. *)
Theorem references_always_stored (calls : list call) (id : Z) (t : Task.t) :
  let db := run_all calls Sqlite.empty in
  stored_task db id = Some t →
  (∃ p, Task.person_id t = Some p ∧ is_Some (stored_person db p))
  ∧ (match Task.milestone_id t with
     | Some m => is_Some (stored_milestone db m)
     | None => True
     end).
Proof.
  intros db Ht.
  assert (consistent db) as Hc
    by apply run_all_consistent, consistent_empty.
  destruct (consistent_stored_task db id t Hc Ht)
    as (_ & _ & _ & _ & _ & (p & Hp & Hs) & Hm).
  split.
  - exists p. split; [done | by apply stored_person_is_Some].
  - destruct (Task.milestone_id t) as [m|]; [| done].
    by apply stored_milestone_is_Some, Hm.
Qed.

Lemma references_always_stored_witness :
  let db := run_all
              [Add_person (Some "Ada") (Some "ada@example.com") None;
               Add_milestone (Some "Beta");
               Add_task (Some "Spec") None (Some "ToDo") (Some "High")
                 (Some "2025-01-01") (Some "2025-01-10") (Some 1) (Some 1);
               Delete_milestone 1]
              Sqlite.empty in
  (∃ p, Some 1 = Some p ∧ is_Some (stored_person db p)) ∧ True.
Proof.
  apply (references_always_stored
           [Add_person (Some "Ada") (Some "ada@example.com") None;
            Add_milestone (Some "Beta");
            Add_task (Some "Spec") None (Some "ToDo") (Some "High")
              (Some "2025-01-01") (Some "2025-01-10") (Some 1) (Some 1);
            Delete_milestone 1]
           1
           {| Task.id := 1; Task.title := Some "Spec";
              Task.description := None; Task.status := Some "ToDo";
              Task.priority := Some "High";
              Task.start_date := Some "2025-01-01";
              Task.due_date := Some "2025-01-10";
              Task.person_id := Some 1; Task.milestone_id := None |}).
  reflexivity.
Defined.

(** ** The values the validators accept *)

Lemma contains_VALID_PRIORITIES (priority : option string) :
  Py.contains VALID_PRIORITIES priority = true ↔
  priority = Some "High" ∨ priority = Some "Medium" ∨ priority = Some "Low".
Proof.
  unfold Py.contains, VALID_PRIORITIES. destruct priority as [s|].
  - rewrite bool_decide_eq_true, !elem_of_union, !elem_of_singleton.
    split.
    + intros [[-> | ->] | ->]; auto.
    + intros [H | [H | H]]; injection H as ->; auto.
  - split; [discriminate | intros [H | [H | H]]; discriminate].
Qed.

Lemma _validate_status_Return (status : option string) :
  _validate_status status = Return tt ↔
  status = Some "ToDo" ∨ status = Some "InProgress" ∨ status = Some "Done".
Proof.
  rewrite <-contains_VALID_STATUSES. unfold _validate_status.
  destruct (Py.contains VALID_STATUSES status); simpl; split; done.
Qed.

Lemma _validate_priority_Return (priority : option string) :
  _validate_priority priority = Return tt ↔
  priority = Some "High" ∨ priority = Some "Medium" ∨ priority = Some "Low".
Proof.
  rewrite <-contains_VALID_PRIORITIES. unfold _validate_priority.
  destruct (Py.contains VALID_PRIORITIES priority); simpl; split; done.
Qed.

Lemma NoDup_omap_inj {A B} (f : A → option B) (l : list A) (x y : A) (e : B) :
  NoDup (omap f l) → x ∈ l → y ∈ l → f x = Some e → f y = Some e → x = y.
Proof.
  induction l as [|a l IH]; [by intros _ ?%elem_of_nil |].
  simpl. intros Hnd Hx Hy Hfx Hfy.
  assert (∀ z, z ∈ l → f z = Some e → e ∈ omap f l) as Hin.
  { intros z Hz Hfz. apply list_elem_of_omap. eauto. }
  apply elem_of_cons in Hx as [-> | Hx], Hy as [-> | Hy]; [done | | |].
  - rewrite Hfx in Hnd. apply NoDup_cons in Hnd as [Hn _].
    destruct Hn. eauto.
  - rewrite Hfy in Hnd. apply NoDup_cons in Hnd as [Hn _].
    destruct Hn. eauto.
  - apply IH; try done.
    destruct (f a); [by apply NoDup_cons in Hnd as [_ ?] | done].
Qed.

(** ** X3, X4: what is stored after any sequence of calls *)

(** X3. After any sequence of calls on the empty database, every stored
    task has a title, a status among ToDo, InProgress and Done, a priority
    among High, Medium and Low, and a start date and a due date that are
    texts YYYY-MM-DD denoting dates of the calendar, with the month and
    the day in the digits 0 to 9 (the year in the decimal digits of any
    script): the methods let no other value reach the table. *)
Theorem stored_tasks_are_validated (calls : list call) (id : Z) (t : Task.t) :
  stored_task (run_all calls Sqlite.empty) id = Some t →
  is_Some (Task.title t)
  ∧ (Task.status t = Some "ToDo" ∨ Task.status t = Some "InProgress"
     ∨ Task.status t = Some "Done")
  ∧ (Task.priority t = Some "High" ∨ Task.priority t = Some "Medium"
     ∨ Task.priority t = Some "Low")
  ∧ (∃ s, Task.start_date t = Some s ∧ Calendar.plain_real_date s = true)
  ∧ (∃ s, Task.due_date t = Some s ∧ Calendar.plain_real_date s = true).
Proof.
  intros Ht.
  assert (consistent (run_all calls Sqlite.empty)) as Hc
    by apply run_all_consistent, consistent_empty.
  destruct (consistent_stored_task _ id t Hc Ht)
    as (Htitle & Hs & Hp & Hsd & Hdd & _).
  split; [done |].
  split; [by apply _validate_status_Return |].
  split; [by apply _validate_priority_Return |].
  split; by apply _validate_date_Return.
Qed.

Lemma stored_tasks_are_validated_witness :
  is_Some (Some "Write spec")
  ∧ (Some "ToDo" = Some "ToDo" ∨ Some "ToDo" = Some "InProgress"
     ∨ Some "ToDo" = Some "Done")
  ∧ (Some "High" = Some "High" ∨ Some "High" = Some "Medium"
     ∨ Some "High" = Some "Low")
  ∧ (∃ s, Some "2025-01-01" = Some s ∧ Calendar.plain_real_date s = true)
  ∧ (∃ s, Some "2025-01-10" = Some s ∧ Calendar.plain_real_date s = true).
Proof.
  apply (stored_tasks_are_validated
           [Add_person (Some "Ada") (Some "ada@example.com") (Some "Engineer");
            Add_milestone (Some "Beta Release");
            Add_task (Some "Write spec") (Some "") (Some "ToDo") (Some "High")
              (Some "2025-01-01") (Some "2025-01-10") (Some 1) (Some 1)]
           1
           {| Task.id := 1; Task.title := Some "Write spec";
              Task.description := Some ""; Task.status := Some "ToDo";
              Task.priority := Some "High";
              Task.start_date := Some "2025-01-01";
              Task.due_date := Some "2025-01-10";
              Task.person_id := Some 1; Task.milestone_id := Some 1 |}).
  reflexivity.
Defined.

(** X4. After any sequence of calls on the empty database, every stored
    person has a name and an email that passes [_validate_email], two
    stored persons with the same email are the same person, and every
    stored milestone has a name. *)
Theorem stored_persons_are_validated (calls : list call) :
  let db := run_all calls Sqlite.empty in
  (∀ id p, stored_person db id = Some p →
           is_Some (Person.name p)
           ∧ _validate_email (Person.email p) = Return tt)
  ∧ (∀ id1 id2 p1 p2,
       stored_person db id1 = Some p1 → stored_person db id2 = Some p2 →
       Person.email p1 = Person.email p2 → id1 = id2)
  ∧ (∀ id m, stored_milestone db id = Some m → is_Some (Milestone.name m)).
Proof.
  intros db.
  assert (consistent db) as Hc
    by apply run_all_consistent, consistent_empty.
  split; [| split].
  - intros id p (c & Hl & ->)%stored_person_inv.
    pose proof (consistent_Person _ Hc id c Hl) as [Hn He].
    by destruct c as [[n e] r].
  - intros id1 id2 p1 p2 (c1 & Hl1 & ->)%stored_person_inv
      (c2 & Hl2 & ->)%stored_person_inv Heq.
    pose proof (consistent_Person _ Hc id1 c1 Hl1) as [_ He1].
    destruct c1 as [[n1 e1] r1], c2 as [[n2 e2] r2]. simpl in *. subst e2.
    destruct e1 as [e|]; [| discriminate].
    assert ((id1, (n1, Some e, r1)) = (id2, (n2, Some e, r2))) as Hpair.
    { apply (NoDup_omap_inj (λ r : Z * Sqlite.Person_columns,
                               Sqlite.email_of r.2)
               (map_to_list (Sqlite.Person db)) _ _ e);
        [apply (consistent_UNIQUE _ Hc) | by apply elem_of_map_to_list
         | by apply elem_of_map_to_list | done | done]. }
    by injection Hpair.
  - intros id m (c & Hl & ->)%stored_milestone_inv.
    exact (consistent_Milestone _ Hc id c Hl).
Qed.

Lemma stored_persons_are_validated_witness :
  is_Some (Some "Ada") ∧ _validate_email (Some "ada@example.com") = Return tt.
Proof.
  apply (proj1 (stored_persons_are_validated
                  [Add_person (Some "Ada") (Some "ada@example.com") None;
                   Add_person (Some "Eve") (Some "ada@example.com") None;
                   Update_person 1 None (Some "nobody") (Some "Engineer")])
           1
           {| Person.id := 1; Person.name := Some "Ada";
              Person.email := Some "ada@example.com";
              Person.role := None |}).
  reflexivity.
Defined.

(** ** X5: ids are not assigned twice *)

Lemma write_seq_mono (db db' : Sqlite.Database) :
  write db db' →
  Sqlite.Person_seq db ≤ Sqlite.Person_seq db'
  ∧ Sqlite.Milestone_seq db ≤ Sqlite.Milestone_seq db'
  ∧ Sqlite.Task_seq db ≤ Sqlite.Task_seq db'.
Proof.
  intros Hw.
  pose proof (next_rowid_above_seq (Sqlite.Person_seq db) (Sqlite.Person db)).
  pose proof (next_rowid_above_seq (Sqlite.Milestone_seq db)
                (Sqlite.Milestone db)).
  pose proof (next_rowid_above_seq (Sqlite.Task_seq db) (Sqlite.Task db)).
  destruct Hw; simpl; lia.
Qed.

Lemma run_all_seq_mono (calls : list call) (db : Sqlite.Database) :
  Sqlite.Person_seq db ≤ Sqlite.Person_seq (run_all calls db)
  ∧ Sqlite.Milestone_seq db ≤ Sqlite.Milestone_seq (run_all calls db)
  ∧ Sqlite.Task_seq db ≤ Sqlite.Task_seq (run_all calls db).
Proof.
  revert db. induction calls as [|c calls IH]; intros db; [simpl; lia |].
  simpl. specialize (IH (run c db).2).
  destruct (run_guarded c db) as [[x Hx] | [_ [Heq | Hw]]].
  - rewrite Hx in IH |- *. exact IH.
  - rewrite Heq in IH |- *. exact IH.
  - apply write_seq_mono in Hw. lia.
Qed.

Lemma add_person_assigns_next (db db' : Sqlite.Database)
    (name email role : option string) (p : Person.t) :
  add_person name email role db = (Return p, db') →
  Sqlite.Person_seq db < Person.id p ∧ Sqlite.Person_seq db' = Person.id p.
Proof.
  rewrite add_person_effect.
  destruct (_validate_email email); [| discriminate].
  unfold Sqlite.INSERT_INTO_Person.
  destruct name; [| discriminate]. destruct email; [| discriminate].
  destruct (bool_decide _); [discriminate |].
  intros [= <- <-]. simpl. split; [apply next_rowid_above_seq | done].
Qed.

Lemma add_milestone_assigns_next (db db' : Sqlite.Database)
    (name : option string) (m : Milestone.t) :
  add_milestone name db = (Return m, db') →
  Sqlite.Milestone_seq db < Milestone.id m
  ∧ Sqlite.Milestone_seq db' = Milestone.id m.
Proof.
  rewrite add_milestone_effect. unfold Sqlite.INSERT_INTO_Milestone.
  destruct name; [| discriminate].
  intros [= <- <-]. simpl. split; [apply next_rowid_above_seq | done].
Qed.

Lemma add_task_assigns_next (db db' : Sqlite.Database)
    (title description status priority start_date due_date : option string)
    (person_id milestone_id : option Z) (t : Task.t) :
  add_task title description status priority start_date due_date
           person_id milestone_id db = (Return t, db') →
  Sqlite.Task_seq db < Task.id t ∧ Sqlite.Task_seq db' = Task.id t.
Proof.
  destruct (add_task_effect db title description status priority start_date
              due_date person_id milestone_id) as [[x ->] | ->];
    [discriminate |].
  unfold Sqlite.INSERT_INTO_Task.
  destruct (Sqlite.Task_constraints _ db); [discriminate |].
  intros [= <- <-]. simpl. split; [apply next_rowid_above_seq | done].
Qed.

(** X5. An id is assigned once: when an addition returns a record, and
    later, after any calls in between (deletions included), another
    addition of the same kind returns a record, the second id is larger
    than the first. *)
Theorem ids_are_not_reused (calls : list call)
    (db db1 db2 : Sqlite.Database) :
  (∀ name1 email1 role1 name2 email2 role2 (p1 p2 : Person.t),
     add_person name1 email1 role1 db = (Return p1, db1) →
     add_person name2 email2 role2 (run_all calls db1) = (Return p2, db2) →
     Person.id p1 < Person.id p2)
  ∧ (∀ name1 name2 (m1 m2 : Milestone.t),
       add_milestone name1 db = (Return m1, db1) →
       add_milestone name2 (run_all calls db1) = (Return m2, db2) →
       Milestone.id m1 < Milestone.id m2)
  ∧ (∀ title1 description1 status1 priority1 start_date1 due_date1
       person_id1 milestone_id1
       title2 description2 status2 priority2 start_date2 due_date2
       person_id2 milestone_id2 (t1 t2 : Task.t),
       add_task title1 description1 status1 priority1 start_date1 due_date1
                person_id1 milestone_id1 db = (Return t1, db1) →
       add_task title2 description2 status2 priority2 start_date2 due_date2
                person_id2 milestone_id2 (run_all calls db1)
       = (Return t2, db2) →
       Task.id t1 < Task.id t2).
Proof.
  pose proof (run_all_seq_mono calls db1) as (HP & HM & HT).
  split; [| split].
  - intros ? ? ? ? ? ? p1 p2 [_ H1]%add_person_assigns_next
      [H2 _]%add_person_assigns_next. lia.
  - intros ? ? m1 m2 [_ H1]%add_milestone_assigns_next
      [H2 _]%add_milestone_assigns_next. lia.
  - intros ? ? ? ? ? ? ? ? ? ? ? ? ? ? ? ? t1 t2
      [_ H1]%add_task_assigns_next [H2 _]%add_task_assigns_next. lia.
Qed.

Lemma ids_are_not_reused_witness :
  Person.id {| Person.id := 2; Person.name := Some "Grace";
               Person.email := Some "grace@example.com";
               Person.role := None |}
  < Person.id {| Person.id := 3; Person.name := Some "Heidi";
                 Person.email := Some "heidi@example.com";
                 Person.role := None |}.
Proof.
  apply (proj1 (ids_are_not_reused [Delete_person 2] example_db
                  (add_person (Some "Grace") (Some "grace@example.com") None
                     example_db).2
                  (add_person (Some "Heidi") (Some "heidi@example.com") None
                     (run_all [Delete_person 2]
                        (add_person (Some "Grace") (Some "grace@example.com")
                           None example_db).2)).2)
           (Some "Grace") (Some "grace@example.com") None
           (Some "Heidi") (Some "heidi@example.com") None);
    reflexivity.
Defined.

(** ** X6, X7: the milestone reference 0 *)

Lemma ids_assigned_no_0 {A} (table : gmap Z A) (seq : Z) :
  ids_assigned table seq → table !! 0 = None.
Proof.
  intros [_ H]. destruct (table !! 0) eqn:H0; [| done].
  assert (1 ≤ 0 ≤ seq) by (apply H; by rewrite H0). lia.
Qed.

Lemma Task_constraints_milestone_0 (db : Sqlite.Database)
    (title description status priority start_date due_date : option string)
    (person_id : option Z) :
  Sqlite.Milestone db !! 0 = None →
  is_Some (Sqlite.Task_constraints
             (title, description, status, priority, start_date, due_date,
              person_id, Some 0) db).
Proof.
  intros H0. unfold Sqlite.Task_constraints, Sqlite.references.
  destruct title; [| by eexists].
  rewrite (bool_decide_eq_false_2 (is_Some (Sqlite.Milestone db !! 0)));
    [| rewrite H0; by intros [? ?]].
  rewrite andb_false_r. by eexists.
Qed.



(** X7. After any sequence of calls on the empty database, [update_task]
    with the milestone reference 0 always raises and writes nothing,
    whatever the other arguments; on a stored task, with nothing else
    supplied, the exception is the [sqlite3.Error] of the failed foreign
    key. So 0 does not clear the milestone of a task. *)
Theorem update_task_milestone_0_raises (calls : list call) (task_id : Z)
    (title description status priority start_date due_date : option string)
    (person_id : option Z) :
  let db := run_all calls Sqlite.empty in
  (∃ x, update_task task_id title description status priority start_date
                    due_date person_id (Some 0) db = (Raise x, db))
  ∧ (is_Some (stored_task db task_id) →
     update_task task_id None None None None None None None (Some 0) db
     = (Raise (sqlite3_Error "Task update error"
                 FOREIGN_KEY_constraint_failed), db)).
Proof.
  intros db.
  assert (consistent db) as Hc
    by apply run_all_consistent, consistent_empty.
  pose proof (ids_assigned_no_0 _ _ (consistent_Milestone_ids _ Hc)) as H0.
  split.
  - unfold update_task. repo_unfold.
    destruct (Sqlite.Task db !! task_id)
      as [[[[[[[[t0 d0] s0] p0] sd0] dd0] pid0] mid0]|] eqn:Hl;
      [| rewrite (get_task_absent _ _ Hl); eauto].
    rewrite (get_task_present _ _ _ Hl). simpl.
    repeat (step_check; [| eauto]).
    step_fk; [| eauto].
    unfold Sqlite.UPDATE_Task. rewrite Hl.
    destruct (Task_constraints_milestone_0 db (Py.or title t0)
                (Py.or description d0) (Py.or status s0) (Py.or priority p0)
                (Py.or start_date sd0) (Py.or due_date dd0)
                (Py.or person_id pid0) H0) as [x ->].
    eauto.
  - intros [t Ht].
    destruct (consistent_stored_task db task_id t Hc Ht)
      as ([ti Hti] & Hs & Hp & Hsd & Hdd & (p & Hpid & Hperson) & _).
    destruct (stored_task_inv _ _ _ Ht) as (c & Hl & ->).
    destruct c as [[[[[[[t0 d0] s0] p0] sd0] dd0] pid0] mid0].
    simpl in *. subst t0 pid0.
    unfold update_task, get_task. repo_unfold.
    rewrite ?(bind_stored Sqlite.Task_table) by by eexists.
    rewrite (SELECT_WHERE_id_Some _ _ _ Hl).
    cbn [load_entity create_entity TaskFactory_create_entity
         Task.title Task.description Task.status Task.priority
         Task.start_date Task.due_date Task.person_id Task.milestone_id].
    change (Py.or None ?x) with x.
    rewrite Hs, Hp, Hsd, Hdd.
    step_fk;
      [| rewrite (SELECT_1_WHERE_id_present Sqlite.Person_table) in *; done].
    change (Py.truthy (Some 0)) with false. cbv iota.
    unfold Sqlite.UPDATE_Task. rewrite Hl.
    unfold Sqlite.Task_constraints, Sqlite.references.
    rewrite (bool_decide_eq_true_2 _ Hperson).
    rewrite (bool_decide_eq_false_2 (is_Some (Sqlite.Milestone db !! 0)));
      [done | rewrite H0; by intros [? ?]].
Qed.

Lemma update_task_milestone_0_raises_witness :
  update_task 1 None None None None None None None (Some 0)
    (run_all
       [Add_person (Some "Ada") (Some "ada@example.com") None;
        Add_milestone (Some "Beta");
        Add_task (Some "Spec") None (Some "ToDo") (Some "High")
          (Some "2025-01-01") (Some "2025-01-10") (Some 1) (Some 1)]
       Sqlite.empty)
  = (Raise (sqlite3_Error "Task update error" FOREIGN_KEY_constraint_failed),
     run_all
       [Add_person (Some "Ada") (Some "ada@example.com") None;
        Add_milestone (Some "Beta");
        Add_task (Some "Spec") None (Some "ToDo") (Some "High")
          (Some "2025-01-01") (Some "2025-01-10") (Some 1) (Some 1)]
       Sqlite.empty).
Proof.
  apply (proj2 (update_task_milestone_0_raises
                  [Add_person (Some "Ada") (Some "ada@example.com") None;
                   Add_milestone (Some "Beta");
                   Add_task (Some "Spec") None (Some "ToDo") (Some "High")
                     (Some "2025-01-01") (Some "2025-01-10") (Some 1) (Some 1)]
                  1 None None None None None None None)).
  by eexists.
Defined.

(** ** X8: updating or deleting what is not stored *)

Lemma stored_person_None (db : Sqlite.Database) (id : Z) :
  stored_person db id = None ↔ Sqlite.Person db !! id = None.
Proof.
  unfold stored_person, Sqlite.SELECT_WHERE_id. simpl.
  by destruct (Sqlite.Person db !! id).
Qed.

Lemma stored_task_None (db : Sqlite.Database) (id : Z) :
  stored_task db id = None ↔ Sqlite.Task db !! id = None.
Proof.
  unfold stored_task, Sqlite.SELECT_WHERE_id. simpl.
  by destruct (Sqlite.Task db !! id).
Qed.

Lemma stored_milestone_None (db : Sqlite.Database) (id : Z) :
  stored_milestone db id = None ↔ Sqlite.Milestone db !! id = None.
Proof.
  unfold stored_milestone, Sqlite.SELECT_WHERE_id. simpl.
  by destruct (Sqlite.Milestone db !! id).
Qed.

Lemma delete_absent (t : Sqlite.table) (id : Z) (db : Sqlite.Database)
    (statement : Sqlite.Database → Sqlite.Database) :
  Sqlite.SELECT_1_WHERE_id t (Some id) db = false →
  (_validate_foreign_key t (Some id);; execute_ statement) db
  = (Raise (if Sqlite.int64 id
            then LookupError (No_row_found_with (Sqlite.table_name t) "id"
                                (Some id))
            else OverflowError), db).
Proof.
  intros H. unfold mbind at 1, Repo_bind.
  destruct (_validate_foreign_key_cases t (Some id) db) as [[H' _] | [_ ->]];
    [congruence |].
  unfold Sqlite.binds. by rewrite H, orb_false_r.
Qed.

Lemma update_milestone_absent (db : Sqlite.Database) (id : Z)
    (name : option string) :
  Sqlite.Milestone db !! id = None →
  update_milestone id name db
  = (Raise (not_found "Milestone" id), db).
Proof.
  intros H. unfold update_milestone. repo_unfold.
  by rewrite (get_milestone_absent _ _ H).
Qed.

(** X8. For an id under which nothing is stored, the update and the delete
    of each kind raise and leave the database as it was. For an id in the
    64-bit range of the integers of SQLite the exception is [LookupError]:
    the update has the message of the [get] it starts with, the delete
    the message of [_validate_foreign_key]. For an id outside that range
    it is the [OverflowError] of the binding. *)
Theorem update_and_delete_of_absent_id_raise (db : Sqlite.Database) (id : Z) :
  (stored_person db id = None →
   (∀ name email role,
      update_person id name email role db
      = (Raise (if Sqlite.int64 id
                then LookupError (With_id_not_found "Person" (Some id))
                else OverflowError), db))
   ∧ delete_person id db
     = (Raise (if Sqlite.int64 id
               then LookupError (No_row_found_with "Person" "id" (Some id))
               else OverflowError), db))
  ∧ (stored_task db id = None →
     (∀ title description status priority start_date due_date person_id
        milestone_id,
        update_task id title description status priority start_date due_date
                    person_id milestone_id db
        = (Raise (if Sqlite.int64 id
                  then LookupError (With_id_not_found "Task" (Some id))
                  else OverflowError), db))
     ∧ delete_task id db
       = (Raise (if Sqlite.int64 id
                 then LookupError (No_row_found_with "Task" "id" (Some id))
                 else OverflowError), db))
  ∧ (stored_milestone db id = None →
     (∀ name,
        update_milestone id name db
        = (Raise (if Sqlite.int64 id
                  then LookupError (With_id_not_found "Milestone" (Some id))
                  else OverflowError), db))
     ∧ delete_milestone id db
       = (Raise (if Sqlite.int64 id
                 then LookupError
                        (No_row_found_with "Milestone" "id" (Some id))
                 else OverflowError), db)).
Proof.
  split; [| split].
  - intros H%stored_person_None. split.
    + intros. by apply update_person_absent.
    + apply (delete_absent Sqlite.Person_table).
      by apply (SELECT_1_WHERE_id_absent Sqlite.Person_table).
  - intros H%stored_task_None. split.
    + intros. by apply update_task_absent.
    + apply (delete_absent Sqlite.Task_table).
      by apply (SELECT_1_WHERE_id_absent Sqlite.Task_table).
  - intros H%stored_milestone_None. split.
    + intros. by apply update_milestone_absent.
    + apply (delete_absent Sqlite.Milestone_table).
      by apply (SELECT_1_WHERE_id_absent Sqlite.Milestone_table).
Qed.

Lemma update_and_delete_of_absent_id_raise_witness :
  update_person 9 (Some "Ada") None None example_db
  = (Raise (LookupError (With_id_not_found "Person" (Some 9))), example_db)
  ∧ delete_task 9 example_db
    = (Raise (LookupError (No_row_found_with "Task" "id" (Some 9))),
       example_db)
  ∧ delete_milestone (2 ^ 63) example_db = (Raise OverflowError, example_db).
Proof.
  destruct (update_and_delete_of_absent_id_raise example_db 9)
    as (HP & HT & _).
  destruct (update_and_delete_of_absent_id_raise example_db (2 ^ 63))
    as (_ & _ & HM).
  split; [apply HP; reflexivity |].
  split; [apply HT; reflexivity | apply HM; reflexivity].
Defined.

(** ** X9: deleting a task *)

(** X9. [delete_task] of a stored task returns, the task is gone, every
    other task is stored as before, and the persons and the milestones
    are untouched. *)
Theorem delete_task_removes_only_the_task (db : Sqlite.Database) (id : Z) :
  is_Some (stored_task db id) →
  let r := delete_task id db in
  r.1 = Return tt
  ∧ stored_task r.2 id = None
  ∧ (∀ other, other ≠ id → stored_task r.2 other = stored_task db other)
  ∧ Sqlite.Person r.2 = Sqlite.Person db
  ∧ Sqlite.Milestone r.2 = Sqlite.Milestone db.
Proof.
  intros [t (c & Hl & _)%stored_task_inv] r. subst r.
  unfold delete_task. repo_unfold.
  step_fk;
    [| rewrite (SELECT_1_WHERE_id_present Sqlite.Task_table) in *;
       [done | by eexists]].
  simpl. split; [done |]. split; [| split; [| done]].
  - apply stored_task_None. simpl. apply lookup_delete_eq.
  - intros other Hne. rewrite !stored_task_lookup. simpl.
    by rewrite lookup_delete_ne.
Qed.

Lemma delete_task_removes_only_the_task_witness :
  (delete_task 1 example_db).1 = Return tt
  ∧ stored_task (delete_task 1 example_db).2 1 = None
  ∧ Sqlite.Person (delete_task 1 example_db).2 = Sqlite.Person example_db.
Proof.
  destruct (delete_task_removes_only_the_task example_db 1)
    as (H1 & H2 & _ & H3 & _); [by eexists | done].
Defined.

(** ** X10: update, then get *)

Lemma update_milestone_effect (db : Sqlite.Database) (id : Z)
    (name n : option string) :
  Sqlite.Milestone db !! id = Some (n : Sqlite.Milestone_columns) →
  update_milestone id name db
  = (Return {| Milestone.id := id; Milestone.name := Py.or name n |},
     Sqlite.with_Milestone (<[id := Py.or name n]> (Sqlite.Milestone db))
                           (Sqlite.Milestone_seq db) db)
  ∨ ∃ x, update_milestone id name db = (Raise x, db).
Proof.
  intros Hc. unfold update_milestone, get_milestone. repo_unfold.
  rewrite ?(bind_stored Sqlite.Milestone_table) by by eexists.
  rewrite (SELECT_WHERE_id_Some _ _ _ Hc).
  cbn [load_entity create_entity MilestoneFactory_create_entity
       Milestone.name].
  unfold Sqlite.UPDATE_Milestone. rewrite Hc.
  destruct (Py.or name n); [left | right]; eauto.
Qed.

(** X10. Whenever an update returns a record, [get] with the same id on
    the database after the update returns that record, for each of the
    three kinds. *)
Theorem update_then_get (db db' : Sqlite.Database) (id : Z) :
  (∀ name email role (p : Person.t),
     update_person id name email role db = (Return p, db') →
     get_person id db' = (Return p, db'))
  ∧ (∀ title description status priority start_date due_date person_id
       milestone_id (t : Task.t),
       update_task id title description status priority start_date due_date
                   person_id milestone_id db = (Return t, db') →
       get_task id db' = (Return t, db'))
  ∧ (∀ name (m : Milestone.t),
       update_milestone id name db = (Return m, db') →
       get_milestone id db' = (Return m, db')).
Proof.
  split; [| split].
  - intros name email role p.
    destruct (Sqlite.Person db !! id) as [[[n e] r]|] eqn:Hc;
      [| by rewrite update_person_absent].
    destruct (update_person_effect db id name email role n e r Hc)
      as [-> | [x ->]]; [| discriminate].
    intros [= <- <-].
    apply (get_person_present _ _
             ((Py.or name n, Py.or email e, Py.or role r)
              : Sqlite.Person_columns)).
    simpl. apply lookup_insert_eq.
  - intros title description status priority start_date due_date person_id
      milestone_id t.
    destruct (Sqlite.Task db !! id)
      as [[[[[[[[t0 d0] s0] p0] sd0] dd0] pid0] mid0]|] eqn:Hc;
      [| by rewrite update_task_absent].
    destruct (update_task_effect db id title description status priority
                start_date due_date person_id milestone_id
                t0 d0 s0 p0 sd0 dd0 pid0 mid0 Hc)
      as [-> | [x ->]]; [| discriminate].
    intros [= <- <-].
    apply (get_task_present _ _
             ((Py.or title t0, Py.or description d0, Py.or status s0,
               Py.or priority p0, Py.or start_date sd0, Py.or due_date dd0,
               Py.or person_id pid0,
               match milestone_id with Some _ => milestone_id | None => mid0 end)
              : Sqlite.Task_columns)).
    simpl. apply lookup_insert_eq.
  - intros name m.
    destruct (Sqlite.Milestone db !! id) as [n|] eqn:Hc;
      [| by rewrite update_milestone_absent].
    destruct (update_milestone_effect db id name n Hc)
      as [-> | [x ->]]; [| discriminate].
    intros [= <- <-].
    apply (get_milestone_present _ _
             (Py.or name n : Sqlite.Milestone_columns)).
    simpl. apply lookup_insert_eq.
Qed.

Lemma update_then_get_witness :
  get_person 1
    (update_person 1 (Some "Ada Lovelace") None (Some "Analyst")
       example_db).2
  = (Return {| Person.id := 1; Person.name := Some "Ada Lovelace";
               Person.email := Some "ada@example.com";
               Person.role := Some "Analyst" |},
     (update_person 1 (Some "Ada Lovelace") None (Some "Analyst")
        example_db).2).
Proof.
  apply (proj1 (update_then_get example_db
                  (update_person 1 (Some "Ada Lovelace") None (Some "Analyst")
                     example_db).2 1)
           (Some "Ada Lovelace") None (Some "Analyst")).
  reflexivity.
Defined.

(** ** X11, X12: updates of persons, and updates that supply nothing *)



Lemma own_email_not_in_rest (table : gmap Z Sqlite.Person_columns) (id : Z)
    (c : Sqlite.Person_columns) (e : string) :
  NoDup (Sqlite.emails table) → table !! id = Some c →
  Sqlite.email_of c = Some e →
  e ∉ Sqlite.emails (delete id table).
Proof.
  intros Hu Hc He. rewrite (emails_delete _ _ _ Hc), He in Hu.
  by apply NoDup_cons in Hu as [? _].
Qed.

Lemma with_Person_same (db : Sqlite.Database) :
  Sqlite.with_Person (Sqlite.Person db) (Sqlite.Person_seq db) db = db.
Proof. by destruct db. Qed.

Lemma with_Milestone_same (db : Sqlite.Database) :
  Sqlite.with_Milestone (Sqlite.Milestone db) (Sqlite.Milestone_seq db) db
  = db.
Proof. by destruct db. Qed.

Lemma with_Task_same (db : Sqlite.Database) :
  Sqlite.with_Task (Sqlite.Task db) (Sqlite.Task_seq db) db = db.
Proof. by destruct db. Qed.



(** X12. After any sequence of calls on the empty database, an update
    that supplies no field ([None] for each) returns the stored record and
    leaves the database as it was, for each of the three kinds: what is
    stored always passes the checks an update repeats. *)
Theorem update_with_nothing_supplied (calls : list call) (id : Z) :
  let db := run_all calls Sqlite.empty in
  (∀ p, stored_person db id = Some p →
        update_person id None None None db = (Return p, db))
  ∧ (∀ t, stored_task db id = Some t →
          update_task id None None None None None None None None db
          = (Return t, db))
  ∧ (∀ m, stored_milestone db id = Some m →
          update_milestone id None db = (Return m, db)).
Proof.
  intros db.
  assert (consistent db) as Hcons
    by apply run_all_consistent, consistent_empty.
  split; [| split].
  - intros p (c & Hc & ->)%stored_person_inv.
    pose proof (consistent_Person _ Hcons id c Hc) as [[n Hn] Hv].
    destruct c as [[n0 e0] r0]. unfold Sqlite.email_of in Hv.
    simpl in *. subst n0.
    destruct e0 as [e|]; [| discriminate].
    unfold update_person, get_person. repo_unfold.
    rewrite ?(bind_stored Sqlite.Person_table) by by eexists.
    rewrite (SELECT_WHERE_id_Some _ _ _ Hc).
    cbn [load_entity create_entity PersonFactory_create_entity
         Person.name Person.email Person.role].
    change (Py.or None ?x) with x. rewrite Hv.
    unfold Sqlite.UPDATE_Person. cbv beta iota. rewrite Hc.
    rewrite bool_decide_eq_false_2
      by (eapply own_email_not_in_rest;
          [apply (consistent_UNIQUE _ Hcons) | exact Hc | done]).
    by rewrite (insert_id _ _ _ Hc), with_Person_same.
  - intros t Ht.
    destruct (consistent_stored_task db id t Hcons Ht)
      as ([ti Hti] & Hs & Hp & Hsd & Hdd & (q & Hpid & Hperson) & Hm).
    destruct (stored_task_inv _ _ _ Ht) as (c & Hc & ->).
    destruct c as [[[[[[[t0 d0] s0] p0] sd0] dd0] pid0] mid0].
    simpl in *. subst t0 pid0.
    unfold update_task, get_task. repo_unfold.
    rewrite ?(bind_stored Sqlite.Task_table) by by eexists.
    rewrite (SELECT_WHERE_id_Some _ _ _ Hc).
    cbn [load_entity create_entity TaskFactory_create_entity
         Task.title Task.description Task.status Task.priority
         Task.start_date Task.due_date Task.person_id Task.milestone_id].
    change (Py.or None ?x) with x.
    rewrite Hs, Hp, Hsd, Hdd.
    step_fk;
      [| rewrite (SELECT_1_WHERE_id_present Sqlite.Person_table) in *; done].
    assert (Sqlite.Task_constraints
              (Some ti, d0, s0, p0, sd0, dd0, Some q, mid0) db = None)
      as Hcon.
    { unfold Sqlite.Task_constraints, Sqlite.references.
      rewrite (bool_decide_eq_true_2 _ Hperson).
      destruct mid0 as [m|]; [| done].
      by rewrite (bool_decide_eq_true_2 _ (Hm m eq_refl)). }
    destruct (Py.truthy mid0) eqn:Htr.
    + destruct mid0 as [m|]; [| discriminate].
      step_fk;
        [| rewrite (SELECT_1_WHERE_id_present Sqlite.Milestone_table) in *;
           [done | by apply Hm]].
      unfold Sqlite.UPDATE_Task. rewrite Hc, Hcon.
      by rewrite (insert_id _ _ _ Hc), with_Task_same.
    + unfold Sqlite.UPDATE_Task. rewrite Hc, Hcon.
      by rewrite (insert_id _ _ _ Hc), with_Task_same.
  - intros m (c & Hc & ->)%stored_milestone_inv.
    pose proof (consistent_Milestone _ Hcons id c Hc) as [n Hn].
    subst c.
    unfold update_milestone, get_milestone. repo_unfold.
    rewrite ?(bind_stored Sqlite.Milestone_table) by by eexists.
    rewrite (SELECT_WHERE_id_Some _ _ _ Hc).
    cbn [load_entity create_entity MilestoneFactory_create_entity
         Milestone.name].
    change (Py.or None ?x) with x.
    unfold Sqlite.UPDATE_Milestone. rewrite Hc.
    by rewrite (insert_id _ _ _ Hc), with_Milestone_same.
Qed.

Lemma update_with_nothing_supplied_witness :
  update_task 1 None None None None None None None None
    (run_all
       [Add_person (Some "Ada") (Some "ada@example.com") None;
        Add_task (Some "Spec") None (Some "ToDo") (Some "High")
          (Some "2025-01-01") (Some "2025-01-10") (Some 1) None]
       Sqlite.empty)
  = (Return {| Task.id := 1; Task.title := Some "Spec";
               Task.description := None; Task.status := Some "ToDo";
               Task.priority := Some "High";
               Task.start_date := Some "2025-01-01";
               Task.due_date := Some "2025-01-10";
               Task.person_id := Some 1; Task.milestone_id := None |},
     run_all
       [Add_person (Some "Ada") (Some "ada@example.com") None;
        Add_task (Some "Spec") None (Some "ToDo") (Some "High")
          (Some "2025-01-01") (Some "2025-01-10") (Some 1) None]
       Sqlite.empty).
Proof.
  apply (proj1 (proj2 (update_with_nothing_supplied
                         [Add_person (Some "Ada") (Some "ada@example.com")
                            None;
                          Add_task (Some "Spec") None (Some "ToDo")
                            (Some "High") (Some "2025-01-01")
                            (Some "2025-01-10") (Some 1) None] 1))).
  reflexivity.
Defined.

(** ** [ORDER BY]: the sort keeps the rows and puts them in order *)

Lemma value_leb_total (a b : Sqlite.value) :
  Sqlite.value_leb a b = true ∨ Sqlite.value_leb b a = true.
Proof.
  destruct a as [|m|s], b as [|n|t]; simpl; auto.
  - destruct (Z.leb_spec m n); [auto |]. right. apply Z.leb_le. lia.
  - apply String.leb_total.
Qed.

Lemma insert_by_Permutation {A} (key : A → Sqlite.value) (x : A)
    (l : list A) :
  Sqlite.insert_by key x l ≡ₚ x :: l.
Proof.
  induction l as [|y l IH]; simpl; [done |].
  destruct (Sqlite.value_leb (key x) (key y)); [done |].
  rewrite IH. apply Permutation_swap.
Qed.

Lemma sort_by_Permutation {A} (key : A → Sqlite.value) (l : list A) :
  Sqlite.sort_by key l ≡ₚ l.
Proof.
  induction l as [|x l IH]; simpl; [done |].
  unfold Sqlite.sort_by in *. simpl.
  by rewrite insert_by_Permutation, IH.
Qed.

Lemma insert_by_Sorted {A} (key : A → Sqlite.value) (x : A) (l : list A) :
  Sorted (λ a b, Sqlite.value_leb (key a) (key b) = true) l →
  Sorted (λ a b, Sqlite.value_leb (key a) (key b) = true)
         (Sqlite.insert_by key x l).
Proof.
  induction l as [|y l IH]; simpl; intros Hs.
  - by repeat constructor.
  - destruct (Sqlite.value_leb (key x) (key y)) eqn:Hxy.
    + constructor; [done | by constructor].
    + apply Sorted_inv in Hs as [Hs Hhd]. constructor; [by apply IH |].
      assert (Sqlite.value_leb (key y) (key x) = true) as Hyx
        by (destruct (value_leb_total (key x) (key y)); congruence).
      destruct l as [|z l]; simpl; [by constructor |].
      destruct (Sqlite.value_leb (key x) (key z)); constructor; [done |].
      by inversion Hhd.
Qed.

Lemma sort_by_Sorted {A} (key : A → Sqlite.value) (l : list A) :
  Sorted (λ a b, Sqlite.value_leb (key a) (key b) = true)
         (Sqlite.sort_by key l).
Proof.
  induction l as [|x l IH]; [constructor |].
  unfold Sqlite.sort_by in *. simpl. by apply insert_by_Sorted.
Qed.

Lemma rows_Permutation {A} (table : gmap Z A) :
  Sqlite.rows table ≡ₚ map_to_list table.
Proof. apply sort_by_Permutation. Qed.

Lemma List_filter_stdpp {A} (f : A → bool) (l : list A) :
  List.filter f l = filter (λ x, f x = true) l.
Proof.
  induction l as [|x l IH]; [done |]. simpl. rewrite filter_cons, IH.
  destruct (f x) eqn:Hf; by destruct (decide _).
Qed.

(** The rows a [SELECT] on [Task] returns: each stored row that satisfies
    the conditions, once, in the order of the column. *)
Lemma SELECT_FROM_Task_rows (where_ : list Sqlite.condition)
    (order_by : string) (db : Sqlite.Database) :
  let rows := Sqlite.SELECT_FROM_Task where_ order_by db in
  NoDup rows
  ∧ (∀ r, r ∈ rows ↔ Sqlite.Task db !! r.1 = Some r.2
                     ∧ forallb (Sqlite.holds r) where_ = true)
  ∧ Sorted (λ a b, Sqlite.value_leb (Sqlite.Task_column order_by a)
                                    (Sqlite.Task_column order_by b) = true)
           rows.
Proof.
  intros rows. subst rows. unfold Sqlite.SELECT_FROM_Task.
  split; [| split; [| apply sort_by_Sorted]].
  - rewrite sort_by_Permutation, List_filter_stdpp, rows_Permutation.
    apply NoDup_filter, NoDup_map_to_list.
  - intros r.
    rewrite sort_by_Permutation, List_filter_stdpp, rows_Permutation.
    rewrite list_elem_of_filter, elem_of_map_to_list'. tauto.
Qed.

Lemma SELECT_FROM_Person_rows (order_by : string) (db : Sqlite.Database) :
  let rows := Sqlite.SELECT_FROM_Person order_by db in
  rows ≡ₚ map_to_list (Sqlite.Person db)
  ∧ Sorted (λ a b, Sqlite.value_leb (Sqlite.Person_column order_by a)
                                    (Sqlite.Person_column order_by b) = true)
           rows.
Proof.
  split; [| apply sort_by_Sorted].
  unfold Sqlite.SELECT_FROM_Person.
  by rewrite sort_by_Permutation, rows_Permutation.
Qed.

Lemma SELECT_FROM_Milestone_rows (order_by : string) (db : Sqlite.Database) :
  let rows := Sqlite.SELECT_FROM_Milestone order_by db in
  rows ≡ₚ map_to_list (Sqlite.Milestone db)
  ∧ Sorted (λ a b, Sqlite.value_leb (Sqlite.Milestone_column order_by a)
                                    (Sqlite.Milestone_column order_by b)
                   = true)
           rows.
Proof.
  split; [| apply sort_by_Sorted].
  unfold Sqlite.SELECT_FROM_Milestone.
  by rewrite sort_by_Permutation, rows_Permutation.
Qed.

(** ** X13: the listings *)

Lemma fmap_rows_elem_of {A E} (load : Z * A → E) (table : gmap Z A)
    (rows : list (Z * A)) (e : E) :
  rows ≡ₚ map_to_list table →
  e ∈ load <$> rows ↔ ∃ i c, table !! i = Some c ∧ e = load (i, c).
Proof.
  intros Hp. rewrite list_elem_of_fmap. split.
  - intros ([i c] & -> & Hin). rewrite Hp in Hin.
    apply elem_of_map_to_list in Hin. eauto.
  - intros (i & c & Hl & ->). exists (i, c). split; [done |].
    rewrite Hp. by apply elem_of_map_to_list.
Qed.

Lemma stored_person_iff (db : Sqlite.Database) (p : Person.t) :
  stored_person db (Person.id p) = Some p
  ↔ ∃ i c, Sqlite.Person db !! i = Some c
           ∧ p = load_entity new_PersonFactory (i, c).
Proof.
  split.
  - intros (c & Hc & Hp)%stored_person_inv. eauto.
  - intros (i & [[n e] r] & Hc & ->). simpl. by apply stored_person_Some.
Qed.

Lemma stored_task_iff (db : Sqlite.Database) (t : Task.t) :
  stored_task db (Task.id t) = Some t
  ↔ ∃ i c, Sqlite.Task db !! i = Some c
           ∧ t = load_entity new_TaskFactory (i, c).
Proof.
  split.
  - intros (c & Hc & Hp)%stored_task_inv. eauto.
  - intros (i & [[[[[[[? ?] ?] ?] ?] ?] ?] ?] & Hc & ->). simpl.
    by apply stored_task_Some.
Qed.

Lemma stored_milestone_iff (db : Sqlite.Database) (m : Milestone.t) :
  stored_milestone db (Milestone.id m) = Some m
  ↔ ∃ i c, Sqlite.Milestone db !! i = Some c
           ∧ m = load_entity new_MilestoneFactory (i, c).
Proof.
  split.
  - intros (c & Hc & Hp)%stored_milestone_inv. eauto.
  - intros (i & c & Hc & ->). simpl. unfold stored_milestone.
    by rewrite (SELECT_WHERE_id_Some _ _ _ Hc).
Qed.

Lemma SELECT_FROM_Task_all (order_by : string) (db : Sqlite.Database) :
  Sqlite.SELECT_FROM_Task [] order_by db ≡ₚ map_to_list (Sqlite.Task db).
Proof.
  unfold Sqlite.SELECT_FROM_Task.
  rewrite sort_by_Permutation, List_filter_stdpp, rows_Permutation.
  simpl. induction (map_to_list (Sqlite.Task db)) as [|x l IH]; [done |].
  rewrite filter_cons. destruct (decide _); [by rewrite IH | done].
Qed.

(** X13. Each listing raises [ValueError] for a sort field outside its
    own list of fields and otherwise returns, leaving the database as it
    was, the records of all the stored rows and only those, each row once,
    in the order of the sort field. The fields are id, name, email and
    role for persons; title, priority, person_id and status for tasks; and
    name for milestones. *)
Theorem get_all_list_every_row_in_order (db : Sqlite.Database)
    (sort_by : string) :
  (if bool_decide (sort_by ∈ ["id"; "name"; "email"; "role"])
   then ∃ rows,
       get_all_persons sort_by db
       = (Return (load_entity new_PersonFactory <$> rows), db)
       ∧ rows ≡ₚ map_to_list (Sqlite.Person db)
       ∧ (∀ p, p ∈ load_entity new_PersonFactory <$> rows
               ↔ stored_person db (Person.id p) = Some p)
       ∧ Sorted (λ a b, Sqlite.value_leb (Sqlite.Person_column sort_by a)
                                         (Sqlite.Person_column sort_by b)
                        = true) rows
   else get_all_persons sort_by db
        = (Raise (ValueError (Invalid_sort_field sort_by)), db))
  ∧ (if bool_decide (sort_by ∈ ["title"; "priority"; "person_id"; "status"])
     then ∃ rows,
         get_all_tasks sort_by db
         = (Return (load_entity new_TaskFactory <$> rows), db)
         ∧ rows ≡ₚ map_to_list (Sqlite.Task db)
         ∧ (∀ t, t ∈ load_entity new_TaskFactory <$> rows
                 ↔ stored_task db (Task.id t) = Some t)
         ∧ Sorted (λ a b, Sqlite.value_leb (Sqlite.Task_column sort_by a)
                                           (Sqlite.Task_column sort_by b)
                          = true) rows
     else get_all_tasks sort_by db
          = (Raise (ValueError (Invalid_sort_field sort_by)), db))
  ∧ (if bool_decide (sort_by ∈ ["name"])
     then ∃ rows,
         get_all_milestones sort_by db
         = (Return (load_entity new_MilestoneFactory <$> rows), db)
         ∧ rows ≡ₚ map_to_list (Sqlite.Milestone db)
         ∧ (∀ m, m ∈ load_entity new_MilestoneFactory <$> rows
                 ↔ stored_milestone db (Milestone.id m) = Some m)
         ∧ Sorted (λ a b, Sqlite.value_leb (Sqlite.Milestone_column sort_by a)
                                           (Sqlite.Milestone_column sort_by b)
                          = true) rows
     else get_all_milestones sort_by db
          = (Raise (ValueError (Invalid_sort_field sort_by)), db)).
Proof.
  split; [| split].
  - unfold get_all_persons. repo_unfold.
    rewrite (bool_decide_ext (sort_by ∈ ({[ "id"; "name"; "email"; "role" ]}
                                          : gset string))
               (sort_by ∈ ["id"; "name"; "email"; "role"]))
      by (rewrite !elem_of_union, !elem_of_singleton, !elem_of_cons,
            elem_of_nil; tauto).
    destruct (bool_decide _); simpl; [| done].
    destruct (SELECT_FROM_Person_rows sort_by db) as [Hp Hs].
    eexists. split; [reflexivity |]. split; [done |]. split; [| done].
    intros p. rewrite stored_person_iff. by apply fmap_rows_elem_of.
  - unfold get_all_tasks. repo_unfold.
    rewrite (bool_decide_ext
               (sort_by ∈ ({[ "title"; "priority"; "person_id"; "status" ]}
                           : gset string))
               (sort_by ∈ ["title"; "priority"; "person_id"; "status"]))
      by (rewrite !elem_of_union, !elem_of_singleton, !elem_of_cons,
            elem_of_nil; tauto).
    destruct (bool_decide _); simpl; [| done].
    destruct (SELECT_FROM_Task_rows [] sort_by db) as (_ & _ & Hs).
    pose proof (SELECT_FROM_Task_all sort_by db) as Hp.
    eexists. split; [reflexivity |]. split; [done |]. split; [| done].
    intros t. rewrite stored_task_iff. by apply fmap_rows_elem_of.
  - unfold get_all_milestones. repo_unfold.
    rewrite (bool_decide_ext (sort_by ∈ ({[ "name" ]} : gset string))
               (sort_by ∈ ["name"]))
      by (rewrite !elem_of_singleton, !elem_of_cons, elem_of_nil; tauto).
    destruct (bool_decide _); simpl; [| done].
    destruct (SELECT_FROM_Milestone_rows sort_by db) as [Hp Hs].
    eexists. split; [reflexivity |]. split; [done |]. split; [| done].
    intros m. rewrite stored_milestone_iff. by apply fmap_rows_elem_of.
Qed.

(** ** X14, X15: the tasks of a milestone *)

Lemma sql_eq_Some {A} `{EqDecision A} (column : option A) (x : A) :
  Sqlite.sql_eq column (Some x) = true ↔ column = Some x.
Proof.
  unfold Sqlite.sql_eq. destruct column as [y|]; [| done].
  rewrite bool_decide_eq_true. split; congruence.
Qed.

Lemma truthy_Some (v : option string) :
  Py.truthy v = true → ∃ s, v = Some s.
Proof. destruct v; [eauto | discriminate]. Qed.

Lemma load_Task_inj (r r' : Sqlite.Task_row) :
  load_entity new_TaskFactory r = load_entity new_TaskFactory r' → r = r'.
Proof.
  destruct r as [i [[[[[[[? ?] ?] ?] ?] ?] ?] ?]],
           r' as [i' [[[[[[[? ?] ?] ?] ?] ?] ?] ?]].
  simpl. intros [= -> -> -> -> -> -> -> -> ->]. done.
Qed.

(** The conditions [get_tasks_by_milestone] puts in its [WHERE] clause. *)
Lemma get_tasks_by_milestone_WHERE (milestone_id : Z)
    (status priority : option string) (r : Sqlite.Task_row) :
  let params := [Sqlite.milestone_id_eq (Some milestone_id)] in
  let params :=
    if Py.truthy status then params ++ [Sqlite.status_eq status]
    else params in
  let params :=
    if Py.truthy priority then params ++ [Sqlite.priority_eq priority]
    else params in
  forallb (Sqlite.holds r) params = true
  ↔ Sqlite.milestone_id_of r.2 = Some milestone_id
    ∧ (Py.truthy status = true → Sqlite.status_of r.2 = status)
    ∧ (Py.truthy priority = true → Sqlite.priority_of r.2 = priority).
Proof.
  simpl.
  destruct (Py.truthy status) eqn:Hs, (Py.truthy priority) eqn:Hp;
    try (apply truthy_Some in Hs as [s ->]);
    try (apply truthy_Some in Hp as [p ->]);
    rewrite ?forallb_app; simpl;
    rewrite ?andb_true_iff, ?sql_eq_Some; intuition congruence.
Qed.

Lemma get_tasks_by_milestone_checked (milestone_id : Z)
    (status priority : option string) (sort_by : string)
    (db : Sqlite.Database) :
  sort_by ∈ ["id"; "title"; "status"; "priority"; "start_date"; "due_date"] →
  (Py.truthy status = true → Py.contains VALID_STATUSES status = true) →
  (Py.truthy priority = true → Py.contains VALID_PRIORITIES priority = true) →
  is_Some (Sqlite.Milestone db !! milestone_id) →
  get_tasks_by_milestone milestone_id status priority sort_by db
  = (Return (load_entity new_TaskFactory
             <$> Sqlite.SELECT_FROM_Task
                   (let params := [Sqlite.milestone_id_eq (Some milestone_id)] in
                    let params :=
                      if Py.truthy status
                      then params ++ [Sqlite.status_eq status]
                      else params in
                    if Py.truthy priority
                    then params ++ [Sqlite.priority_eq priority]
                    else params) sort_by db), db).
Proof.
  intros Hsort Hs Hp Hm. unfold get_tasks_by_milestone. repo_unfold.
  rewrite bool_decide_eq_true_2
    by (revert Hsort;
        rewrite !elem_of_union, !elem_of_singleton, !elem_of_cons,
          elem_of_nil; tauto).
  simpl.
  destruct (Py.truthy status) eqn:Hts;
    [rewrite Hs by done |]; simpl;
    (destruct (Py.truthy priority) eqn:Htp;
     [rewrite Hp by done |]; simpl;
     (step_fk;
      [reflexivity
      | rewrite SELECT_1_WHERE_id_present in *; [done | exact Hm]])).
Qed.

(** X14. For a sort field of its list, filters that are empty or valid,
    and a stored milestone, [get_tasks_by_milestone] returns, leaving the
    database as it was, the stored tasks of that milestone that have the
    status and the priority of the non-empty filters, and only those,
    each once, in the order of the sort field. *)
Theorem get_tasks_by_milestone_lists_the_matching_tasks
    (db : Sqlite.Database) (milestone_id : Z)
    (status priority : option string) (sort_by : string) :
  sort_by ∈ ["id"; "title"; "status"; "priority"; "start_date"; "due_date"] →
  (Py.truthy status = true → Py.contains VALID_STATUSES status = true) →
  (Py.truthy priority = true → Py.contains VALID_PRIORITIES priority = true) →
  is_Some (Sqlite.Milestone db !! milestone_id) →
  ∃ rows,
    get_tasks_by_milestone milestone_id status priority sort_by db
    = (Return (load_entity new_TaskFactory <$> rows), db)
    ∧ NoDup (load_entity new_TaskFactory <$> rows)
    ∧ (∀ t, t ∈ load_entity new_TaskFactory <$> rows
            ↔ stored_task db (Task.id t) = Some t
              ∧ Task.milestone_id t = Some milestone_id
              ∧ (Py.truthy status = true → Task.status t = status)
              ∧ (Py.truthy priority = true → Task.priority t = priority))
    ∧ Sorted (λ a b, Sqlite.value_leb (Sqlite.Task_column sort_by a)
                                      (Sqlite.Task_column sort_by b) = true)
             rows.
Proof.
  intros Hsort Hs Hp Hm.
  rewrite (get_tasks_by_milestone_checked _ _ _ _ _ Hsort Hs Hp Hm).
  eexists. split; [reflexivity |].
  destruct (SELECT_FROM_Task_rows
              (let params := [Sqlite.milestone_id_eq (Some milestone_id)] in
               let params :=
                 if Py.truthy status
                 then params ++ [Sqlite.status_eq status]
                 else params in
               if Py.truthy priority
               then params ++ [Sqlite.priority_eq priority]
               else params) sort_by db) as (Hnd & Hin & Hsorted).
  split; [| split; [| exact Hsorted]].
  - apply NoDup_fmap_2_strong; [| exact Hnd].
    intros r r' _ _. apply load_Task_inj.
  - intros t. rewrite list_elem_of_fmap. split.
    + intros (r & -> & Hr). apply Hin in Hr as [Hl Hw].
      apply get_tasks_by_milestone_WHERE in Hw as (Hmid & Hst & Hpr).
      destruct r as [i [[[[[[[? ?] ?] ?] ?] ?] ?] ?]]. simpl in *.
      split; [exact (stored_task_Some db _ _ Hl) | done].
    + intros (Hst & Hmid & Hstat & Hprio).
      apply stored_task_inv in Hst as (c & Hc & Heq).
      exists (Task.id t, c). split; [exact Heq |].
      apply Hin. split; [exact Hc |].
      apply get_tasks_by_milestone_WHERE.
      destruct t, c as [[[[[[[? ?] ?] ?] ?] ?] ?] ?]. simpl in *.
      by injection Heq as -> -> -> -> -> -> -> ->.
Qed.

Lemma get_tasks_by_milestone_lists_the_matching_tasks_witness :
  ∃ rows,
    get_tasks_by_milestone 1 (Some "ToDo") None "due_date" example_db
    = (Return (load_entity new_TaskFactory <$> rows), example_db)
    ∧ NoDup (load_entity new_TaskFactory <$> rows)
    ∧ (∀ t, t ∈ load_entity new_TaskFactory <$> rows
            ↔ stored_task example_db (Task.id t) = Some t
              ∧ Task.milestone_id t = Some 1
              ∧ (Py.truthy (Some "ToDo") = true → Task.status t = Some "ToDo")
              ∧ (Py.truthy (None : option string) = true
                 → Task.priority t = None))
    ∧ Sorted (λ a b, Sqlite.value_leb (Sqlite.Task_column "due_date" a)
                                      (Sqlite.Task_column "due_date" b) = true)
             rows.
Proof.
  apply (get_tasks_by_milestone_lists_the_matching_tasks
           example_db 1 (Some "ToDo") None "due_date").
  - apply (bool_decide_unpack _). vm_compute. exact I.
  - intros _. vm_compute. reflexivity.
  - intros H. vm_compute in H. discriminate H.
  - apply (bool_decide_unpack _). vm_compute. exact I.
Defined.

(** X15. The checks of [get_tasks_by_milestone] in their order: a sort
    field outside the list raises [ValueError]; then a non-empty status
    filter that is no status, then a non-empty priority filter that is no
    priority, raise [ValueError]; then a milestone that is not stored
    raises [LookupError] when its id is in the 64-bit range of the
    integers of SQLite, and the [OverflowError] of the binding when it is
    not. The database is as it was. *)
Theorem get_tasks_by_milestone_errors (db : Sqlite.Database)
    (milestone_id : Z) (status priority : option string) (sort_by : string) :
  let fields :=
    ["id"; "title"; "status"; "priority"; "start_date"; "due_date"] in
  let bad_status :=
    Py.truthy status = true ∧ Py.contains VALID_STATUSES status = false in
  let bad_priority :=
    Py.truthy priority = true
    ∧ Py.contains VALID_PRIORITIES priority = false in
  let r := get_tasks_by_milestone milestone_id status priority sort_by db in
  (sort_by ∉ fields → r = (Raise (ValueError (Invalid_sort_field sort_by)), db))
  ∧ (sort_by ∈ fields → bad_status →
     r = (Raise (ValueError (Invalid_status_filter status)), db))
  ∧ (sort_by ∈ fields → ¬ bad_status → bad_priority →
     r = (Raise (ValueError (Invalid_priority_filter priority)), db))
  ∧ (sort_by ∈ fields → ¬ bad_status → ¬ bad_priority →
     stored_milestone db milestone_id = None →
     r = (Raise (if Sqlite.int64 milestone_id
                 then LookupError (No_row_found_with "Milestone" "id"
                                     (Some milestone_id))
                 else OverflowError), db)).
Proof.
  intros fields bad_status bad_priority r.
  subst r fields bad_status bad_priority.
  unfold get_tasks_by_milestone. repo_unfold.
  rewrite (bool_decide_ext
             (sort_by ∈ ({[ "id"; "title"; "status"; "priority";
                            "start_date"; "due_date" ]} : gset string))
             (sort_by ∈ ["id"; "title"; "status"; "priority"; "start_date";
                         "due_date"]))
    by (rewrite !elem_of_union, !elem_of_singleton, !elem_of_cons,
          elem_of_nil; tauto).
  split; [| split; [| split]].
  - intros H. by rewrite bool_decide_eq_false_2.
  - intros H [Hs Hv]. rewrite bool_decide_eq_true_2 by done. simpl.
    by rewrite Hs, Hv.
  - intros H Hs [Hp Hv]. rewrite bool_decide_eq_true_2 by done. simpl.
    destruct (Py.truthy status) eqn:Hts,
             (Py.contains VALID_STATUSES status) eqn:Hcs;
      simpl; try (by destruct Hs); by rewrite Hp, Hv.
  - intros H Hs Hp Hm%stored_milestone_None.
    rewrite bool_decide_eq_true_2 by done. simpl.
    destruct (Py.truthy status) eqn:Hts,
             (Py.contains VALID_STATUSES status) eqn:Hcs;
      simpl; try (by destruct Hs);
      (destruct (Py.truthy priority) eqn:Htp,
                (Py.contains VALID_PRIORITIES priority) eqn:Hcp;
       simpl; try (by destruct Hp);
       (step_fk;
        [rewrite (SELECT_1_WHERE_id_absent Sqlite.Milestone_table) in *;
         done |];
        unfold Sqlite.binds;
        by rewrite (SELECT_1_WHERE_id_absent Sqlite.Milestone_table),
             orb_false_r)).
Qed.

Lemma get_tasks_by_milestone_errors_witness :
  get_tasks_by_milestone 9 (Some "Open") (Some "Urgent") "person_id"
    example_db
  = (Raise (ValueError (Invalid_sort_field "person_id")), example_db)
  ∧ get_tasks_by_milestone 9 (Some "Open") (Some "Urgent") "id" example_db
    = (Raise (ValueError (Invalid_status_filter (Some "Open"))), example_db)
  ∧ get_tasks_by_milestone 9 (Some "") (Some "Urgent") "id" example_db
    = (Raise (ValueError (Invalid_priority_filter (Some "Urgent"))),
       example_db)
  ∧ get_tasks_by_milestone 9 (Some "Done") None "id" example_db
    = (Raise (LookupError (No_row_found_with "Milestone" "id" (Some 9))),
       example_db)
  ∧ get_tasks_by_milestone (2 ^ 63) (Some "Done") None "id" example_db
    = (Raise OverflowError, example_db).
Proof.
  split; [| split; [| split; [| split]]].
  - apply (proj1 (get_tasks_by_milestone_errors
                    example_db 9 (Some "Open") (Some "Urgent") "person_id")).
    apply (bool_decide_unpack _). vm_compute. exact I.
  - apply (proj1 (proj2 (get_tasks_by_milestone_errors
                           example_db 9 (Some "Open") (Some "Urgent") "id"))).
    + apply (bool_decide_unpack _). vm_compute. exact I.
    + split; vm_compute; reflexivity.
  - apply (proj1 (proj2 (proj2 (get_tasks_by_milestone_errors
                                  example_db 9 (Some "") (Some "Urgent")
                                  "id")))).
    + apply (bool_decide_unpack _). vm_compute. exact I.
    + intros [H _]. vm_compute in H. discriminate H.
    + split; vm_compute; reflexivity.
  - apply (proj2 (proj2 (proj2 (get_tasks_by_milestone_errors
                                  example_db 9 (Some "Done") None "id")))).
    + apply (bool_decide_unpack _). vm_compute. exact I.
    + intros [_ H]. vm_compute in H. discriminate H.
    + intros [H _]. vm_compute in H. discriminate H.
    + reflexivity.
  - apply (proj2 (proj2 (proj2 (get_tasks_by_milestone_errors
                                  example_db (2 ^ 63) (Some "Done") None
                                  "id")))).
    + apply (bool_decide_unpack _). vm_compute. exact I.
    + intros [_ H]. vm_compute in H. discriminate H.
    + intros [H _]. vm_compute in H. discriminate H.
    + reflexivity.
Defined.

(** ** X16: the emails [_validate_email] accepts *)

Lemma lang_star_class (p : ascii → bool) (l : list ascii) :
  Re.lang (Re.Star (Re.Class p)) l ↔ forallb p l = true.
Proof.
  split.
  - intros H. remember (Re.Star (Re.Class p)) as r eqn:Hr.
    induction H as [| | | | | |r' c l1 l2 H1 _ H2 IH2]; try discriminate.
    + done.
    + injection Hr as ->. apply lang_class_inv in H1 as (c' & [= -> ->] & Hc).
      simpl. rewrite Hc. by apply IH2.
  - induction l as [|c l IH]; simpl; [constructor |].
    intros [Hc Hl]%andb_true_iff.
    apply (Re.lang_star_cons _ c [] l); [by constructor | by apply IH].
Qed.

Lemma lang_plus_class (p : ascii → bool) (l : list ascii) :
  Re.lang (Re.plus (Re.Class p)) l ↔ l ≠ [] ∧ forallb p l = true.
Proof.
  unfold Re.plus. rewrite lang_seq_inv. split.
  - intros (l1 & l2 & -> & (c & -> & Hc)%lang_class_inv & H2%lang_star_class).
    simpl. by rewrite Hc, H2.
  - intros [Hne Hl]. destruct l as [|c l]; [done |].
    simpl in Hl. apply andb_true_iff in Hl as [Hc Hl].
    exists [c], l. split; [done |]. split; [by constructor |].
    by apply lang_star_class.
Qed.

Lemma lang_times_class (n : nat) (p : ascii → bool) (l : list ascii) :
  Re.lang (Re.times n (Re.Class p)) l ↔ length l = n ∧ forallb p l = true.
Proof.
  revert l. induction n as [|n IH]; intros l; simpl.
  - rewrite lang_eps_inv. split; [by intros -> |].
    intros [H _]. by destruct l.
  - rewrite lang_seq_inv. split.
    + intros (l1 & l2 & -> & (c & -> & Hc)%lang_class_inv & [Hn Hl]%IH).
      simpl. by rewrite Hc, Hn, Hl.
    + intros [Hn Hl]. destruct l as [|c l]; [done |].
      simpl in *. apply andb_true_iff in Hl as [Hc Hl].
      exists [c], l. split; [done |]. split; [by constructor |].
      apply IH. split; [congruence | done].
Qed.

Lemma lang_at_least_class (n : nat) (p : ascii → bool) (l : list ascii) :
  Re.lang (Re.at_least n (Re.Class p)) l
  ↔ (n ≤ length l)%nat ∧ forallb p l = true.
Proof.
  unfold Re.at_least. rewrite lang_seq_inv. split.
  - intros (l1 & l2 & -> & [Hn H1]%lang_times_class & H2%lang_star_class).
    rewrite length_app, forallb_app, H1, H2. split; [lia | done].
  - intros [Hn Hl]. exists (take n l), (drop n l).
    rewrite <-(take_drop n l) in Hl. rewrite forallb_app in Hl.
    apply andb_true_iff in Hl as [H1 H2].
    split; [by rewrite take_drop |]. split.
    + apply lang_times_class. split; [| done]. rewrite length_take. lia.
    + by apply lang_star_class.
Qed.

Lemma EMAIL_FORMAT_lang (l : list ascii) :
  Re.lang EMAIL_FORMAT l
  ↔ ∃ local domain tld,
      l = local ++ "@"%char :: domain ++ "."%char :: tld
      ∧ local ≠ [] ∧ forallb is_local_char local = true
      ∧ domain ≠ [] ∧ forallb is_domain_char domain = true
      ∧ (2 ≤ length tld)%nat ∧ forallb is_letter tld = true.
Proof.
  unfold EMAIL_FORMAT, Re.chr. split.
  - intros H.
    apply lang_seq_inv in H as (local & l1 & -> & Hlocal%lang_plus_class & H).
    apply lang_seq_inv in H as (a & l2 & -> & (c1 & -> & Hc1)%lang_class_inv & H).
    apply lang_seq_inv in H as (domain & l3 & -> & Hdomain%lang_plus_class & H).
    apply lang_seq_inv in H
      as (b & tld & -> & (c2 & -> & Hc2)%lang_class_inv
          & Htld%lang_at_least_class).
    apply Ascii.eqb_eq in Hc1 as <-. apply Ascii.eqb_eq in Hc2 as <-.
    exists local, domain, tld. simpl. tauto.
  - intros (local & domain & tld & -> & ? & ? & ? & ? & ? & ?).
    apply Re.lang_seq; [by apply lang_plus_class |].
    apply (Re.lang_seq _ _ ["@"%char]);
      [apply Re.lang_class, Ascii.eqb_refl |].
    apply Re.lang_seq; [by apply lang_plus_class |].
    apply (Re.lang_seq _ _ ["."%char]);
      [apply Re.lang_class, Ascii.eqb_refl |].
    by apply lang_at_least_class.
Qed.

(** X16. [_validate_email] accepts exactly the strings made of a
    non-empty local part of letters, digits and [._%+-], an [@], a
    non-empty domain of letters, digits, dots and hyphens, a dot, and two
    or more letters, possibly followed by one newline (the [$] of the
    pattern matches before a final newline); every other string raises
    the [ValueError]. *)
Theorem _validate_email_accepts (email : string) :
  let accepted :=
    ∃ local domain tld tail,
      list_ascii_of_string email
      = local ++ "@"%char :: domain ++ "."%char :: tld ++ tail
      ∧ local ≠ [] ∧ forallb is_local_char local = true
      ∧ domain ≠ [] ∧ forallb is_domain_char domain = true
      ∧ (2 ≤ length tld)%nat ∧ forallb is_letter tld = true
      ∧ (tail = [] ∨ tail = ["010"%char]) in
  (_validate_email (Some email) = Return tt ↔ accepted)
  ∧ (¬ accepted →
     _validate_email (Some email)
     = Raise (ValueError (Invalid_email_format email))).
Proof.
  intros accepted.
  assert (Re.match_ EMAIL_FORMAT email = true ↔ accepted) as Hm.
  { subst accepted. unfold Re.match_.
    rewrite orb_true_iff, matches_lang, EMAIL_FORMAT_lang. split.
    - intros [(local & domain & tld & -> & H) | H].
      + exists local, domain, tld, []. rewrite app_nil_r. tauto.
      + destruct (Re.before_final_newline _) as [l'|] eqn:Hl;
          [| discriminate].
        apply before_final_newline_Some in Hl.
        apply matches_lang, EMAIL_FORMAT_lang in H
          as (local & domain & tld & -> & H).
        exists local, domain, tld, ["010"%char].
        rewrite Hl, <-!app_assoc. simpl. rewrite <-!app_assoc. simpl.
        tauto.
    - intros (local & domain & tld & tail & -> & H1 & H2 & H3 & H4 & H5 & H6
              & [-> | ->]).
      + left. exists local, domain, tld. rewrite app_nil_r. tauto.
      + right.
        assert (Re.before_final_newline (λ c, Ascii.eqb c "010")
                  (local ++ "@"%char :: domain ++ "."%char :: tld
                   ++ ["010"%char])
                = Some (local ++ "@"%char :: domain ++ "."%char :: tld))
          as ->.
        { apply before_final_newline_Some.
          rewrite <-!app_assoc. simpl. by rewrite <-!app_assoc. }
        apply matches_lang, EMAIL_FORMAT_lang.
        exists local, domain, tld. tauto. }
  unfold _validate_email.
  destruct (Re.match_ EMAIL_FORMAT email); simpl.
  - split; [split; [intros _; by apply Hm | done] |].
    intros H. destruct H. by apply Hm.
  - split; [| done]. split; [discriminate |].
    intros H%Hm. discriminate.
Qed.

Lemma _validate_email_accepts_witness :
  _validate_email (Some "ada.l+x@mail.example.org") = Return tt
  ∧ _validate_email (Some "ada@example")
    = Raise (ValueError (Invalid_email_format "ada@example")).
Proof.
  split.
  - apply (proj1 (_validate_email_accepts "ada.l+x@mail.example.org")).
    exists (list_ascii_of_string "ada.l+x"),
           (list_ascii_of_string "mail.example"),
           (list_ascii_of_string "org"), [].
    repeat split; try reflexivity; try discriminate; simpl; try lia.
    by left.
  - apply (proj2 (_validate_email_accepts "ada@example")).
    intros (local & domain & tld & tail & Heq & _ & _ & _ & Hd & _ & _ & _).
    assert ("."%char ∈ list_ascii_of_string "ada@example") as Hin.
    { rewrite Heq. apply elem_of_app. right. apply elem_of_cons. right.
      apply elem_of_app. right. apply elem_of_cons. by left. }
    apply (bool_decide_pack _) in Hin. vm_compute in Hin. destruct Hin.
Defined.

(** ** X17, X18: when an addition is accepted *)





(** ** X19, X20, X21: a write touches its own row only *)

Lemma stored_person_lookup (db : Sqlite.Database) (id : Z) :
  stored_person db id
  = (λ c, load_entity new_PersonFactory (id, c)) <$> Sqlite.Person db !! id.
Proof.
  unfold stored_person, Sqlite.SELECT_WHERE_id. simpl.
  by destruct (Sqlite.Person db !! id).
Qed.

Lemma stored_milestone_lookup (db : Sqlite.Database) (id : Z) :
  stored_milestone db id
  = (λ c, load_entity new_MilestoneFactory (id, c))
    <$> Sqlite.Milestone db !! id.
Proof.
  unfold stored_milestone, Sqlite.SELECT_WHERE_id. simpl.
  by destruct (Sqlite.Milestone db !! id).
Qed.

(** What a call of [add_task] that returns has checked and written. *)
Lemma add_task_Return_inv (db db' : Sqlite.Database)
    (title description status priority start_date due_date : option string)
    (person_id milestone_id : option Z) (t : Task.t) :
  add_task title description status priority start_date due_date
           person_id milestone_id db = (Return t, db') →
  _validate_status status = Return tt
  ∧ _validate_priority priority = Return tt
  ∧ Sqlite.Task_constraints
      (title, description, status, priority, start_date, due_date,
       person_id, milestone_id) db = None
  ∧ db' = Sqlite.with_Task
            (<[Task.id t := (title, description, status, priority,
                             start_date, due_date, person_id, milestone_id)]>
               (Sqlite.Task db))
            (Task.id t) db
  ∧ Sqlite.Task db !! Task.id t = None.
Proof.
  unfold add_task. repo_unfold.
  destruct (_validate_status status) as [[]|]; [| discriminate].
  destruct (_validate_priority priority) as [[]|]; [| discriminate].
  destruct (_validate_date start_date) as [[]|]; [| discriminate].
  destruct (_validate_date due_date) as [[]|]; [| discriminate].
  step_fk; [| discriminate].
  destruct (Py.truthy milestone_id); [step_fk; [| discriminate] |];
    (cbv beta iota; unfold Sqlite.INSERT_INTO_Task;
     destruct (Sqlite.Task_constraints _ db) eqn:Hc; [discriminate |];
     intros [= <- <-]; simpl;
     repeat (split; [done |]); apply next_rowid_fresh).
Qed.

(** X19. An addition that returns stores its record under an id that
    was free, and leaves every other row of its table, and the two other
    tables, as they were. *)
Theorem add_keeps_the_other_rows (db db' : Sqlite.Database) :
  (∀ name email role p,
     add_person name email role db = (Return p, db') →
     stored_person db (Person.id p) = None
     ∧ stored_person db' (Person.id p) = Some p
     ∧ (∀ id, id ≠ Person.id p → stored_person db' id = stored_person db id)
     ∧ Sqlite.Milestone db' = Sqlite.Milestone db
     ∧ Sqlite.Task db' = Sqlite.Task db)
  ∧ (∀ name m,
       add_milestone name db = (Return m, db') →
       stored_milestone db (Milestone.id m) = None
       ∧ stored_milestone db' (Milestone.id m) = Some m
       ∧ (∀ id, id ≠ Milestone.id m →
                stored_milestone db' id = stored_milestone db id)
       ∧ Sqlite.Person db' = Sqlite.Person db
       ∧ Sqlite.Task db' = Sqlite.Task db)
  ∧ (∀ title description status priority start_date due_date person_id
       milestone_id t,
       add_task title description status priority start_date due_date
                person_id milestone_id db = (Return t, db') →
       stored_task db (Task.id t) = None
       ∧ stored_task db' (Task.id t) = Some t
       ∧ (∀ id, id ≠ Task.id t → stored_task db' id = stored_task db id)
       ∧ Sqlite.Person db' = Sqlite.Person db
       ∧ Sqlite.Milestone db' = Sqlite.Milestone db).
Proof.
  split; [| split].
  - intros name email role p. rewrite add_person_effect.
    destruct (_validate_email email); [| discriminate].
    unfold Sqlite.INSERT_INTO_Person.
    destruct name as [n|]; [| discriminate].
    destruct email as [e|]; [| discriminate].
    destruct (bool_decide _); [discriminate |].
    intros [= <- <-]. simpl.
    split; [apply stored_person_None, next_rowid_fresh |].
    split.
    { apply (stored_person_Some _ _ ((Some n, Some e, role)
                                     : Sqlite.Person_columns)).
      simpl. apply lookup_insert_eq. }
    split; [| done]. intros id Hne. rewrite !stored_person_lookup. simpl.
    by rewrite lookup_insert_ne.
  - intros name m. rewrite add_milestone_effect.
    unfold Sqlite.INSERT_INTO_Milestone.
    destruct name as [n|]; [| discriminate].
    intros [= <- <-]. simpl.
    split; [apply stored_milestone_None, next_rowid_fresh |].
    split.
    { rewrite stored_milestone_lookup. simpl. by rewrite lookup_insert_eq. }
    split; [| done]. intros id Hne. rewrite !stored_milestone_lookup. simpl.
    by rewrite lookup_insert_ne.
  - intros title description status priority start_date due_date person_id
      milestone_id t Hadd.
    destruct (add_task_returns_then_get _ _ _ _ _ _ _ _ _ _ _ Hadd)
      as (Ht & _ & _).
    destruct (add_task_Return_inv _ _ _ _ _ _ _ _ _ _ _ Hadd)
      as (_ & _ & _ & -> & Hfree).
    simpl. split; [by apply stored_task_None |].
    split.
    { rewrite stored_task_lookup. simpl. rewrite lookup_insert_eq. simpl.
      f_equal. exact (eq_sym Ht). }
    split; [| done]. intros id Hne. rewrite !stored_task_lookup. simpl.
    by rewrite lookup_insert_ne.
Qed.

Lemma add_keeps_the_other_rows_witness :
  let r := add_person (Some "Grace") (Some "grace@example.com") None
             example_db in
  stored_person example_db 2 = None
  ∧ stored_person r.2 2
    = Some {| Person.id := 2; Person.name := Some "Grace";
              Person.email := Some "grace@example.com";
              Person.role := None |}
  ∧ (∀ id, id ≠ 2 → stored_person r.2 id = stored_person example_db id)
  ∧ Sqlite.Milestone r.2 = Sqlite.Milestone example_db
  ∧ Sqlite.Task r.2 = Sqlite.Task example_db.
Proof.
  exact (proj1 (add_keeps_the_other_rows example_db
                  (add_person (Some "Grace") (Some "grace@example.com") None
                     example_db).2)
           (Some "Grace") (Some "grace@example.com") None
           {| Person.id := 2; Person.name := Some "Grace";
              Person.email := Some "grace@example.com";
              Person.role := None |} eq_refl).
Defined.

(** X20. An update that returns leaves every other row of its table,
    the two other tables and the counter of its table as they were. *)
Theorem update_keeps_the_other_rows (db db' : Sqlite.Database) (id : Z) :
  (∀ name email role p,
     update_person id name email role db = (Return p, db') →
     (∀ other, other ≠ id → stored_person db' other = stored_person db other)
     ∧ Sqlite.Milestone db' = Sqlite.Milestone db
     ∧ Sqlite.Task db' = Sqlite.Task db
     ∧ Sqlite.Person_seq db' = Sqlite.Person_seq db)
  ∧ (∀ name m,
       update_milestone id name db = (Return m, db') →
       (∀ other, other ≠ id →
                 stored_milestone db' other = stored_milestone db other)
       ∧ Sqlite.Person db' = Sqlite.Person db
       ∧ Sqlite.Task db' = Sqlite.Task db
       ∧ Sqlite.Milestone_seq db' = Sqlite.Milestone_seq db)
  ∧ (∀ title description status priority start_date due_date person_id
       milestone_id t,
       update_task id title description status priority start_date due_date
                   person_id milestone_id db = (Return t, db') →
       (∀ other, other ≠ id → stored_task db' other = stored_task db other)
       ∧ Sqlite.Person db' = Sqlite.Person db
       ∧ Sqlite.Milestone db' = Sqlite.Milestone db
       ∧ Sqlite.Task_seq db' = Sqlite.Task_seq db).
Proof.
  split; [| split].
  - intros name email role p.
    destruct (Sqlite.Person db !! id) as [[[n e] r]|] eqn:Hc;
      [| rewrite (update_person_absent _ _ _ _ _ Hc); discriminate].
    destruct (update_person_effect db id name email role n e r Hc)
      as [-> | [x ->]]; [| discriminate].
    intros [= _ <-]. simpl. split; [| done].
    intros other Hne. rewrite !stored_person_lookup. simpl.
    by rewrite lookup_insert_ne.
  - intros name m.
    destruct (Sqlite.Milestone db !! id) as [n|] eqn:Hc;
      [| rewrite (update_milestone_absent _ _ _ Hc); discriminate].
    destruct (update_milestone_effect db id name n Hc)
      as [-> | [x ->]]; [| discriminate].
    intros [= _ <-]. simpl. split; [| done].
    intros other Hne. rewrite !stored_milestone_lookup. simpl.
    by rewrite lookup_insert_ne.
  - intros title description status priority start_date due_date person_id
      milestone_id t.
    destruct (Sqlite.Task db !! id)
      as [[[[[[[[t0 d0] s0] p0] sd0] dd0] pid0] mid0]|] eqn:Hc;
      [| rewrite (update_task_absent _ _ _ _ _ _ _ _ _ _ Hc); discriminate].
    destruct (update_task_effect db id title description status priority
                start_date due_date person_id milestone_id
                t0 d0 s0 p0 sd0 dd0 pid0 mid0 Hc)
      as [-> | [x ->]]; [| discriminate].
    intros [= _ <-]. simpl. split; [| done].
    intros other Hne. rewrite !stored_task_lookup. simpl.
    by rewrite lookup_insert_ne.
Qed.

Lemma update_keeps_the_other_rows_witness :
  let r := update_task 1 None None (Some "Done") None None None None None
             example_db in
  (∀ other, other ≠ 1 → stored_task r.2 other = stored_task example_db other)
  ∧ Sqlite.Person r.2 = Sqlite.Person example_db
  ∧ Sqlite.Milestone r.2 = Sqlite.Milestone example_db
  ∧ Sqlite.Task_seq r.2 = Sqlite.Task_seq example_db.
Proof.
  exact (proj2 (proj2 (update_keeps_the_other_rows example_db
                  (update_task 1 None None (Some "Done") None None None None
                     None example_db).2 1))
           None None (Some "Done") None None None None None
           {| Task.id := 1; Task.title := Some "Write spec";
              Task.description := Some ""; Task.status := Some "Done";
              Task.priority := Some "High";
              Task.start_date := Some "2025-01-01";
              Task.due_date := Some "2025-01-10";
              Task.person_id := Some 1; Task.milestone_id := Some 1 |}
           eq_refl).
Defined.

(** X21. [delete_person] of a stored person leaves every other person and
    every milestone as stored, and [delete_milestone] of a stored milestone
    leaves every other milestone and every person as stored, and removes
    no task; neither moves the counter of its table or of the tasks. *)
Theorem delete_keeps_the_other_rows (db : Sqlite.Database) (id : Z) :
  (is_Some (stored_person db id) →
   let db' := (delete_person id db).2 in
   (∀ other, other ≠ id → stored_person db' other = stored_person db other)
   ∧ Sqlite.Milestone db' = Sqlite.Milestone db
   ∧ Sqlite.Person_seq db' = Sqlite.Person_seq db
   ∧ Sqlite.Task_seq db' = Sqlite.Task_seq db)
  ∧ (is_Some (stored_milestone db id) →
     let db' := (delete_milestone id db).2 in
     (∀ other, other ≠ id →
               stored_milestone db' other = stored_milestone db other)
     ∧ Sqlite.Person db' = Sqlite.Person db
     ∧ Sqlite.Milestone_seq db' = Sqlite.Milestone_seq db
     ∧ Sqlite.Task_seq db' = Sqlite.Task_seq db
     ∧ ∀ task_id, is_Some (stored_task db' task_id)
                  ↔ is_Some (stored_task db task_id)).
Proof.
  split.
  - intros H%stored_person_is_Some db'. subst db'.
    rewrite (delete_person_effect _ _ H). simpl. split; [| done].
    intros other Hne. rewrite !stored_person_lookup. simpl.
    by rewrite lookup_delete_ne.
  - intros H%stored_milestone_is_Some db'. subst db'.
    rewrite (delete_milestone_effect _ _ H). simpl.
    split; [| repeat (split; [done |])].
    + intros other Hne. rewrite !stored_milestone_lookup. simpl.
      by rewrite lookup_delete_ne.
    + intros task_id. rewrite !stored_task_lookup. simpl.
      rewrite lookup_fmap, !fmap_is_Some. done.
Qed.

Lemma delete_keeps_the_other_rows_witness :
  let db' := (delete_milestone 1 example_db).2 in
  (∀ other, other ≠ 1 →
            stored_milestone db' other = stored_milestone example_db other)
  ∧ Sqlite.Person db' = Sqlite.Person example_db
  ∧ Sqlite.Milestone_seq db' = Sqlite.Milestone_seq example_db
  ∧ Sqlite.Task_seq db' = Sqlite.Task_seq example_db
  ∧ ∀ task_id, is_Some (stored_task db' task_id)
               ↔ is_Some (stored_task example_db task_id).
Proof.
  apply (proj2 (delete_keeps_the_other_rows example_db 1)).
  apply (bool_decide_unpack _). vm_compute. exact I.
Defined.

(** ** X22: a new task in the list of its milestone *)

Lemma _validate_status_contains (status : option string) :
  _validate_status status = Return tt →
  Py.contains VALID_STATUSES status = true.
Proof.
  unfold _validate_status.
  by destruct (Py.contains VALID_STATUSES status).
Qed.

Lemma _validate_priority_contains (priority : option string) :
  _validate_priority priority = Return tt →
  Py.contains VALID_PRIORITIES priority = true.
Proof.
  unfold _validate_priority.
  by destruct (Py.contains VALID_PRIORITIES priority).
Qed.

(** X22. After [add_task] has returned a task for a milestone,
    [get_tasks_by_milestone] for that milestone, with each filter empty
    or equal to the field of the task, and a sort field of its list,
    returns a list that holds the new task, and whose other tasks were
    stored before the addition. *)
Theorem added_task_is_listed_for_its_milestone (db db' : Sqlite.Database)
    (title description status priority start_date due_date : option string)
    (person_id : option Z) (milestone_id : Z) (t : Task.t)
    (status_filter priority_filter : option string) (sort_by : string) :
  add_task title description status priority start_date due_date person_id
           (Some milestone_id) db = (Return t, db') →
  sort_by ∈ ["id"; "title"; "status"; "priority"; "start_date"; "due_date"] →
  (Py.truthy status_filter = true → status_filter = status) →
  (Py.truthy priority_filter = true → priority_filter = priority) →
  ∃ l,
    get_tasks_by_milestone milestone_id status_filter priority_filter sort_by
      db' = (Return l, db')
    ∧ t ∈ l
    ∧ ∀ u, u ∈ l → u ≠ t → stored_task db (Task.id u) = Some u.
Proof.
  intros Hadd Hsort Hfs Hfp.
  destruct (add_task_returns_then_get _ _ _ _ _ _ _ _ _ _ _ Hadd)
    as (Ht & _ & _).
  destruct (add_task_Return_inv _ _ _ _ _ _ _ _ _ _ _ Hadd)
    as (Hs & Hp & Hc & Hdb & Hfree).
  apply Task_constraints_None in Hc as (_ & _ & Hm).
  pose proof (proj1 (references_Some _ _) Hm milestone_id eq_refl) as Hmil.
  set (c := (title, description, status, priority, start_date, due_date,
             person_id, Some milestone_id) : Sqlite.Task_columns) in *.
  assert (Sqlite.Milestone db' = Sqlite.Milestone db) as Hmdb
    by (by rewrite Hdb).
  assert (Sqlite.Task db' = <[Task.id t := c]> (Sqlite.Task db)) as Htdb
    by (by rewrite Hdb).
  clear Hdb.
  rewrite (get_tasks_by_milestone_checked milestone_id status_filter
             priority_filter sort_by db' Hsort);
    [| intros H; rewrite (Hfs H); by apply _validate_status_contains
     | intros H; rewrite (Hfp H); by apply _validate_priority_contains
     | by rewrite Hmdb].
  eexists. split; [reflexivity |].
  match goal with
  | |- context [Sqlite.SELECT_FROM_Task ?w sort_by db'] =>
      destruct (SELECT_FROM_Task_rows w sort_by db') as (_ & Hin & _)
  end.
  split.
  - apply list_elem_of_fmap. exists (Task.id t, c).
    split; [by rewrite Ht at 1 |].
    apply Hin. split; [simpl; rewrite Htdb; apply lookup_insert_eq |].
    apply get_tasks_by_milestone_WHERE. subst c.
    unfold Sqlite.milestone_id_of, Sqlite.status_of, Sqlite.priority_of.
    simpl. split; [done |]. split; intros H; symmetry; auto.
  - intros u (r & -> & Hr%Hin)%list_elem_of_fmap Hne.
    destruct Hr as [Hl _]. destruct r as [i cu].
    simpl in Hl. rewrite Htdb in Hl.
    destruct (decide (i = Task.id t)) as [-> | Hi].
    + rewrite lookup_insert_eq in Hl. injection Hl as <-.
      destruct Hne. rewrite Ht at 2. done.
    + rewrite lookup_insert_ne in Hl by done.
      apply stored_task_Some in Hl.
      by destruct cu as [[[[[[[? ?] ?] ?] ?] ?] ?] ?].
Qed.

Lemma added_task_is_listed_for_its_milestone_witness :
  let r := add_task (Some "Review") None (Some "Done") (Some "Low")
             (Some "2025-02-01") (Some "2025-02-03") (Some 1) (Some 1)
             example_db in
  ∃ l,
    get_tasks_by_milestone 1 (Some "Done") None "title" r.2 = (Return l, r.2)
    ∧ {| Task.id := 2; Task.title := Some "Review";
         Task.description := None; Task.status := Some "Done";
         Task.priority := Some "Low"; Task.start_date := Some "2025-02-01";
         Task.due_date := Some "2025-02-03"; Task.person_id := Some 1;
         Task.milestone_id := Some 1 |} ∈ l
    ∧ ∀ u, u ∈ l →
           u ≠ {| Task.id := 2; Task.title := Some "Review";
                  Task.description := None; Task.status := Some "Done";
                  Task.priority := Some "Low";
                  Task.start_date := Some "2025-02-01";
                  Task.due_date := Some "2025-02-03";
                  Task.person_id := Some 1; Task.milestone_id := Some 1 |} →
           stored_task example_db (Task.id u) = Some u.
Proof.
  apply (added_task_is_listed_for_its_milestone
           example_db _ (Some "Review") None (Some "Done") (Some "Low")
           (Some "2025-02-01") (Some "2025-02-03") (Some 1) 1 _
           (Some "Done") None "title").
  - reflexivity.
  - apply (bool_decide_unpack _). vm_compute. exact I.
  - reflexivity.
  - intros H. vm_compute in H. discriminate H.
Defined.
